(** * The langchain embedding handler of MindsDB, embedded in Rocq

    Source: [mindsdb/integrations/handlers/langchain_embedding_handler/
    langchain_embedding_handler.py].

    The handler turns a persisted configuration into an embedding model
    ([construct_model_from_args]), serialises the rows of a dataframe
    ([row_to_document]) and drives the model over them in batches with a
    per-document fallback ([predict]).  Python objects that the handler
    mutates (the configuration dict, the caller's dataframe, the model
    storage) are threaded explicitly; exceptions are values of [exn];
    calls of the logger and of the embedding backend are recorded in a
    journal of [event]s.

    Strings are sequences of 8-bit characters; [lower] is the ASCII part of
    [str.lower].  Numbers inside an embedding vector are opaque to the
    handler, so the vector type is a parameter. *)

From Stdlib Require Import ZArith String Ascii DecimalString Lia List.
From stdpp Require Import base option list strings gmap.

Local Open Scope Z_scope.

(* ===================================================================== *)
(** * Python strings *)
(* ===================================================================== *)

Module PyString.

(** The one-character string ["\n"]. *)
Definition nl : string := String "010"%char EmptyString.

(** [sep.join(parts)] *)
Definition join (sep : string) (parts : list string) : string :=
  String.concat sep parts.

(** [s.lstrip(c)] for a one-character [c]. *)
Fixpoint lstrip (c : ascii) (s : string) : string :=
  match s with
  | String a s' => if Ascii.eqb a c then lstrip c s' else s
  | EmptyString => EmptyString
  end.

(** [s.rstrip(c)] for a one-character [c]. *)
Fixpoint rstrip (c : ascii) (s : string) : string :=
  match s with
  | String a s' =>
      match rstrip c s' with
      | EmptyString => if Ascii.eqb a c then EmptyString else String a EmptyString
      | r => String a r
      end
  | EmptyString => EmptyString
  end.

(** [s.strip(c)] for a one-character [c]. *)
Definition strip (c : ascii) (s : string) : string := rstrip c (lstrip c s).

(** [s.startswith(p)] *)
Definition startswith (s p : string) : bool := String.prefix p s.

Definition lower_ascii (a : ascii) : ascii :=
  let n := nat_of_ascii a in
  if ((65 <=? n)%nat && (n <=? 90)%nat)%bool then ascii_of_nat (n + 32) else a.

(** [s.lower()] on ASCII letters. *)
Fixpoint lower (s : string) : string :=
  match s with
  | String a s' => String (lower_ascii a) (lower s')
  | EmptyString => EmptyString
  end.

(** [s.replace(old, empty)] for a non-empty [old]: the occurrences of [old]
    are found from left to right, without overlap, and dropped.  [skip]
    counts the characters of an occurrence still to be dropped. *)
Fixpoint remove_from (old : string) (skip : nat) (s : string) : string :=
  match s with
  | EmptyString => EmptyString
  | String a s' =>
      match skip with
      | S k => remove_from old k s'
      | O =>
          if String.prefix old s
          then remove_from old (Nat.pred (String.length old)) s'
          else String a (remove_from old O s')
      end
  end.

Definition remove_all (old s : string) : string := remove_from old O s.

(** [str(n)] of a Python integer. *)
Definition of_Z (n : Z) : string := NilZero.string_of_int (Z.to_int n).

End PyString.

(** [str(x)]: the textual representation that an f-string interpolates. *)
Class Str (A : Type) := str : A -> string.

(** The Python scalars that occur as dataframe cells and as configuration
    values. *)
Inductive scalar :=
| PyNone
| PyBool (b : bool)
| PyInt (n : Z)
| PyStr (s : string).

#[export] Instance Str_string : Str string := fun s => s.
#[export] Instance Str_Z : Str Z := PyString.of_Z.
#[export] Instance Str_bool : Str bool := fun b => if b then "True" else "False".
#[export] Instance Str_scalar : Str scalar := fun x =>
  match x with
  | PyNone => "None"
  | PyBool b => str b
  | PyInt n => str n
  | PyStr s => s
  end.

(* ===================================================================== *)
(** * Dataframes *)
(* ===================================================================== *)

(** A [pd.Series]: labels and values, position by position. *)
Record Series (A : Type) := mkSeries {
  s_index : list string;
  s_values : list A
}.
Arguments mkSeries {A} _ _.
Arguments s_index {A} _.
Arguments s_values {A} _.

(** A [pd.DataFrame] with the default row index: the column labels, which
    need not be distinct, and the rows, each as long as [columns]. *)
Record DataFrame (A : Type) := mkDataFrame {
  columns : list string;
  rows : list (list A)
}.
Arguments mkDataFrame {A} _ _.
Arguments columns {A} _.
Arguments rows {A} _.

(** The object that [predict] binds to [input_columns] and hands to
    [df[...]]: a list of names or, when the stored configuration holds a
    string there, that string. *)
Inductive column_key :=
| Labels (cols : list string)
| Label (s : string).

(** [for col in input_columns]: the names of a list, the characters of a
    string. *)
Definition elements (input_columns : column_key) : list string :=
  match input_columns with
  | Labels cols => cols
  | Label s => (fun a => String a EmptyString) <$> list_ascii_of_string s
  end.

(** The labels that [df[input_columns]] asks for. *)
Definition labels_of (input_columns : column_key) : list string :=
  match input_columns with
  | Labels cols => cols
  | Label s => [s]
  end.

Section Frames.
Context {A : Type}.

(** [len(df)] *)
Definition len (df : DataFrame A) : Z := Z.of_nat (length (rows df)).

(** [df.columns = labels] (the number of labels is that of the columns in
    every use below) *)
Definition set_columns (labels : list string) (df : DataFrame A) : DataFrame A :=
  mkDataFrame labels (rows df).

(** [l[start:stop]] for [0 <= start] and [0 <= stop]. *)
Definition slice {X} (start stop : Z) (l : list X) : list X :=
  take (Z.to_nat (stop - start)) (drop (Z.to_nat start) l).

(** [df.iloc[start:stop]] *)
Definition iloc (start stop : Z) (df : DataFrame A) : DataFrame A :=
  mkDataFrame (columns df) (slice start stop (rows df)).

(** The cells of one row under the label [c], from left to right. *)
Definition cells_of (labels : list string) (r : list A) (c : string) : list A :=
  snd <$> filter (fun p => p.1 = c) (zip labels r).

(** The labels of [df[cols]]: for every requested label, in the order
    requested, each column of [df] that carries it. *)
Definition selected_labels (labels cols : list string) : list string :=
  cols ≫= (fun c => filter (fun l => l = c) labels).

Definition selected_cells (labels : list string) (cols : list string) (r : list A)
  : list A :=
  cols ≫= cells_of labels r.

(** [df[cols]] once every label of [cols] is known to be a column. *)
Definition select (cols : list string) (df : DataFrame A) : DataFrame A :=
  mkDataFrame (selected_labels (columns df) cols)
              (selected_cells (columns df) cols <$> rows df).

(** [df.apply(f, axis=1).tolist()]: [f] on every row as a Series indexed by
    the column labels.  The cells are the values as the row Series holds
    them, after whatever conversion to a common dtype pandas has made. *)
Definition apply_rows {B} (f : Series A -> B) (df : DataFrame A) : list B :=
  (fun r => f (mkSeries (columns df) r)) <$> rows df.

End Frames.

(* ===================================================================== *)
(** * The row serializer *)
(* ===================================================================== *)

Section RowToDocument.
Context {A : Type} `{Str A}.

(** The f-string [f"{field}: {value}"]. *)
Definition field_line (p : string * A) : string :=
  p.1 +:+ ": " +:+ str p.2.

(** [LangchainEmbeddingHandler.row_to_document] *)
Definition row_to_document (row : Series A) : string :=
  let fields := s_index row in
  let values := s_values row in
  let document := PyString.join PyString.nl (field_line <$> zip fields values) in
  document.

(** The specification's serializer, on a row given as an ordered mapping
    from column to value: one ["<column>: <value>"] line per column, a
    newline between two lines. *)
Fixpoint serialize_spec (row : list (string * A)) : string :=
  match row with
  | [] => EmptyString
  | [(c, v)] => c +:+ ": " +:+ str v
  | (c, v) :: rest => (c +:+ ": " +:+ str v) +:+ PyString.nl +:+ serialize_spec rest
  end.

(** The Series that pandas hands to [row_to_document] for such a row. *)
Definition series_of (row : list (string * A)) : Series A :=
  mkSeries (fst <$> row) (snd <$> row).

End RowToDocument.

(* ===================================================================== *)
(** * Exceptions, journal and the state-and-error monad *)
(* ===================================================================== *)

(** Python exceptions.  [Exception msg] is [raise Exception(msg)] of the
    handler, with the message as the f-string renders it; [Raised msg] is an
    exception of external code (a backend constructor), [msg] being its
    [str].  [InputColumnsNotFound] is the exception of [predict] whose
    message interpolates [input_columns] (a list or a string) and a pandas
    index: it carries the two interpolated values. *)
Inductive exn :=
| Exception (msg : string)
| Raised (msg : string)
| AttributeError (name : string)
| KeyError (key : string)
| TypeError (what : string)
| ValueError (what : string)
| InputColumnsNotFound (input_columns : column_key) (available : list string).

Inductive level := DEBUG | INFO | WARNING | ERROR.

(** What a run leaves behind besides its result: the records handed to
    [logger], the calls [model.embed_documents(docs)], and the assignment
    [df.columns = labels] on the caller's dataframe, in the order in which
    they happen. *)
Inductive event :=
| Log (lvl : level) (msg : string)
| EmbedCall (docs : list string)
| ColumnsAssigned (labels : list string).

(** The outcome of running a computation over a mutable object of type
    [S]: the object as the computation leaves it, the journal of the run,
    and the value returned or the exception raised.  Mutations made before
    an exception stay. *)
Record run (S X : Type) := Run {
  final : S;
  journal : list event;
  result : exn + X
}.
Arguments Run {S X} _ _ _.
Arguments final {S X} _.
Arguments journal {S X} _.
Arguments result {S X} _.

Definition M (S X : Type) : Type := S -> run S X.

Definition ret {S X} (x : X) : M S X := fun s => Run s [] (inr x).

Definition raise {S X} (e : exn) : M S X := fun s => Run s [] (inl e).

(** The run [r], after the events [j]. *)
Definition prepend {S X} (j : list event) (r : run S X) : run S X :=
  Run (final r) (j ++ journal r) (result r).

Definition bind {S X Y} (m : M S X) (k : X -> M S Y) : M S Y :=
  fun s =>
    match m s with
    | Run s' j (inr x) => prepend j (k x s')
    | Run s' j (inl e) => Run s' j (inl e)
    end.

Notation "'do' x <- m ; k" := (bind m (fun x => k))
  (at level 10, x name, m at level 100, k at level 200).
Notation "'do' ' p <- m ; k" := (bind m (fun x => match x with p => k end))
  (at level 10, p pattern, m at level 100, k at level 200).

Definition get {S} : M S S := fun s => Run s [] (inr s).

Definition put {S} (s : S) : M S unit := fun _ => Run s [] (inr tt).

Definition emit {S} (e : event) : M S unit := fun s => Run s [e] (inr tt).

Definition log {S} (lvl : level) (msg : string) : M S unit := emit (Log lvl msg).

(** Lifts the result of a pure fallible step. *)
Definition lift {S X} (r : exn + X) : M S X := fun s => Run s [] r.

(** Runs a computation over a local object [t]; the final state of the
    local object is returned with the value, and is lost with an
    exception. *)
Definition on_local {S T X} (t : T) (m : M T X) : M S (T * X) :=
  fun s =>
    match m t with
    | Run t' j (inr x) => Run s j (inr (t', x))
    | Run _ j (inl e) => Run s j (inl e)
    end.

(** [for x in xs: acc = body(acc, x)] *)
Fixpoint for_each {S X Y} (xs : list X) (body : Y -> X -> M S Y) (acc : Y) : M S Y :=
  match xs with
  | [] => ret acc
  | x :: xs' => do acc' <- body acc x; for_each xs' body acc'
  end.

(** The calls of the backend recorded in a journal, in order. *)
Definition embed_calls (j : list event) : list (list string) :=
  omap (fun e => match e with EmbedCall docs => Some docs | _ => None end) j.

(* ===================================================================== *)
(** * Python's [range] *)
(* ===================================================================== *)

(** [len(range(start, stop, step))] for [step <> 0] *)
Definition range_len (start stop step : Z) : Z :=
  if 0 <? step
  then (if start <? stop then (stop - start - 1) / step + 1 else 0)
  else (if stop <? start then (start - stop - 1) / (- step) + 1 else 0).

Definition range_list (start stop step : Z) : list Z :=
  (fun i => start + Z.of_nat i * step) <$> seq 0 (Z.to_nat (range_len start stop step)).

(** [range(start, stop, step)] *)
Definition py_range (start stop step : Z) : exn + list Z :=
  if step =? 0 then inl (ValueError "range() arg 3 must not be zero")
  else inr (range_list start stop step).

(* ===================================================================== *)
(** * Configurations, models and the embedding library *)
(* ===================================================================== *)

(** A value of the configuration: a scalar or a list of column names. *)
Inductive value :=
| Scalar (x : scalar)
| StrList (l : list string).

(** What [model_storage] keeps under a name: a JSON object or another JSON
    value. *)
Inductive json :=
| JDict (d : gmap string value)
| JValue (v : value).

(** Python truthiness of a configuration value. *)
Definition truthy (v : value) : bool :=
  match v with
  | Scalar PyNone => false
  | Scalar (PyBool b) => b
  | Scalar (PyInt n) => negb (n =? 0)
  | Scalar (PyStr s) => negb (String.eqb s EmptyString)
  | StrList l => negb (bool_decide (l = []))
  end.

Section Backend.
Context {V : Type}.

(** An embedding model instance, as far as the handler looks at it:
    [batch_size] is [Some b] when the object has the attribute, and
    [embed_documents docs] is [inr vectors] when the call returns and
    [inl (str e)] when it raises [e]. *)
Record Model := mkModel {
  batch_size : option Z;
  embed_documents : list string -> string + list V
}.

(** A class object found by [get_langchain_class]: whether it is a
    subclass of [Embeddings], its [model_fields] when it is a subclass of
    pydantic's [BaseModel], and its constructor called with keyword
    arguments, which returns an instance or raises. *)
Record ClassObj := mkClass {
  is_embeddings : bool;
  model_fields : option (list string);
  instantiate : gmap string value -> string + Model
}.

(** The module [langchain_community.embeddings]: its [__all__] and its
    attributes. *)
Record Library := mkLibrary {
  lib_all : list string;
  lib_getattr : string -> option ClassObj
}.

(** ** The registry [EMBEDDING_MODELS] (lines 22-46) *)

Definition builtin_models : gmap string string :=
  <["fastapi" := "FastAPIEmbeddings"]>
    (<["FastAPI" := "FastAPIEmbeddings"]>
       (<["vllm" := "VLLMEmbeddings"]>
          (<["VLLM" := "VLLMEmbeddings"]> ∅))).

(** The two assignments of the loop body for one class. *)
Definition register (class_name : string) (models : gmap string string)
  : gmap string string :=
  let user_friendly_name := PyString.remove_all "Embeddings" class_name in
  <[PyString.lower user_friendly_name := class_name]>
    (<[user_friendly_name := class_name]> models).

Fixpoint discover (lib : Library) (names : list string) (models : gmap string string)
  : exn + gmap string string :=
  match names with
  | [] => inr models
  | class_name :: rest =>
      match lib_getattr lib class_name with
      | None => inl (AttributeError class_name)
      | Some class_ =>
          if is_embeddings class_
          then discover lib rest (register class_name models)
          else discover lib rest models
      end
  end.

(** The module-level code: [langchain] is [None] when the import of
    [langchain_community.embeddings] fails. *)
Definition load_EMBEDDING_MODELS (langchain : option Library)
  : exn + gmap string string :=
  match langchain with
  | None =>
      inl (Exception
        "The langchain is not installed. Please install it with `pip install langchain-community`.")
  | Some lib => discover lib (lib_all lib) builtin_models
  end.

End Backend.
Arguments Model : clear implicits.
Arguments ClassObj : clear implicits.
Arguments Library : clear implicits.

(* ===================================================================== *)
(** * The handler *)
(* ===================================================================== *)

(** A cell of the dataframe that [predict] returns: a cell of the input or
    an embedding. *)
Inductive cell (A V : Type) :=
| Orig (a : A)
| Embedding (v : V).
Arguments Orig {A V} _.
Arguments Embedding {A V} _.

Section Handler.
Context {A V : Type} `{Str A}.

(** The module globals.  [EMBEDDING_MODELS] is the registry as the import
    of the module left it; [lib] is [langchain_community.embeddings],
    which is importable since the import of the handler succeeded;
    [VLLMEmbeddings] and [FastAPIEmbeddings] are the two classes imported
    from the handler's own package. *)
Variable EMBEDDING_MODELS : gmap string string.
Variable lib : Library V.
Variables VLLMEmbeddings FastAPIEmbeddings : ClassObj V.

(** [LangchainEmbeddingHandler.DEFAULT_EMBEDDING_CLASS] *)
Definition DEFAULT_EMBEDDING_CLASS : string := "OpenAIEmbeddings".

(** [get_langchain_class] *)
Definition get_langchain_class (class_name : string) : exn + ClassObj V :=
  if decide (class_name = "VLLMEmbeddings") then inr VLLMEmbeddings
  else if decide (class_name = "FastAPIEmbeddings") then inr FastAPIEmbeddings
  else
    match lib_getattr lib class_name with
    | Some class_ => inr class_
    | None =>
        inl (Exception ("Could not find the class " +:+ class_name +:+
               " in langchain_community.embeddings. Please check the class name."))
    end.

(** [args.pop(key, dflt)] *)
Definition pop (key : string) (dflt : value) : M (gmap string value) value :=
  fun args => Run (delete key args) [] (inr (default dflt (args !! key))).

(** [args[key] = v] *)
Definition setitem (key : string) (v : value) : M (gmap string value) unit :=
  fun args => Run (<[key := v]> args) [] (inr tt).

(** A class name is used as a dictionary key and as an attribute name: a
    value that is not a string ends in a [TypeError]. *)
Definition as_name {S} (v : value) : M S string :=
  match v with
  | Scalar (PyStr s) => ret s
  | _ => raise (TypeError "attribute name must be string")
  end.

(** The alias lookup of lines 86-90. *)
Definition resolve (class_name : string) : string :=
  match EMBEDDING_MODELS !! class_name with
  | Some mapped => mapped
  | None => class_name
  end.

(** The dictionary comprehension of lines 95-98. *)
Definition keep_fields (MODEL_CLASS : ClassObj V) (serialized_dict : gmap string value)
  : gmap string value :=
  match model_fields MODEL_CLASS with
  | Some fields => filter (fun kv => kv.1 ∈ fields) serialized_dict
  | None => serialized_dict
  end.

(** [construct_model_from_args], over the dict object [args] *)
Definition construct_model_from_args : M (gmap string value) (Model V) :=
  do target <- pop "target" (Scalar PyNone);
  do class_name <- pop "class" (Scalar (PyStr DEFAULT_EMBEDDING_CLASS));
  do class_name <- as_name class_name;
  do _ <- (match EMBEDDING_MODELS !! class_name with
           | Some mapped =>
               log INFO ("Mapping the user friendly name " +:+ class_name +:+
                         " to the class name: " +:+ mapped)
           | None => ret tt
           end);
  let class_name := resolve class_name in
  do MODEL_CLASS <- lift (get_langchain_class class_name);
  do serialized_dict <- get;
  let serialized_dict := keep_fields MODEL_CLASS serialized_dict in
  do model <- lift (match instantiate MODEL_CLASS serialized_dict with
                    | inr model => inr model
                    | inl msg => inl (Raised msg)
                    end);
  do _ <- (match target with
           | Scalar PyNone => ret tt
           | _ => setitem "target" target
           end);
  do _ <- setitem "class" (Scalar (PyStr class_name));
  ret model.

(** ** [predict] *)

(** [model.embed_documents(docs)] under a [try]: the call is recorded and
    its outcome handed to the [try] statement. *)
Definition call_embed {S} (model : Model V) (docs : list string)
  : M S (string + list V) :=
  do _ <- emit (EmbedCall docs);
  ret (embed_documents model docs).

(** The [except] clause of lines 213-217. *)
Definition document_failed {S X} (start_idx : Z) (batch_embeddings : list V)
    (inner_e : string) : M S X :=
  do _ <- log ERROR ("Error embedding document at index " +:+
                     str (start_idx + Z.of_nat (length batch_embeddings)) +:+
                     ": " +:+ inner_e);
  raise (Exception
    ("Failed to generate embedding for document. Original error: " +:+ inner_e)).

(** The loop of lines 208-217 from position [i] of [enumerate] on. *)
Fixpoint embed_one_by_one {S} (model : Model V) (start_idx : Z) (i : Z)
    (texts : list string) (batch_embeddings : list V) : M S (list V) :=
  match texts with
  | [] => ret batch_embeddings
  | text :: rest =>
      do r <- call_embed model [text];
      match r with
      | inr (embedding :: _) =>
          let batch_embeddings := batch_embeddings ++ [embedding] in
          do _ <- log DEBUG ("Successfully processed individual document " +:+
                             str (start_idx + i));
          embed_one_by_one model start_idx (i + 1) rest batch_embeddings
      | inr [] => document_failed start_idx batch_embeddings "list index out of range"
      | inl inner_e => document_failed start_idx batch_embeddings inner_e
      end
  end.

(** Line 197 up to [tolist()]:
    [batch_df[input_columns].apply(self.row_to_document, axis=1)].  For a
    list of names [batch_df[...]] is the dataframe of the columns that bear
    them ([select]; every name is a label, as line 177 has checked).  For a
    string it raises [KeyError] when the string is no label; it is a
    Series when the string labels one column, and [Series.apply] hands the
    keyword [axis] on to [row_to_document], which does not take it; it is
    the dataframe of the columns when the string labels several. *)
Definition batch_documents (input_columns : column_key) (batch_df : DataFrame A)
  : exn + list string :=
  match input_columns with
  | Labels cols => inr (apply_rows row_to_document (select cols batch_df))
  | Label s =>
      match filter (fun label => label = s) (columns batch_df) with
      | [] => inl (KeyError s)
      | [_] =>
          match rows batch_df with
          | [] => inr []
          | _ :: _ =>
              inl (TypeError
                "LangchainEmbeddingHandler.row_to_document() got an unexpected keyword argument 'axis'")
          end
      | _ :: _ :: _ => inr (apply_rows row_to_document (select [s] batch_df))
      end
  end.

(** The body of the loop of lines 191-218 for one [start_idx]. *)
Definition embed_batch {S} (model : Model V) (df : DataFrame A)
    (input_columns : column_key) (batch_size total_rows : Z)
    (all_embeddings : list V) (start_idx : Z) : M S (list V) :=
  let end_idx := Z.min (start_idx + batch_size) total_rows in
  let batch_df := iloc start_idx end_idx df in
  do _ <- log DEBUG ("Processing batch " +:+ str (start_idx / batch_size + 1) +:+
                     "/" +:+ str ((total_rows + batch_size - 1) / batch_size) +:+
                     ": rows " +:+ str start_idx +:+ " to " +:+ str end_idx);
  do batch_texts <- lift (batch_documents input_columns batch_df);
  do r <- call_embed model batch_texts;
  match r with
  | inr batch_embeddings =>
      let all_embeddings := all_embeddings ++ batch_embeddings in
      do _ <- log DEBUG ("Successfully processed batch of " +:+
                         str (Z.of_nat (length batch_embeddings)) +:+ " embeddings");
      ret all_embeddings
  | inl e =>
      do _ <- log WARNING
        ("Batch processing failed, falling back to individual processing. Error: "
         +:+ e);
      do batch_embeddings <- embed_one_by_one model start_idx 0 batch_texts [];
      ret (all_embeddings ++ batch_embeddings)
  end.

(** [user_args.get("input_columns") or df.columns.tolist()], as the
    iteration of line 177 finds it: a list of names, a string, or, for a
    true number or boolean, an object that cannot be iterated over.
    [create] stores an entry that the user supplies as it is given. *)
Definition resolve_input_columns (user_args : gmap string value)
    (df_columns : list string) : exn + column_key :=
  match user_args !! "input_columns" with
  | None => inr (Labels df_columns)
  | Some v =>
      if truthy v then
        match v with
        | StrList cols => inr (Labels cols)
        | Scalar (PyStr s) => inr (Label s)
        | Scalar (PyInt _) => inl (TypeError "'int' object is not iterable")
        | Scalar _ => inl (TypeError "'bool' object is not iterable")
        end
      else inr (Labels df_columns)
  end.

(** [df.copy().assign] with the keyword [target] bound to [values], that
    is [copy[target] = values] on the copy: a new dataframe.  When [target]
    labels several columns and there are as many values as such columns,
    pandas takes the values for a table with one column for each of them
    and raises unless every vector has exactly that many components; the
    vectors of a backend are longer than that, and the raise stands for
    this case.  Otherwise pandas refuses a list whose length is not the
    number of rows, overwrites every column labelled [target], and appends
    the column when there is none.  (A dataframe without rows takes its
    rows from the values in pandas; [predict] has no values for it.) *)
Definition assign (target : string) (values : list V) (df : DataFrame A)
  : exn + DataFrame (cell A V) :=
  let duplicated := length (filter (fun label => label = target) (columns df)) in
  if ((1 <? duplicated) && (duplicated =? length values))%nat
  then inl (ValueError "Columns must be same length as key")
  else if negb (length values =? length (rows df))%nat
  then inl (ValueError ("Length of values (" +:+ str (Z.of_nat (length values)) +:+
                        ") does not match length of index (" +:+
                        str (Z.of_nat (length (rows df))) +:+ ")"))
  else if bool_decide (target ∈ columns df)
  then inr (mkDataFrame (columns df)
              (zip_with (fun r v =>
                 (fun p => if decide (p.1 = target) then Embedding v else Orig p.2)
                   <$> zip (columns df) r) (rows df) values))
  else inr (mkDataFrame (columns df ++ [target])
              (zip_with (fun r v => (Orig <$> r) ++ [Embedding v]) (rows df) values)).

(** [user_args[key]] *)
Definition getitem {S} (user_args : gmap string value) (key : string) : M S value :=
  match user_args !! key with
  | Some v => ret v
  | None => raise (KeyError key)
  end.

(** [model_storage.json_get(name)]; [None] is Python's [None]. *)
Definition json_get (storage : gmap string json) (name : string) : option json :=
  storage !! name.

(** The object on which [construct_model_from_args] calls [pop]. *)
Definition as_dict {S} (j : option json) : M S (gmap string value) :=
  match j with
  | Some (JDict d) => ret d
  | _ => raise (AttributeError "pop")
  end.

(** A keyword of [assign] is a string. *)
Definition as_keyword {S} (v : value) : M S string :=
  match v with
  | Scalar (PyStr s) => ret s
  | _ => raise (TypeError "keywords must be strings")
  end.

(** The documents of all rows: what [row_to_document] makes of
    [df[input_columns]]. *)
Definition documents (input_columns : list string) (df : DataFrame A) : list string :=
  apply_rows row_to_document (select input_columns df).

(** The batches that the loop cuts from a list of documents: one per
    [start_idx] of the range, from [start_idx] to [end_idx]. *)
Definition batches_of (batch_size : Z) (docs : list string) : list (list string) :=
  let total_rows := Z.of_nat (length docs) in
  (fun start_idx => slice start_idx (Z.min (start_idx + batch_size) total_rows) docs)
    <$> range_list 0 total_rows batch_size.

(** The texts of the batch that starts at [start_idx]. *)
Definition texts_at (df : DataFrame A) (input_columns : list string)
    (batch_size start_idx : Z) : list string :=
  slice start_idx (Z.min (start_idx + batch_size) (len df)) (documents input_columns df).

(** Lines 160-180 of [predict]: the model is rebuilt from the stored
    configuration, the labels of the caller's dataframe are unquoted in
    place, the input columns are resolved and checked. *)
Definition prepare (storage : gmap string json)
  : M (DataFrame A) (Model V * value * column_key) :=
  do user_args <- as_dict (json_get storage "args");
  do ' (user_args, model) <- on_local user_args construct_model_from_args;
  do target <- getitem user_args "target";
  do df <- get;
  let cols_dfs := PyString.strip "`" <$> columns df in
  do _ <- put (set_columns cols_dfs df);
  do _ <- emit (ColumnsAssigned cols_dfs);
  do df <- get;
  do input_columns <- lift (resolve_input_columns user_args (columns df));
  if negb (forallb (fun col => bool_decide (col ∈ cols_dfs)) (elements input_columns))
  then raise (InputColumnsNotFound input_columns (columns df))
  else ret (model, target, input_columns).

(** Lines 182-220 of [predict]: the batch executor. *)
Definition embed_all {S} (model : Model V) (df : DataFrame A)
    (input_columns : column_key) : M S (list V) :=
  let batch_size := default 32 (batch_size model) in
  do _ <- log INFO ("Processing embeddings with batch size: " +:+ str batch_size);
  let total_rows := len df in
  do _ <- log INFO ("Starting batch processing for " +:+ str total_rows +:+
                    " documents");
  do starts <- lift (py_range 0 total_rows batch_size);
  do all_embeddings <-
    for_each starts (embed_batch model df input_columns batch_size total_rows) [];
  do _ <- log INFO ("Completed processing " +:+
                    str (Z.of_nat (length all_embeddings)) +:+ " embeddings");
  ret all_embeddings.

(** [LangchainEmbeddingHandler.predict], over the caller's dataframe
    object [df]; the model storage is only read. *)
Definition predict (storage : gmap string json)
  : M (DataFrame A) (DataFrame (cell A V)) :=
  do ' (model, target, input_columns) <- prepare storage;
  do df <- get;
  do all_embeddings <- embed_all model df input_columns;
  do target <- as_keyword target;
  do df_embeddings <- lift (assign target all_embeddings df);
  ret df_embeddings.

(** ** [create] *)

(** The inference of lines 129-144. *)
Definition infer_input_columns (target : option string) (df : option (DataFrame A))
    (user_args : gmap string value) : gmap string value :=
  match user_args !! "input_columns", df with
  | None, Some df =>
      let input_columns :=
        filter (fun col => PyString.startswith col "__mindsdb" = false
                           /\ Some col <> target) (columns df) in
      <["input_columns" := StrList (PyString.strip "`" <$> input_columns)]> user_args
  | None, None => <["input_columns" := StrList []]> user_args
  | Some _, _ => user_args
  end.

(** [target or "embeddings"] *)
Definition target_or_default (target : option string) : string :=
  match target with
  | Some t => if String.eqb t EmptyString then "embeddings" else t
  | None => "embeddings"
  end.

(** [LangchainEmbeddingHandler.create], over the model storage;
    [using_args] is [args.get("using")], [None] when the key is absent. *)
Definition create (target : option string) (df : option (DataFrame A))
    (using_args : option (gmap string value)) : M (gmap string json) unit :=
  let user_args := default ∅ using_args in
  let user_args := infer_input_columns target df user_args in
  do ' (user_args, _) <- on_local user_args construct_model_from_args;
  let target := target_or_default target in
  let user_args := <["target" := Scalar (PyStr target)]> user_args in
  do storage <- get;
  put (<["args" := JDict user_args]> storage).

(** ** [describe] *)

(** The dataframes that [describe] builds: rows of key and value, or the
    one column [tables]. *)
Inductive view :=
| KeyValue (items : list (string * option json))
| Tables (names : list string).

(** [LangchainEmbeddingHandler.describe] *)
Definition describe (storage : gmap string json) (attribute : option string)
  : exn + view :=
  let args := json_get storage "args" in
  if decide (attribute = Some "args") then
    match args with
    | Some (JDict d) =>
        inr (KeyValue ((fun kv => (kv.1, Some (JValue kv.2))) <$> map_to_list d))
    | _ => inl (AttributeError "items")
    end
  else if decide (attribute = Some "metadata") then
    inr (KeyValue [("model_class", json_get storage "model_class")])
  else
    inr (Tables ["args"; "metadata"]).

End Handler.

(** ** The states that [construct_model_from_args] goes through *)

Section ConstructStates.
Variable EMBEDDING_MODELS : gmap string string.

(** The value that [args.pop("target", None)] returns. *)
Definition target_entry (args : gmap string value) : value :=
  default (Scalar PyNone) (args !! "target").

(** The value that [args.pop("class", DEFAULT_EMBEDDING_CLASS)] returns. *)
Definition class_entry (args : gmap string value) : value :=
  default (Scalar (PyStr DEFAULT_EMBEDDING_CLASS)) (args !! "class").

(** The dict object after the two calls of [pop]. *)
Definition popped (args : gmap string value) : gmap string value :=
  delete "class" (delete "target" args).

(** The dict object after lines 101-102. *)
Definition reattached (target : value) (args : gmap string value)
  : gmap string value :=
  match target with
  | Scalar PyNone => args
  | _ => <["target" := target]> args
  end.

(** The record of lines 87-89. *)
Definition mapping_log (class_name : string) : list event :=
  match EMBEDDING_MODELS !! class_name with
  | Some mapped =>
      [Log INFO ("Mapping the user friendly name " +:+ class_name +:+
                 " to the class name: " +:+ mapped)]
  | None => []
  end.

End ConstructStates.

(** ** The value of the batch executor

    What lines 191-218 compute, read off the loop as functions of the
    documents: used to state and prove what the runs of [embed_all]
    return. *)

Section ExecutorValue.
Context {V : Type}.

(** The exception of line 217. *)
Definition embedding_failed (inner_e : string) : exn :=
  Exception ("Failed to generate embedding for document. Original error: " +:+ inner_e).

(** The record of line 215 for the document at row [index]. *)
Definition error_record (index : Z) (inner_e : string) : event :=
  Log ERROR ("Error embedding document at index " +:+ str index +:+ ": " +:+ inner_e).

(** The fallback on the documents of one batch. *)
Fixpoint singles (model : Model V) (texts : list string) : exn + list V :=
  match texts with
  | [] => inr []
  | text :: rest =>
      match embed_documents model [text] with
      | inr (embedding :: _) =>
          match singles model rest with
          | inr embeddings => inr (embedding :: embeddings)
          | inl e => inl e
          end
      | inr [] => inl (embedding_failed "list index out of range")
      | inl inner_e => inl (embedding_failed inner_e)
      end
  end.

(** One batch: the batch-level call, and the fallback when it raises. *)
Definition batch_outcome (model : Model V) (texts : list string) : exn + list V :=
  match embed_documents model texts with
  | inr batch_embeddings => inr batch_embeddings
  | inl _ => singles model texts
  end.

(** The batches in order, up to the first one that fails. *)
Fixpoint outcomes (model : Model V) (batches : list (list string)) : exn + list V :=
  match batches with
  | [] => inr []
  | texts :: rest =>
      match batch_outcome model texts with
      | inr batch_embeddings =>
          match outcomes model rest with
          | inr embeddings => inr (batch_embeddings ++ embeddings)
          | inl e => inl e
          end
      | inl e => inl e
      end
  end.

(** A document that the backend embeds when it comes alone. *)
Definition embeds_alone (model : Model V) (text : string) : Prop :=
  exists embedding others, embed_documents model [text] = inr (embedding :: others).

(** A batch that the executor gets through: the batch-level call returns,
    or every document of the batch is embedded alone. *)
Definition gets_through (model : Model V) (texts : list string) : Prop :=
  (exists batch_embeddings, embed_documents model texts = inr batch_embeddings)
  \/ Forall (embeds_alone model) texts.

End ExecutorValue.

(** The labels that [predict] asks of the dataframe to build the
    documents, when it gets that far. *)
Definition effective_input_columns {A V} `{Str A}
    (EMBEDDING_MODELS : gmap string string) (lib : Library V)
    (VLLMEmbeddings FastAPIEmbeddings : ClassObj V)
    (storage : gmap string json) (df : DataFrame A) : option (list string) :=
  match result (prepare EMBEDDING_MODELS lib VLLMEmbeddings FastAPIEmbeddings storage df) with
  | inr (_, _, input_columns) => Some (labels_of input_columns)
  | inl _ => None
  end.

(** The registry never sends a backend identifier on to another one: an
    identifier is either no key of the registry or mapped to itself. *)
Definition identifiers_resolved (models : gmap string string) : Prop :=
  map_Forall (fun _ class_name => default class_name (models !! class_name) = class_name)
             models.

(* ===================================================================== *)
(** * A small installation, for running the handler *)
(* ===================================================================== *)

Module Sample.

(** Vectors of one component; integers stand for the numbers. *)
Definition vector : Type := list Z.

Definition toy (doc : string) : vector := [Z.of_nat (String.length doc)].

(** A backend that answers every call. *)
Definition steady (b : option Z) : Model vector :=
  mkModel b (fun docs => inr (toy <$> docs)).


(** A backend that refuses a call with more than one document. *)
Definition flaky (b : option Z) : Model vector :=
  mkModel b (fun docs =>
    if (1 <? length docs)%nat then inl "batch too large" else inr (toy <$> docs)).

(** A backend that refuses every call that contains the document [bad]. *)
Definition choking (bad : string) (b : option Z) : Model vector :=
  mkModel b (fun docs =>
    if bool_decide (bad ∈ docs) then inl "unprocessable document"
    else inr (toy <$> docs)).

Definition batch_size_arg (kw : gmap string value) : option Z :=
  match kw !! "batch_size" with
  | Some (Scalar (PyInt n)) => Some n
  | _ => Some 32
  end.

(** A class in the manner of [VLLMEmbeddings]: [openai_api_base] and
    [model] are required, and its instances choke on the document
    ["text: poison"]. *)
Definition vllm_class : ClassObj vector :=
  mkClass true (Some ["openai_api_base"; "model"; "batch_size"])
    (fun kw =>
       match kw !! "openai_api_base", kw !! "model" with
       | Some _, Some _ => inr (choking "text: poison" (batch_size_arg kw))
       | None, _ => inl "missing 1 required positional argument: 'openai_api_base'"
       | _, None => inl "missing 1 required positional argument: 'model'"
       end).

(** A class in the manner of [FastAPIEmbeddings]: [api_base] and [model]
    are required, and its instances refuse a call with more than one
    document. *)
Definition fastapi_class : ClassObj vector :=
  mkClass true (Some ["api_base"; "model"; "batch_size"])
    (fun kw =>
       match kw !! "api_base", kw !! "model" with
       | Some _, Some _ => inr (flaky (batch_size_arg kw))
       | None, _ => inl "missing 1 required positional argument: 'api_base'"
       | _, None => inl "missing 1 required positional argument: 'model'"
       end).

Definition openai_class : ClassObj vector :=
  mkClass true (Some ["model"; "openai_api_key"])
    (fun kw =>
       match kw !! "openai_api_key" with
       | Some _ => inr (steady None)
       | None => inl "Did not find openai_api_key"
       end).

(** A class in the manner of langchain's [FakeEmbeddings], a pydantic
    model with the required field [size]. *)
Definition fake_class : ClassObj vector :=
  mkClass true (Some ["size"])
    (fun kw =>
       match kw !! "size" with
       | Some _ => inr (steady None)
       | None => inl "size: Field required"
       end).

Definition library : Library vector :=
  mkLibrary
    ["FakeEmbeddings"; "HuggingFaceEmbeddings"; "OpenAIEmbeddings";
     "QianfanEmbeddingsEndpoint"]
    (fun name =>
       if decide (name = "OpenAIEmbeddings") then Some openai_class
       else if decide (name ∈ ["FakeEmbeddings"; "HuggingFaceEmbeddings";
                               "QianfanEmbeddingsEndpoint"])
       then Some fake_class
       else None).

(** The registry that the import builds over [library]. *)
Definition registry : gmap string string :=
  match load_EMBEDDING_MODELS (Some library) with
  | inr models => models
  | inl _ => ∅
  end.

(** A stored configuration and the storage that holds it. *)
Definition stored_args (input_columns : list string) : gmap string value :=
  <["input_columns" := StrList input_columns]>
    (<["batch_size" := Scalar (PyInt 2)]>
       (<["model" := Scalar (PyStr "e5")]>
          (<["openai_api_base" := Scalar (PyStr "http://localhost:8000/v1")]>
             (<["class" := Scalar (PyStr "VLLMEmbeddings")]>
                (<["target" := Scalar (PyStr "target")]> ∅))))).

Definition storage_of (args : gmap string value) : gmap string json :=
  <["args" := JDict args]> ∅.

Definition frame : DataFrame scalar :=
  mkDataFrame ["a"; "`b`"; "target"]
    [[PyInt 1; PyStr "x"; PyInt 0];
     [PyInt 2; PyStr "y"; PyInt 0];
     [PyInt 3; PyStr "z"; PyInt 0]].

Definition texts : DataFrame scalar :=
  mkDataFrame ["text"]
    [[PyStr "one"]; [PyStr "two"]; [PyStr "three"]; [PyStr "poison"]; [PyStr "five"]].

(** The dataframe of the example: columns [a], [b] and [target]. *)
Definition plain : DataFrame scalar :=
  mkDataFrame ["a"; "b"; "target"] [[PyInt 1; PyStr "x"; PyInt 0]].

(** [texts] with the refused document in row 1. *)
Definition texts' : DataFrame scalar :=
  mkDataFrame ["text"]
    [[PyStr "one"]; [PyStr "poison"]; [PyStr "three"]; [PyStr "four"]; [PyStr "five"]].

Definition run_predict (args : gmap string value) (df : DataFrame scalar) :=
  predict registry library vllm_class fastapi_class (storage_of args) df.

Definition run_construct (args : gmap string value) :=
  construct_model_from_args registry library vllm_class fastapi_class args.

Definition run_create (target : option string) (df : option (DataFrame scalar))
    (using_args : option (gmap string value)) (storage : gmap string json) :=
  create registry library vllm_class fastapi_class target df using_args storage.

End Sample.

(* ===================================================================== *)
(** * Notions for stating what the handler does *)
(* ===================================================================== *)

(** The name under which a class is offered to the user (line 39). *)
Definition friendly_name (class_name : string) : string :=
  PyString.remove_all "Embeddings" class_name.

(** The two keys that the loop of lines 33-41 writes for a class. *)
Definition aliases_of (class_name : string) : list string :=
  [friendly_name class_name; PyString.lower (friendly_name class_name)].

(** A backend identifier that [get_langchain_class] finds: one of the two
    classes of the handler, or an embeddings class that the library
    exports. *)
Definition known_identifier {V} (lib : Library V) (id : string) : Prop :=
  id = "VLLMEmbeddings" \/ id = "FastAPIEmbeddings"
  \/ (id ∈ lib_all lib /\ exists class_, lib_getattr lib id = Some class_
                                       /\ is_embeddings class_ = true).

(** Whether lines 161-165 of [predict] get through: the stored blob is a
    dict, the model is rebuilt, the target is read. *)
Definition reads_configuration {V} (EMBEDDING_MODELS : gmap string string)
    (lib : Library V) (VLLMEmbeddings FastAPIEmbeddings : ClassObj V)
    (storage : gmap string json) : bool :=
  match json_get storage "args" with
  | Some (JDict args) =>
      let r := construct_model_from_args EMBEDDING_MODELS lib VLLMEmbeddings
                 FastAPIEmbeddings args in
      match result r with
      | inr _ => bool_decide (is_Some (final r !! "target"))
      | inl _ => false
      end
  | _ => false
  end.

(** Whether the string [s] begins with the character [c]. *)
Definition starts_with (c : ascii) (s : string) : bool :=
  match s with
  | String a _ => Ascii.eqb a c
  | EmptyString => false
  end.

(** Whether the string [s] ends with the character [c]. *)
Fixpoint ends_with (c : ascii) (s : string) : bool :=
  match s with
  | EmptyString => false
  | String a EmptyString => Ascii.eqb a c
  | String _ s' => ends_with c s'
  end.

(** The string of [n] backticks. *)
Fixpoint ticks (n : nat) : string :=
  match n with
  | O => EmptyString
  | S n' => String "`" (ticks n')
  end.

(** The specification's words for a label and its backtick-stripped form:
    the label is the form between two runs of backticks, and the form
    neither begins nor ends with a backtick. *)
Definition stripped_form (label form : string) : Prop :=
  (exists before after, label = ticks before +:+ form +:+ ticks after) /\
  starts_with "`" form = false /\ ends_with "`" form = false.

(** The labels of a dataframe are the backtick-stripped forms of
    [labels], column by column. *)
Definition unquoted_labels {A} (labels : list string) (df : DataFrame A) : Prop :=
  Forall2 stripped_form labels (columns df).

(** No alias that the loop of lines 33-41 writes for a class is the
    identifier of another backend. *)
Definition aliases_apart {V} (lib : Library V) : Prop :=
  forall class_name class_ alias,
    class_name ∈ lib_all lib ->
    lib_getattr lib class_name = Some class_ ->
    is_embeddings class_ = true ->
    alias ∈ aliases_of class_name ->
    known_identifier lib alias ->
    alias = class_name.

(** The label [target] is on one column at most. *)
Definition at_most_one_column (target : string) (labels : list string) : Prop :=
  (length (filter (fun label => label = target) labels) <= 1)%nat.

(** A call of the backend on one document of [texts] alone. *)
Definition single_of (texts : list string) (call : list string) : Prop :=
  exists d, d ∈ texts /\ call = [d].

(** The cells of an output row that come from the input. *)
Definition original_cells {A V} (r : list (cell A V)) : list A :=
  omap (fun c => match c with Orig a => Some a | Embedding _ => None end) r.

(** The embeddings in an output row. *)
Definition embedding_cells {A V} (r : list (cell A V)) : list V :=
  omap (fun c => match c with Orig _ => None | Embedding v => Some v end) r.

(* ===================================================================== *)
(** * The Jira handler *)
(* ===================================================================== *)

Module JiraHandler.

(** The exceptions that [check_connection] tells apart: [HTTPError] and
    [ValueError] (with their subclasses) are the known ones, every other
    class is unknown.  [e_str] is [str(e)]. *)
Inductive kind := HTTPError | ValueError | OtherError.

Record error := mkError {
  e_kind : kind;
  e_str : string
}.

(** A keyword argument of the client constructor: a connection parameter
    as given, or the dict of session headers. *)
Inductive argument :=
| Plain (v : scalar)
| Headers (h : gmap string string).

(** What a run does besides changing the handler: the records handed to
    [logger], the calls [Jira(config)] and [connection.myself()]. *)
Inductive action (Connection : Type) :=
| Logged (lvl : level) (msg : string)
| Constructed (config : gmap string argument)
| AskedMyself (c : Connection).
Arguments Logged {Connection} _ _.
Arguments Constructed {Connection} _.
Arguments AskedMyself {Connection} _.

(** The fields of the handler that [connect] and [check_connection] read
    and write.  The connection parameters are scalars: strings, booleans,
    numbers or [None]. *)
Record handler (Connection : Type) := mkHandler {
  connection_data : gmap string scalar;
  connection : option Connection;
  is_connected : bool
}.
Arguments mkHandler {Connection} _ _ _.
Arguments connection_data {Connection} _.
Arguments connection {Connection} _.
Arguments is_connected {Connection} _.

(** The handler after a method has run, what the run did, and the value
    returned or the exception raised. *)
Record outcome (Connection X : Type) := Outcome {
  handler_after : handler Connection;
  trace : list (action Connection);
  returned : error + X
}.
Arguments Outcome {Connection X} _ _ _.
Arguments handler_after {Connection X} _.
Arguments trace {Connection X} _.
Arguments returned {Connection X} _.

(** [HandlerStatusResponse] *)
Record StatusResponse := mkStatusResponse {
  success : bool;
  error_message : option string
}.

(** [connection_data.get("cloud", True)], taken as a condition. *)
Definition is_cloud (connection_data : gmap string scalar) : bool :=
  match connection_data !! "cloud" with
  | Some v => truthy (Scalar v)
  | None => true
  end.

(** Lines 59-80 of [connect]: the keyword arguments for the client, or the
    [ValueError] for a missing parameter. *)
Definition config_of (connection_data : gmap string scalar)
  : error + gmap string argument :=
  if is_cloud connection_data then
    match connection_data !! "username", connection_data !! "api_token",
          connection_data !! "url" with
    | Some username, Some api_token, Some url =>
        inr (<["username" := Plain username]>
               (<["password" := Plain api_token]>
                  (<["url" := Plain url]> ∅)))
    | _, _, _ =>
        inl (mkError ValueError
               "Required parameters (username, api_token, url) must be provided.")
    end
  else
    match connection_data !! "url" with
    | None => inl (mkError ValueError "Required parameter 'url' must be provided.")
    | Some url =>
        let config : gmap string argument :=
          <["url" := Plain url]> (<["cloud" := Plain (PyBool false)]> ∅) in
        match connection_data !! "personal_access_token" with
        | Some token =>
            inr (<["session" :=
                     Headers (<["Authorization" := "Bearer " +:+ str token]> ∅)]> config)
        | None => inr config
        end
    end.

Section Client.
Context {Connection : Type}.

(** The client library: the constructor [Jira] on its keyword arguments,
    and the method [myself] of a client. *)
Variable Jira : gmap string argument -> error + Connection.
Variable myself : Connection -> error + unit.

(** [JiraHandler.connect]; the value returned is [self.connection], which
    is [None] as long as no client has been made. *)
Definition connect (self : handler Connection)
  : outcome Connection (option Connection) :=
  if is_connected self then Outcome self [] (inr (connection self))
  else
    match config_of (connection_data self) with
    | inl e => Outcome self [] (inl e)
    | inr config =>
        match Jira config with
        | inr c =>
            Outcome (mkHandler (connection_data self) (Some c) true)
                    [Constructed config] (inr (Some c))
        | inl unknown_error =>
            Outcome self
                    [Constructed config;
                     Logged ERROR ("Unknown error connecting to Jira, " +:+
                                   e_str unknown_error +:+ "!")]
                    (inl unknown_error)
        end
    end.

(** The record of line 104 or of line 107, by the class of the exception. *)
Definition failure_record (e : error) : action Connection :=
  match e_kind e with
  | HTTPError | ValueError =>
      Logged ERROR ("Connection check to Jira failed, " +:+ e_str e +:+ "!")
  | OtherError =>
      Logged ERROR ("Connection check to Jira failed due to an unknown error, " +:+
                    e_str e +:+ "!")
  end.

(** The [try] block of [check_connection], after [connect] has returned
    [connection]: the call of [myself], on [None] an [AttributeError]. *)
Definition ask_myself (connection : option Connection)
  : list (action Connection) * (error + unit) :=
  match connection with
  | Some c => ([AskedMyself c], myself c)
  | None => ([], inl (mkError OtherError
                        "'NoneType' object has no attribute 'myself'"))
  end.

(** [JiraHandler.check_connection] *)
Definition check_connection (self : handler Connection)
  : outcome Connection StatusResponse :=
  let connected := connect self in
  let self := handler_after connected in
  let '(asked, tried) :=
    match returned connected with
    | inr connection => ask_myself connection
    | inl e => ([], inl e)
    end in
  let '(records, response) :=
    match tried with
    | inr _ => ([], mkStatusResponse true None)
    | inl e => ([failure_record e], mkStatusResponse false (Some (e_str e)))
    end in
  Outcome (mkHandler (connection_data self) (connection self) (success response))
          (trace connected ++ asked ++ records)
          (inr response).

(** The error records of a trace. *)
Definition error_records (t : list (action Connection)) : list string :=
  omap (fun a => match a with Logged ERROR msg => Some msg | _ => None end) t.

(** The configurations with which a trace calls the constructor. *)
Definition constructions (t : list (action Connection)) : list (gmap string argument) :=
  omap (fun a => match a with Constructed config => Some config | _ => None end) t.

End Client.

(** The parameters that [connect] requires of [connection_data]. *)
Definition required_parameters (connection_data : gmap string scalar) : list string :=
  if is_cloud connection_data then ["username"; "api_token"; "url"] else ["url"].

End JiraHandler.

Module JiraSample.
Import JiraHandler.

(** A client library for running the handler: a client is the URL it was
    made for; the constructor refuses the password [expired], and the
    server at [https://down.example] answers no request. *)
Definition Jira (config : gmap string argument) : error + string :=
  match config !! "password", config !! "url" with
  | Some (Plain (PyStr "expired")), _ => inl (mkError OtherError "token expired")
  | _, Some (Plain (PyStr url)) => inr url
  | _, _ => inl (mkError OtherError "invalid url")
  end.

Definition myself (c : string) : error + unit :=
  if String.eqb c "https://down.example"
  then inl (mkError HTTPError "503 Server Error")
  else inr tt.

Definition cloud_data (url : string) : gmap string scalar :=
  <["username" := PyStr "ada"]>
    (<["api_token" := PyStr "s3cret"]> (<["url" := PyStr url]> ∅)).

Definition server_data : gmap string scalar :=
  <["cloud" := PyBool false]>
    (<["url" := PyStr "https://jira.example"]>
       (<["username" := PyStr "ada"]>
          (<["personal_access_token" := PyStr "pat"]> ∅))).

Definition fresh (connection_data : gmap string scalar) : handler string :=
  mkHandler connection_data None false.

(** A handler whose client has lost its server. *)
Definition stale : handler string :=
  mkHandler (cloud_data "https://down.example") (Some "https://down.example") true.

(** The keyword arguments that [connect] makes of [cloud_data url]. *)
Definition cloud_config (url : string) : gmap string argument :=
  <["username" := Plain (PyStr "ada")]>
    (<["password" := Plain (PyStr "s3cret")]> (<["url" := Plain (PyStr url)]> ∅)).

(** The keyword arguments that [connect] makes of [server_data]. *)
Definition server_config : gmap string argument :=
  <["session" := Headers (<["Authorization" := "Bearer pat"]> ∅)]>
    (<["url" := Plain (PyStr "https://jira.example")]>
       (<["cloud" := Plain (PyBool false)]> ∅)).

End JiraSample.

(* ===================================================================== *)
(** * Configurations and dataframes for running the handlers *)
(* ===================================================================== *)

Module Example.

(** What a user passes as [using] to make a model on the backend [vllm]. *)
Definition using_vllm : gmap string value :=
  <["class" := Scalar (PyStr "vllm")]>
    (<["openai_api_base" := Scalar (PyStr "http://localhost:8000/v1")]>
       (<["model" := Scalar (PyStr "e5")]> ∅)).

(** What a user passes as [using] to make a model on langchain's
    [FakeEmbeddings]. *)
Definition using_fake : gmap string value :=
  <["class" := Scalar (PyStr "fake")]> (<["size" := Scalar (PyInt 8)]> ∅).

(** A stored configuration with an entry that is no field of the backend
    class. *)
Definition args_with_extra : gmap string value :=
  <["temperature" := Scalar (PyInt 1)]> (Sample.stored_args ["a"]).

(** A stored configuration with the given batch size. *)
Definition args_with_batch_size (n : Z) : gmap string value :=
  <["batch_size" := Scalar (PyInt n)]> (Sample.stored_args ["a"]).


(** A stored configuration whose [input_columns] is a string. *)
Definition args_with_string (input_columns : string) : gmap string value :=
  <["input_columns" := Scalar (PyStr input_columns)]> (Sample.stored_args []).

(** A dataframe without rows. *)
Definition no_rows : DataFrame scalar := mkDataFrame ["a"; "b"] [].

(** A dataframe without a column for the target. *)
Definition untargeted : DataFrame scalar :=
  mkDataFrame ["a"; "`b`"] [[PyInt 1; PyStr "x"]; [PyInt 2; PyStr "y"]].

(** [Sample.frame] with the labels unquoted. *)
Definition unquoted : DataFrame scalar :=
  mkDataFrame ["a"; "b"; "target"] (rows Sample.frame).

(** A dataframe on which the target labels two columns, with two rows. *)
Definition twice_targeted : DataFrame scalar :=
  mkDataFrame ["target"; "`target`"; "a"]
    [[PyInt 0; PyInt 0; PyInt 1]; [PyInt 0; PyInt 0; PyInt 2]].

(** A library that exports, next to [FakeEmbeddings], an embeddings class
    whose friendly name is the identifier [FakeEmbeddings], and the
    registry that the import builds over it. *)
Definition overlapping_library : Library Sample.vector :=
  mkLibrary ["FakeEmbeddings"; "FakeEmbEmbeddingseddings"]
    (fun name =>
       if decide (name ∈ ["FakeEmbeddings"; "FakeEmbEmbeddingseddings"])
       then Some Sample.fake_class
       else None).

Definition overlapping_registry : gmap string string :=
  match load_EMBEDDING_MODELS (Some overlapping_library) with
  | inr models => models
  | inl _ => ∅
  end.

End Example.

(* ===================================================================== *)
(** * Properties of the monad *)
(* ===================================================================== *)

Section MonadFacts.
Context {S : Type}.

Lemma run_eta {X} (r : run S X) : r = Run (final r) (journal r) (result r).
Proof. by destruct r. Qed.

Lemma prepend_nil {X} (r : run S X) : prepend [] r = r.
Proof. by destruct r. Qed.

Lemma prepend_prepend {X} (j1 j2 : list event) (r : run S X) :
  prepend j1 (prepend j2 r) = prepend (j1 ++ j2) r.
Proof. unfold prepend. cbn. by rewrite app_assoc. Qed.

Lemma bind_ret {X Y} (x : X) (k : X -> M S Y) (st : S) : bind (ret x) k st = k x st.
Proof. unfold bind, ret. apply prepend_nil. Qed.

Lemma bind_raise {X Y} (e : exn) (k : X -> M S Y) (st : S) :
  bind (raise e) k st = Run st [] (inl e).
Proof. reflexivity. Qed.

Lemma bind_lift {X Y} (r : exn + X) (k : X -> M S Y) (st : S) :
  bind (lift r) k st
  = match r with inr x => k x st | inl e => Run st [] (inl e) end.
Proof. unfold bind, lift. destruct r; [done|]. apply prepend_nil. Qed.

Lemma bind_lift_inr {X Y} (x : X) (k : X -> M S Y) (st : S) :
  bind (lift (inr x)) k st = k x st.
Proof. unfold bind, lift, prepend. by destruct (k x st). Qed.

Lemma bind_emit {Y} (e : event) (k : unit -> M S Y) (st : S) :
  bind (emit e) k st = prepend [e] (k tt st).
Proof. reflexivity. Qed.

Lemma bind_log {Y} (lvl : level) (msg : string) (k : unit -> M S Y) (st : S) :
  bind (log lvl msg) k st = prepend [Log lvl msg] (k tt st).
Proof. reflexivity. Qed.

Lemma bind_get {Y} (k : S -> M S Y) (st : S) : bind get k st = k st st.
Proof. unfold bind, get. apply prepend_nil. Qed.

Lemma bind_put {Y} (s : S) (k : unit -> M S Y) (st : S) : bind (put s) k st = k tt s.
Proof. unfold bind, put. apply prepend_nil. Qed.

Lemma bind_assoc {X Y W} (m : M S X) (k : X -> M S Y) (h : Y -> M S W) (st : S) :
  bind (bind m k) h st = bind m (fun x => bind (k x) h) st.
Proof.
  unfold bind. destruct (m st) as [s' j [e|x]]; [done|].
  destruct (k x s') as [s'' j' [e|y]]; cbn; [done|].
  by rewrite prepend_prepend.
Qed.

Lemma bind_call_embed {V Y} (model : Model V) (docs : list string)
    (k : string + list V -> M S Y) (st : S) :
  bind (call_embed model docs) k st
  = prepend [EmbedCall docs] (k (embed_documents model docs) st).
Proof.
  unfold call_embed. by rewrite bind_assoc, bind_emit, bind_ret.
Qed.

Lemma bind_ext {X Y} (m : M S X) (k k' : X -> M S Y) (st : S) :
  (forall x s, k x s = k' x s) -> bind m k st = bind m k' st.
Proof.
  intros Hk. unfold bind. destruct (m st) as [s' j [e|x]]; [done|]. by rewrite Hk.
Qed.

Lemma bind_run {X Y} (m : M S X) (k : X -> M S Y) (st : S) :
  bind m k st
  = match result (m st) with
    | inr x => prepend (journal (m st)) (k x (final (m st)))
    | inl e => Run (final (m st)) (journal (m st)) (inl e)
    end.
Proof. unfold bind. by destruct (m st) as [s' j [e|x]]. Qed.

Lemma bind_inr {X Y} (m : M S X) (k : X -> M S Y) s s' j x :
  m s = Run s' j (inr x) -> bind m k s = prepend j (k x s').
Proof. intros Hm. unfold bind. by rewrite Hm. Qed.

Lemma bind_inl {X Y} (m : M S X) (k : X -> M S Y) s s' j e :
  m s = Run s' j (inl e) -> bind m k s = Run s' j (inl e).
Proof. intros Hm. unfold bind. by rewrite Hm. Qed.

Lemma for_each_app {X Y} (xs ys : list X) (body : Y -> X -> M S Y) (acc : Y) (st : S) :
  for_each (xs ++ ys) body acc st
  = bind (for_each xs body acc) (fun acc' => for_each ys body acc') st.
Proof.
  revert acc st. induction xs as [|x xs IH]; intros acc st.
  - cbn [app for_each]. by rewrite bind_ret.
  - cbn [app for_each]. rewrite bind_assoc. apply bind_ext. intros acc' s. apply IH.
Qed.

Lemma embed_calls_app j1 j2 :
  embed_calls (j1 ++ j2) = embed_calls j1 ++ embed_calls j2.
Proof. apply omap_app. Qed.

End MonadFacts.

(* ===================================================================== *)
(** * The row serializer *)
(* ===================================================================== *)

Section RowToDocumentFacts.
Context {A : Type} `{Str A}.

Lemma row_to_document_zip (row : Series A) :
  row_to_document row = serialize_spec (zip (s_index row) (s_values row)).
Proof.
  unfold row_to_document, PyString.join.
  induction (zip (s_index row) (s_values row)) as [|[c v] [|[c' v'] rest] IH];
    [reflexivity | reflexivity |].
  change (String.concat PyString.nl (field_line <$> (c, v) :: (c', v') :: rest))
    with (field_line (c, v) +:+ PyString.nl +:+
          String.concat PyString.nl (field_line <$> (c', v') :: rest)).
  rewrite IH. reflexivity.
Qed.

Lemma series_of_zip (row : list (string * A)) :
  zip (s_index (series_of row)) (s_values (series_of row)) = row.
Proof. apply zip_fst_snd. Qed.

End RowToDocumentFacts.

(** C8.  The row serializer is a function of the row alone, defined on
    every row: on a row given as an ordered mapping from column to value it
    yields the lines [<column>: <value>] in the order of the columns, a
    newline between two of them, and on the row [a = 1, b = "x"] it yields
    the two lines [a: 1] and [b: x]. *)
Theorem row_to_document_lines :
  (forall (A : Type) (HA : Str A) (row : list (string * A)),
      row_to_document (series_of row) = serialize_spec row) /\
  row_to_document (series_of [("a", PyInt 1); ("b", PyStr "x")])
  = "a: 1" +:+ PyString.nl +:+ "b: x".
Proof.
  split; [|reflexivity].
  intros A HA row. rewrite row_to_document_zip. by rewrite series_of_zip.
Qed.

(* ===================================================================== *)
(** * The model factory *)
(* ===================================================================== *)

Section ConstructFacts.
Context {V : Type}.
Variable EMBEDDING_MODELS : gmap string string.
Variable lib : Library V.
Variables VLLMEmbeddings FastAPIEmbeddings : ClassObj V.

Abbreviation construct :=
  (construct_model_from_args EMBEDDING_MODELS lib VLLMEmbeddings FastAPIEmbeddings).
Abbreviation get_class := (get_langchain_class lib VLLMEmbeddings FastAPIEmbeddings).

(** The run of [construct_model_from_args] on a dict, case by case. *)
Lemma construct_run (args : gmap string value) :
  construct args =
  match class_entry args with
  | Scalar (PyStr alias) =>
      match get_class (resolve EMBEDDING_MODELS alias) with
      | inr MODEL_CLASS =>
          match instantiate MODEL_CLASS (keep_fields MODEL_CLASS (popped args)) with
          | inr model =>
              Run (<["class" := Scalar (PyStr (resolve EMBEDDING_MODELS alias))]>
                     (reattached (target_entry args) (popped args)))
                  (mapping_log EMBEDDING_MODELS alias) (inr model)
          | inl msg =>
              Run (popped args) (mapping_log EMBEDDING_MODELS alias) (inl (Raised msg))
          end
      | inl e => Run (popped args) (mapping_log EMBEDDING_MODELS alias) (inl e)
      end
  | _ => Run (popped args) [] (inl (TypeError "attribute name must be string"))
  end.
Proof.
  unfold construct_model_from_args, class_entry, popped, target_entry.
  rewrite (bind_inr _ _ args (delete "target" args) []
             (default (Scalar PyNone) (args !! "target"))) by reflexivity.
  rewrite prepend_nil.
  rewrite (bind_inr _ _ _ (delete "class" (delete "target" args)) []
             (default (Scalar (PyStr DEFAULT_EMBEDDING_CLASS)) (args !! "class"))).
  2:{ unfold pop. by rewrite (lookup_delete_ne args "target" "class") by done. }
  rewrite prepend_nil.
  destruct (default _ (args !! "class")) as [[| | |alias]|]; try reflexivity.
  cbn [as_name]. rewrite bind_ret.
  unfold mapping_log, resolve.
  destruct (EMBEDDING_MODELS !! alias) as [mapped|];
    rewrite ?bind_log, ?bind_ret, bind_lift;
    (destruct (get_class _) as [e|MODEL_CLASS]; [reflexivity|];
     rewrite bind_get, bind_lift;
     destruct (instantiate MODEL_CLASS _) as [msg|model]; [reflexivity|];
     destruct (default (Scalar PyNone) (args !! "target")) as [[| | |]|];
     reflexivity).
Qed.

(** A call that returns a model got it from the class that the resolved
    identifier names, called on the dict without [target] and [class]. *)
Lemma construct_inr (args : gmap string value) (model : Model V) :
  result (construct args) = inr model ->
  exists alias MODEL_CLASS,
    class_entry args = Scalar (PyStr alias) /\
    get_class (resolve EMBEDDING_MODELS alias) = inr MODEL_CLASS /\
    instantiate MODEL_CLASS (keep_fields MODEL_CLASS (popped args)) = inr model /\
    construct args =
      Run (<["class" := Scalar (PyStr (resolve EMBEDDING_MODELS alias))]>
             (reattached (target_entry args) (popped args)))
          (mapping_log EMBEDDING_MODELS alias) (inr model).
Proof.
  rewrite construct_run.
  destruct (class_entry args) as [[| | |alias]|]; try discriminate.
  destruct (get_class _) as [e|MODEL_CLASS] eqn:Hc; [discriminate|].
  destruct (instantiate MODEL_CLASS _) as [msg|m] eqn:Hi; [discriminate|].
  cbn. intros [= ->]. by exists alias, MODEL_CLASS.
Qed.

(** A call that raises leaves the dict without the two keys. *)
Lemma construct_inl (args : gmap string value) (e : exn) :
  result (construct args) = inl e -> final (construct args) = popped args.
Proof.
  rewrite construct_run.
  destruct (class_entry args) as [[| | |alias]|]; try reflexivity.
  destruct (get_class _) as [e'|MODEL_CLASS]; [reflexivity|].
  destruct (instantiate MODEL_CLASS _) as [msg|m]; [reflexivity|discriminate].
Qed.

Lemma lookup_reattached_target (target : value) (args : gmap string value) :
  args !! "target" = None ->
  reattached target args !! "target"
  = match target with Scalar PyNone => None | _ => Some target end.
Proof.
  intros Hnone. unfold reattached.
  destruct target as [[| | |]|]; by rewrite ?lookup_insert_eq.
Qed.

Lemma lookup_reattached_ne (target : value) (args : gmap string value) (k : string) :
  k <> "target" -> reattached target args !! k = args !! k.
Proof.
  intros Hk. unfold reattached.
  destruct target as [[| | |]|]; by rewrite ?lookup_insert_ne.
Qed.

Lemma lookup_popped_ne (args : gmap string value) (k : string) :
  k <> "target" -> k <> "class" -> popped args !! k = args !! k.
Proof. intros. unfold popped. by rewrite !lookup_delete_ne. Qed.

Lemma lookup_popped_target (args : gmap string value) : popped args !! "target" = None.
Proof. unfold popped. rewrite lookup_delete_ne by done. apply lookup_delete_eq. Qed.

Lemma lookup_popped_class (args : gmap string value) : popped args !! "class" = None.
Proof. unfold popped. apply lookup_delete_eq. Qed.

(** The dict that a successful call leaves behind, key by key. *)
Lemma construct_final_lookup (args : gmap string value) (model : Model V) (k : string) :
  result (construct args) = inr model ->
  final (construct args) !! k =
    if decide (k = "class") then
      match class_entry args with
      | Scalar (PyStr alias) => Some (Scalar (PyStr (resolve EMBEDDING_MODELS alias)))
      | _ => None
      end
    else if decide (k = "target") then
      match args !! "target" with
      | Some (Scalar PyNone) => None
      | o => o
      end
    else args !! k.
Proof.
  intros Hok. destruct (construct_inr _ _ Hok) as (alias & C & Hcls & _ & _ & ->).
  cbn [final]. rewrite Hcls.
  destruct (decide (k = "class")) as [->|Hk]; [apply lookup_insert_eq|].
  rewrite lookup_insert_ne by done.
  destruct (decide (k = "target")) as [->|Hk'].
  - rewrite lookup_reattached_target by apply lookup_popped_target.
    unfold target_entry. destruct (args !! "target") as [[[| | |]|]|]; reflexivity.
  - rewrite lookup_reattached_ne by done. by apply lookup_popped_ne.
Qed.

End ConstructFacts.

Section RegistryLookup.
Context {V : Type}.
Variable lib : Library V.

Lemma register_lookup (class_name alias : string) (models : gmap string string) :
  register class_name models !! alias
  = if decide (alias ∈ aliases_of class_name) then Some class_name else models !! alias.
Proof.
  unfold register, aliases_of. fold (friendly_name class_name).
  destruct (decide (PyString.lower (friendly_name class_name) = alias)) as [<-|Hlower].
  - rewrite lookup_insert_eq. rewrite decide_True; [done|set_solver].
  - rewrite lookup_insert_ne by done.
    destruct (decide (friendly_name class_name = alias)) as [<-|Hname].
    + rewrite lookup_insert_eq. rewrite decide_True; [done|set_solver].
    + rewrite lookup_insert_ne by done. rewrite decide_False; [done|].
      rewrite !elem_of_cons, elem_of_nil. intros [Heq|[Heq|[]]]; congruence.
Qed.

(** An entry of the registry after the loop of lines 33-41: it was there
    before the loop and no embeddings class of [names] has the key among
    its two aliases, or it is an embeddings class of [names] under one of
    its two aliases. *)
Lemma discover_lookup (names : list string) (models models' : gmap string string)
    (alias id : string) :
  discover lib names models = inr models' ->
  models' !! alias = Some id ->
  (models !! alias = Some id /\
   forall name class_, name ∈ names -> lib_getattr lib name = Some class_ ->
                       is_embeddings class_ = true -> alias ∉ aliases_of name)
  \/ (exists class_, id ∈ names /\ lib_getattr lib id = Some class_ /\
                     is_embeddings class_ = true /\ alias ∈ aliases_of id).
Proof.
  revert models. induction names as [|name names IH]; intros models Hrun Hentry.
  - injection Hrun as <-. left. split; [done|]. intros name class_ Hname.
    by apply elem_of_nil in Hname.
  - cbn [discover] in Hrun. destruct (lib_getattr lib name) as [class_|] eqn:Hattr; [|done].
    destruct (is_embeddings class_) eqn:Hemb.
    + destruct (IH _ Hrun Hentry) as [[Hbefore Hfree]|(c & Hin & Hc & He & Halias)].
      * rewrite register_lookup in Hbefore. case_decide as Hwritten.
        -- injection Hbefore as <-. right. exists class_. repeat split; try done. by left.
        -- left. split; [done|]. intros n c Hn Hc He.
           apply elem_of_cons in Hn as [->|Hn]; [done|]. by eapply Hfree.
      * right. exists c. repeat split; try done. by right.
    + destruct (IH _ Hrun Hentry) as [[Hbefore Hfree]|(c & Hin & Hc & He & Halias)].
      * left. split; [done|]. intros n c Hn Hc He.
        apply elem_of_cons in Hn as [->|Hn]; [|by eapply Hfree].
        rewrite Hattr in Hc. injection Hc as <-. congruence.
      * right. exists c. repeat split; try done. by right.
Qed.

Lemma builtin_models_lookup (alias id : string) :
  builtin_models !! alias = Some id ->
  (alias = "VLLM" \/ alias = "vllm" \/ alias = "FastAPI" \/ alias = "fastapi") /\
  (id = "VLLMEmbeddings" \/ id = "FastAPIEmbeddings").
Proof.
  unfold builtin_models. rewrite !lookup_insert_Some, lookup_empty.
  intros [[<- <-]|[_ [[<- <-]|[_ [[<- <-]|[_ [[<- <-]|[_ Hnone]]]]]]]];
    try discriminate Hnone; split; auto.
Qed.

(** The registry built at import over a library whose aliases are apart
    from the backend identifiers sends no backend identifier on to another
    one. *)
Lemma loaded_identifiers_resolved (models : gmap string string) :
  load_EMBEDDING_MODELS (Some lib) = inr models ->
  aliases_apart lib ->
  identifiers_resolved models.
Proof.
  intros Hload Hapart alias id Hentry. cbn beta.
  destruct (models !! id) as [id'|] eqn:Hid; [cbn|done].
  cbn [load_EMBEDDING_MODELS] in Hload.
  assert (Hknown : known_identifier lib id).
  { destruct (discover_lookup _ _ _ _ _ Hload Hentry)
      as [[Hbuiltin _]|(c & Hin & Hc & He & _)].
    - apply builtin_models_lookup in Hbuiltin as [_ [->| ->]]; unfold known_identifier; auto.
    - right. right. eauto. }
  destruct (discover_lookup _ _ _ _ _ Hload Hid)
    as [[Hbuiltin Hfree]|(c & Hin & Hc & He & Halias)].
  - exfalso. apply builtin_models_lookup in Hbuiltin as [Hkey _].
    destruct Hknown as [->|[->|(Hin & c & Hc & He)]].
    + destruct Hkey as [Hkey|[Hkey|[Hkey|Hkey]]]; discriminate Hkey.
    + destruct Hkey as [Hkey|[Hkey|[Hkey|Hkey]]]; discriminate Hkey.
    + apply (Hfree id c Hin Hc He). unfold aliases_of. apply elem_of_cons. left.
      destruct Hkey as [->|[->|[->| ->]]]; vm_compute; reflexivity.
  - symmetry. by eapply Hapart.
Qed.

End RegistryLookup.

Section ModelFactory.
Context {V : Type}.
Variable EMBEDDING_MODELS : gmap string string.
Variable lib : Library V.
Variables VLLMEmbeddings FastAPIEmbeddings : ClassObj V.

Abbreviation construct :=
  (construct_model_from_args EMBEDDING_MODELS lib VLLMEmbeddings FastAPIEmbeddings).
Abbreviation get_class := (get_langchain_class lib VLLMEmbeddings FastAPIEmbeddings).

(** C6, as the code has it.  [construct_model_from_args] pops [target] and
    [class] from the caller's own dict: there is no working copy, the deep
    copy is taken after the two keys are gone.  A call that raises leaves
    the dict without the two keys.  A call that returns leaves the dict
    with [class] bound to the resolved identifier, with [target] bound as
    before when it was bound to something other than [None], and with every
    other key as before; the model comes from the constructor of the
    resolved class, called on the dict without [target] and [class]. *)
Theorem construct_pops_and_reattaches (args : gmap string value) :
  match result (construct args) with
  | inl _ => final (construct args) = popped args
  | inr model =>
      exists alias MODEL_CLASS,
        class_entry args = Scalar (PyStr alias) /\
        get_class (resolve EMBEDDING_MODELS alias) = inr MODEL_CLASS /\
        instantiate MODEL_CLASS (keep_fields MODEL_CLASS (popped args)) = inr model /\
        final (construct args) !! "class" = Some (Scalar (PyStr (resolve EMBEDDING_MODELS alias))) /\
        final (construct args) !! "target"
        = match args !! "target" with
          | Some (Scalar PyNone) => None
          | o => o
          end /\
        forall k, k <> "class" -> k <> "target" ->
                  final (construct args) !! k = args !! k
  end.
Proof.
  destruct (result (construct args)) as [e|model] eqn:Hres.
  - by eapply construct_inl.
  - destruct (construct_inr _ _ _ _ _ _ Hres) as (alias & C & Hcls & Hget & Hinst & _).
    exists alias, C. repeat split; try done.
    + rewrite (construct_final_lookup _ _ _ _ _ _ _ Hres). by rewrite Hcls.
    + by rewrite (construct_final_lookup _ _ _ _ _ _ _ Hres).
    + intros k Hk Hk'. rewrite (construct_final_lookup _ _ _ _ _ _ _ Hres).
      by rewrite !decide_False.
Qed.

Lemma resolve_resolved (alias : string) :
  identifiers_resolved EMBEDDING_MODELS -> resolve EMBEDDING_MODELS (resolve EMBEDDING_MODELS alias) = resolve EMBEDDING_MODELS alias.
Proof.
  intros Hreg. unfold resolve.
  destruct (EMBEDDING_MODELS !! alias) as [mapped|] eqn:Hal.
  - specialize (Hreg _ _ Hal). cbn beta in Hreg.
    destruct (EMBEDDING_MODELS !! mapped) as [again|]; [exact Hreg|reflexivity].
  - by rewrite Hal.
Qed.

(** C7.  Let the registry be the one that the import builds over the
    library, and let no alias that the import writes for an embeddings
    class of the library be the identifier of another backend.  Then a
    configuration on which [construct_model_from_args] returns is left
    with [class] bound to the resolved identifier, and a second call on the
    configuration so left resolves to the same identifier: it returns the
    same model and leaves the configuration as it found it. *)
Theorem construct_again_same_backend (args : gmap string value) (model : Model V) :
  load_EMBEDDING_MODELS (Some lib) = inr EMBEDDING_MODELS ->
  aliases_apart lib ->
  result (construct args) = inr model ->
  exists class_name,
    final (construct args) !! "class" = Some (Scalar (PyStr class_name)) /\
    final (construct (final (construct args))) !! "class"
    = Some (Scalar (PyStr class_name)) /\
    result (construct (final (construct args))) = inr model /\
    final (construct (final (construct args))) = final (construct args).
Proof.
  intros Hload Hapart Hres.
  pose proof (loaded_identifiers_resolved _ _ Hload Hapart) as Hreg.
  destruct (construct_inr _ _ _ _ _ _ Hres) as (alias & C & Hcls & Hget & Hinst & Hrun).
  set (args' := final (construct args)).
  assert (Hclass : args' !! "class" = Some (Scalar (PyStr (resolve EMBEDDING_MODELS alias)))).
  { unfold args'. rewrite (construct_final_lookup _ _ _ _ _ _ _ Hres). by rewrite Hcls. }
  assert (Hentry : class_entry args' = Scalar (PyStr (resolve EMBEDDING_MODELS alias))).
  { unfold class_entry. by rewrite Hclass. }
  assert (Htarget : target_entry args' = target_entry args).
  { unfold target_entry, args'. rewrite (construct_final_lookup _ _ _ _ _ _ _ Hres).
    cbn. by destruct (args !! "target") as [[[| | |]|]|]. }
  assert (Hpopped : popped args' = popped args).
  { apply map_eq. intros k.
    destruct (decide (k = "class")) as [->|Hk]; [by rewrite !lookup_popped_class|].
    destruct (decide (k = "target")) as [->|Hk']; [by rewrite !lookup_popped_target|].
    rewrite !lookup_popped_ne by done.
    unfold args'. rewrite (construct_final_lookup _ _ _ _ _ _ _ Hres).
    by rewrite !decide_False. }
  assert (Hrun' : construct args' =
                  Run args' (mapping_log EMBEDDING_MODELS (resolve EMBEDDING_MODELS alias)) (inr model)).
  { rewrite construct_run, Hentry, (resolve_resolved _ Hreg), Hget, Hpopped, Hinst, Htarget.
    f_equal. unfold args'. by rewrite Hrun. }
  exists (resolve EMBEDDING_MODELS alias). rewrite Hrun'. by cbn.
Qed.

End ModelFactory.

(** C6, at a configuration that names no backend: the call raises, and the
    caller's dict has lost [target] and [class] all the same. *)
Lemma construct_mutates_caller_dict :
  let args : gmap string value :=
    <["class" := Scalar (PyStr "NoSuchBackend")]>
      (<["target" := Scalar (PyStr "emb")]> (<["model" := Scalar (PyStr "e5")]> ∅)) in
  args !! "target" = Some (Scalar (PyStr "emb")) /\
  args !! "class" = Some (Scalar (PyStr "NoSuchBackend")) /\
  result (Sample.run_construct args)
  = inl (Exception "Could not find the class NoSuchBackend in langchain_community.embeddings. Please check the class name.") /\
  final (Sample.run_construct args) !! "target" = None /\
  final (Sample.run_construct args) !! "class" = None /\
  final (Sample.run_construct args) <> args.
Proof.
  cbv zeta. repeat split; try (vm_compute; reflexivity).
  intros Heq. apply (f_equal (fun m => m !! "class")) in Heq.
  vm_compute in Heq. discriminate.
Qed.

Lemma sample_registry_loaded :
  load_EMBEDDING_MODELS (Some Sample.library) = inr Sample.registry.
Proof. vm_compute. reflexivity. Qed.

Lemma sample_registry_resolved : identifiers_resolved Sample.registry.
Proof. apply (bool_decide_unpack _). vm_compute. reflexivity. Qed.

Lemma sample_aliases_apart : aliases_apart Sample.library.
Proof.
  intros class_name class_ alias Hin _ _ Halias Hknown.
  assert (Hnames : class_name ∈ ["FakeEmbeddings"; "HuggingFaceEmbeddings";
                                 "OpenAIEmbeddings"; "QianfanEmbeddingsEndpoint"])
    by exact Hin.
  assert (Hlib : forall id, id ∈ lib_all Sample.library ->
                 id ∈ ["FakeEmbeddings"; "HuggingFaceEmbeddings";
                       "OpenAIEmbeddings"; "QianfanEmbeddingsEndpoint"])
    by (intros id Hid; exact Hid).
  destruct Hknown as [->|[->|[Hid _]]]; [| |apply Hlib in Hid];
    unfold aliases_of in Halias;
    rewrite !elem_of_cons in Hnames; rewrite !elem_of_cons in Halias;
    destruct Hnames as [->|[->|[->|[->|Hnil]]]];
    try (by apply elem_of_nil in Hnil);
    destruct Halias as [Halias|[Halias|Hnil]];
    try (by apply elem_of_nil in Hnil);
    vm_compute in Halias; try discriminate Halias; subst alias;
    rewrite !elem_of_cons in Hid;
    destruct Hid as [Hid|[Hid|[Hid|[Hid|Hnil]]]];
    try (by apply elem_of_nil in Hnil); discriminate Hid.
Qed.

(** C7, from the alias [fake]: the first call leaves [class] bound to
    [FakeEmbeddings], and so does the second. *)
Lemma construct_again_same_backend_witness :
  (exists class_name,
    final (construct_model_from_args Sample.registry Sample.library Sample.vllm_class
             Sample.fastapi_class Example.using_fake) !! "class"
    = Some (Scalar (PyStr class_name)) /\
    final (construct_model_from_args Sample.registry Sample.library Sample.vllm_class
             Sample.fastapi_class
             (final (construct_model_from_args Sample.registry Sample.library
                       Sample.vllm_class Sample.fastapi_class Example.using_fake)))
      !! "class" = Some (Scalar (PyStr class_name)) /\
    result (construct_model_from_args Sample.registry Sample.library Sample.vllm_class
              Sample.fastapi_class
              (final (construct_model_from_args Sample.registry Sample.library
                        Sample.vllm_class Sample.fastapi_class Example.using_fake)))
    = inr (Sample.steady None) /\
    final (construct_model_from_args Sample.registry Sample.library Sample.vllm_class
             Sample.fastapi_class
             (final (construct_model_from_args Sample.registry Sample.library
                       Sample.vllm_class Sample.fastapi_class Example.using_fake)))
    = final (construct_model_from_args Sample.registry Sample.library Sample.vllm_class
               Sample.fastapi_class Example.using_fake)) /\
  Example.using_fake !! "class" = Some (Scalar (PyStr "fake")) /\
  final (construct_model_from_args Sample.registry Sample.library Sample.vllm_class
           Sample.fastapi_class Example.using_fake) !! "class"
  = Some (Scalar (PyStr "FakeEmbeddings")).
Proof.
  split; [|split; vm_compute; reflexivity].
  apply (construct_again_same_backend Sample.registry Sample.library
           Sample.vllm_class Sample.fastapi_class Example.using_fake
           (Sample.steady None)).
  - exact sample_registry_loaded.
  - exact sample_aliases_apart.
  - vm_compute. reflexivity.
Defined.

(** C7 as stated fails over a library that exports, next to
    [FakeEmbeddings], a class whose friendly name is [FakeEmbeddings]: the
    import maps the identifier [FakeEmbeddings] on to that class, so the
    first call on the alias [fake] leaves [class] bound to
    [FakeEmbeddings] and the second call on the configuration so left
    resolves to [FakeEmbEmbeddingseddings]. *)
Lemma construct_again_other_backend :
  load_EMBEDDING_MODELS (Some Example.overlapping_library)
  = inr Example.overlapping_registry /\
  Example.overlapping_registry !! "fake" = Some "FakeEmbeddings" /\
  Example.overlapping_registry !! "FakeEmbeddings" = Some "FakeEmbEmbeddingseddings" /\
  Example.using_fake !! "class" = Some (Scalar (PyStr "fake")) /\
  result (construct_model_from_args Example.overlapping_registry
            Example.overlapping_library Sample.vllm_class Sample.fastapi_class
            Example.using_fake) = inr (Sample.steady None) /\
  final (construct_model_from_args Example.overlapping_registry
           Example.overlapping_library Sample.vllm_class Sample.fastapi_class
           Example.using_fake) !! "class"
  = Some (Scalar (PyStr "FakeEmbeddings")) /\
  result (construct_model_from_args Example.overlapping_registry
            Example.overlapping_library Sample.vllm_class Sample.fastapi_class
            (final (construct_model_from_args Example.overlapping_registry
                      Example.overlapping_library Sample.vllm_class Sample.fastapi_class
                      Example.using_fake))) = inr (Sample.steady None) /\
  final (construct_model_from_args Example.overlapping_registry
           Example.overlapping_library Sample.vllm_class Sample.fastapi_class
           (final (construct_model_from_args Example.overlapping_registry
                     Example.overlapping_library Sample.vllm_class Sample.fastapi_class
                     Example.using_fake))) !! "class"
  = Some (Scalar (PyStr "FakeEmbEmbeddingseddings")).
Proof. repeat split; vm_compute; reflexivity. Qed.
(* ===================================================================== *)
(** * Ranges and batches *)
(* ===================================================================== *)

Section RangeFacts.

Lemma range_list_nil (start stop step : Z) :
  0 < step -> stop <= start -> range_list start stop step = [].
Proof.
  intros Hstep Hle. unfold range_list, range_len.
  rewrite (proj2 (Z.ltb_lt 0 step)) by done.
  by rewrite (proj2 (Z.ltb_ge start stop)) by done.
Qed.

Lemma range_len_cons (start stop step : Z) :
  0 < step -> start < stop ->
  Z.to_nat (range_len start stop step)
  = S (Z.to_nat (range_len (start + step) stop step)).
Proof.
  intros Hstep Hlt. unfold range_len.
  rewrite (proj2 (Z.ltb_lt 0 step)) by done.
  rewrite (proj2 (Z.ltb_lt start stop)) by done.
  destruct (Z.ltb_spec (start + step) stop) as [Hmore|Hlast].
  - replace (stop - start - 1) with ((stop - (start + step) - 1) + 1 * step) by lia.
    rewrite Z.div_add by lia.
    assert (0 <= (stop - (start + step) - 1) / step) by (apply Z.div_pos; lia).
    lia.
  - rewrite Z.div_small by lia. reflexivity.
Qed.

Lemma range_list_cons (start stop step : Z) :
  0 < step -> start < stop ->
  range_list start stop step = start :: range_list (start + step) stop step.
Proof.
  intros Hstep Hlt. unfold range_list.
  rewrite range_len_cons by done. cbn [seq fmap list_fmap].
  f_equal; [lia|].
  rewrite <- fmap_S_seq, <- list_fmap_compose.
  apply list_fmap_ext. intros i x _. cbn. lia.
Qed.

Lemma range_list_shift (start stop step c : Z) :
  range_list (start + c) (stop + c) step = (fun s => s + c) <$> range_list start stop step.
Proof.
  unfold range_list, range_len.
  replace (stop + c - (start + c) - 1) with (stop - start - 1) by lia.
  replace (start + c - (stop + c) - 1) with (start - stop - 1) by lia.
  replace (start + c <? stop + c) with (start <? stop)
    by (destruct (Z.ltb_spec start stop), (Z.ltb_spec (start + c) (stop + c)); lia).
  replace (stop + c <? start + c) with (stop <? start)
    by (destruct (Z.ltb_spec stop start), (Z.ltb_spec (stop + c) (start + c)); lia).
  rewrite <- list_fmap_compose. apply list_fmap_ext. intros i x _. cbn. lia.
Qed.

Lemma range_list_nonneg (stop step : Z) :
  0 < step -> Forall (fun s => 0 <= s) (range_list 0 stop step).
Proof.
  intros Hstep. unfold range_list. apply Forall_fmap, Forall_forall.
  intros i _. cbn. lia.
Qed.

End RangeFacts.

Section BatchFacts.

Lemma batches_of_nil (B : Z) : 0 < B -> batches_of B [] = [].
Proof. intros HB. unfold batches_of. cbn [length]. by rewrite range_list_nil by lia. Qed.

Lemma batches_of_cons (B : Z) (docs : list string) :
  0 < B -> docs <> [] ->
  batches_of B docs
  = take (Z.to_nat B) docs :: batches_of B (drop (Z.to_nat B) docs).
Proof.
  intros HB Hne. unfold batches_of.
  set (N := Z.of_nat (length docs)).
  assert (HN : 0 < N) by (destruct docs; [done | cbn in N; lia]).
  rewrite range_list_cons by lia. cbn [fmap list_fmap]. f_equal.
  - unfold slice. rewrite drop_0.
    destruct (Z.le_ge_cases B N) as [Hle|Hge].
    + by rewrite Z.min_l, Z.sub_0_r by lia.
    + rewrite Z.min_r, Z.sub_0_r by lia.
      rewrite !take_ge; [done | lia | lia].
  - rewrite length_drop.
    destruct (Z.lt_ge_cases B N) as [Hlt|Hge].
    + replace (Z.of_nat (length docs - Z.to_nat B)) with (N - B) by lia.
      replace (range_list (0 + B) N B) with (range_list (0 + B) ((N - B) + B) B)
        by (f_equal; lia).
      rewrite (range_list_shift 0 (N - B) B B).
      rewrite <- list_fmap_compose.
      apply Forall_fmap_ext. eapply Forall_impl; [by apply range_list_nonneg|].
      intros s Hs. cbn in Hs |- *. unfold slice.
      rewrite drop_drop. f_equal; [lia|]. f_equal. lia.
    + rewrite range_list_nil by lia.
      replace (Z.of_nat (length docs - Z.to_nat B)) with 0 by lia.
      by rewrite range_list_nil by lia.
Qed.

(** Induction on a list, batch by batch. *)
Lemma batch_ind (B : Z) (HB : 0 < B) (P : list string -> Prop) :
  P [] ->
  (forall docs, docs <> [] -> P (drop (Z.to_nat B) docs) -> P docs) ->
  forall docs, P docs.
Proof.
  intros Hnil Hstep docs.
  remember (length docs) as n eqn:Hn.
  revert docs Hn. induction (lt_wf n) as [n _ IH]. intros docs ->.
  destruct docs as [|d docs]; [done|].
  apply Hstep; [done|].
  eapply IH; [|reflexivity]. rewrite length_drop. cbn [length]. lia.
Qed.

Lemma concat_batches_of (B : Z) (docs : list string) :
  0 < B -> concat (batches_of B docs) = docs.
Proof.
  intros HB. induction docs as [|docs Hne IH] using (batch_ind B HB).
  - by rewrite batches_of_nil.
  - rewrite batches_of_cons by done. cbn [concat]. rewrite IH. apply take_drop.
Qed.



Lemma batches_of_app (B : Z) (q : nat) (pre rest : list string) :
  0 < B -> Z.of_nat (length pre) = Z.of_nat q * B ->
  batches_of B (pre ++ rest) = batches_of B pre ++ batches_of B rest.
Proof.
  intros HB. revert pre. induction q as [|q IH]; intros pre Hlen.
  - destruct pre; [|cbn in Hlen; lia]. by rewrite batches_of_nil.
  - assert (Hpre : (Z.to_nat B <= length pre)%nat) by lia.
    assert (pre <> []) by (intros ->; cbn in Hlen; lia).
    rewrite (batches_of_cons B (pre ++ rest)) by (by destruct pre).
    rewrite (batches_of_cons B pre) by done.
    rewrite take_app_le, drop_app_le by done.
    rewrite IH; [done|]. rewrite length_drop. lia.
Qed.

End BatchFacts.

(* ===================================================================== *)
(** * The batch executor *)
(* ===================================================================== *)

Section ExecutorFacts.
Context {A V S : Type} `{Str A}.
Variable model : Model V.
Variable df : DataFrame A.
Variable input_columns : list string.

(** The documents of a slice of the rows are a slice of the documents. *)
Lemma batch_texts (start stop : Z) :
  apply_rows row_to_document (select input_columns (iloc start stop df))
  = slice start stop (documents input_columns df).
Proof.
  unfold documents, apply_rows, select, iloc, slice. cbn [columns rows].
  by rewrite !fmap_take, !fmap_drop.
Qed.

Lemma length_documents : length (documents input_columns df) = length (rows df).
Proof. unfold documents, apply_rows, select. cbn [rows]. by rewrite !length_fmap. Qed.

(** The fallback loop returns what [singles] says and leaves the state. *)
Lemma embed_one_by_one_value (start i : Z) (texts : list string) (acc : list V) (st : S) :
  final (embed_one_by_one model start i texts acc st) = st /\
  result (embed_one_by_one model start i texts acc st)
  = match singles model texts with
    | inr embeddings => inr (acc ++ embeddings)
    | inl e => inl e
    end.
Proof.
  revert i acc. induction texts as [|text rest IH]; intros i acc.
  - cbn. by rewrite app_nil_r.
  - cbn [embed_one_by_one singles]. rewrite bind_call_embed.
    destruct (embed_documents model [text]) as [inner_e|[|embedding others]];
      [done | done |].
    rewrite bind_log. cbn [prepend final result].
    destruct (IH (i + 1) (acc ++ [embedding])) as [-> ->].
    destruct (singles model rest) as [e|embeddings]; [done|].
    by rewrite <- app_assoc.
Qed.

(** The executor leaves the state, whatever object [input_columns] is. *)
Lemma embed_batch_final (key : column_key) (batch_size total_rows : Z) (acc : list V)
    (start_idx : Z) (st : S) :
  final (embed_batch model df key batch_size total_rows acc start_idx st) = st.
Proof.
  unfold embed_batch. rewrite bind_log, bind_lift. cbn [prepend final].
  destruct (batch_documents _ _) as [e|texts]; [done|].
  rewrite bind_call_embed. cbn [prepend final].
  destruct (embed_documents model texts) as [e|batch_embeddings].
  - rewrite bind_log, bind_run. cbn [prepend final].
    destruct (embed_one_by_one_value start_idx 0 texts [] st) as [Hfinal _].
    destruct (result (embed_one_by_one _ _ _ _ _ _)); cbn [prepend final ret]; by rewrite ?Hfinal.
  - by rewrite bind_log.
Qed.

Lemma for_each_final (key : column_key) (batch_size total_rows : Z) (starts : list Z)
    (acc : list V) (st : S) :
  final (for_each starts (embed_batch model df key batch_size total_rows) acc st) = st.
Proof.
  revert acc. induction starts as [|start_idx starts IH]; intros acc; [done|].
  cbn [for_each]. rewrite bind_run, embed_batch_final.
  destruct (result (embed_batch _ _ _ _ _ _ _ _)); cbn [prepend final]; [done|apply IH].
Qed.

Lemma embed_all_final (key : column_key) (st : S) :
  final (embed_all model df key st) = st.
Proof.
  unfold embed_all. rewrite !bind_log, bind_lift. cbn [prepend final].
  destruct (py_range _ _ _) as [e|starts]; [done|].
  rewrite bind_run, for_each_final.
  destruct (result (for_each _ _ _ _)); cbn [prepend final]; [done|].
  by rewrite bind_log.
Qed.

Lemma embed_batch_value (batch_size : Z) (acc : list V) (start_idx : Z) (st : S) :
  let r := embed_batch model df (Labels input_columns) batch_size (len df) acc start_idx st in
  final r = st /\
  result r = match batch_outcome model (texts_at df input_columns batch_size start_idx) with
             | inr batch_embeddings => inr (acc ++ batch_embeddings)
             | inl e => inl e
             end.
Proof.
  cbv zeta. unfold embed_batch, batch_outcome, texts_at.
  rewrite bind_log. cbn [batch_documents]. rewrite bind_lift_inr, batch_texts, bind_call_embed.
  destruct (embed_documents model _) as [e|batch_embeddings].
  - rewrite bind_log. cbn [prepend final result].
    set (texts := slice _ _ _).
    destruct (embed_one_by_one_value start_idx 0 texts [] st) as [Hfinal Hresult].
    unfold bind. rewrite (run_eta (embed_one_by_one _ _ _ _ _ _)), Hfinal, Hresult.
    by destruct (singles model texts).
  - by rewrite bind_log.
Qed.

Lemma for_each_value (batch_size : Z) (starts : list Z) (acc : list V) (st : S) :
  let r := for_each starts (embed_batch model df (Labels input_columns) batch_size (len df)) acc st in
  final r = st /\
  result r = match outcomes model (texts_at df input_columns batch_size <$> starts) with
             | inr embeddings => inr (acc ++ embeddings)
             | inl e => inl e
             end.
Proof.
  cbv zeta. revert acc. induction starts as [|start_idx starts IH]; intros acc.
  - cbn. by rewrite app_nil_r.
  - cbn [for_each fmap list_fmap outcomes].
    destruct (embed_batch_value batch_size acc start_idx st) as [Hfinal Hresult].
    unfold bind. rewrite (run_eta (embed_batch _ _ _ _ _ _ _ _)), Hfinal, Hresult.
    destruct (batch_outcome model _) as [e|batch_embeddings]; [done|].
    cbn [prepend final result]. destruct (IH (acc ++ batch_embeddings)) as [-> ->].
    destruct (outcomes model _) as [e|embeddings]; [done|].
    by rewrite <- app_assoc.
Qed.

Lemma texts_at_batches (batch_size : Z) :
  texts_at df input_columns batch_size <$> range_list 0 (len df) batch_size
  = batches_of batch_size (documents input_columns df).
Proof.
  unfold batches_of, texts_at, len. by rewrite length_documents.
Qed.

(** The executor returns what [outcomes] says of the batches, and leaves
    the state. *)
Lemma embed_all_value (st : S) :
  default 32 (batch_size model) <> 0 ->
  final (embed_all model df (Labels input_columns) st) = st /\
  result (embed_all model df (Labels input_columns) st)
  = outcomes model (batches_of (default 32 (batch_size model))
                               (documents input_columns df)).
Proof.
  intros HB. unfold embed_all. rewrite !bind_log, bind_lift. unfold py_range.
  rewrite (proj2 (Z.eqb_neq _ 0)) by done.
  destruct (for_each_value (default 32 (batch_size model))
              (range_list 0 (len df) (default 32 (batch_size model))) [] st)
    as [Hfinal Hresult].
  cbv zeta in Hfinal, Hresult. rewrite texts_at_batches in Hresult.
  unfold bind. rewrite (run_eta (for_each _ _ _ _)), Hfinal, Hresult.
  destruct (outcomes model _) as [e|embeddings]; [done|].
  split; reflexivity.
Qed.

(** ** Runs in which every batch-level call is answered *)

Lemma outcomes_answers (batches : list (list string)) (answers : list (list V)) :
  Forall2 (fun batch answer => embed_documents model batch = inr answer) batches answers ->
  outcomes model batches = inr (concat answers).
Proof.
  induction 1 as [|batch answer batches answers Hanswer _ IH]; [done|].
  cbn [outcomes concat]. unfold batch_outcome. by rewrite Hanswer, IH.
Qed.




Lemma answers_exist (batches : list (list string)) :
  (forall docs, exists answer,
      embed_documents model docs = inr answer /\ length answer = length docs) ->
  exists answers,
    Forall2 (fun batch answer => embed_documents model batch = inr answer
                                 /\ length answer = length batch) batches answers.
Proof.
  intros Hanswers. induction batches as [|batch batches [answers IH]].
  - by exists [].
  - destruct (Hanswers batch) as [answer Hanswer]. exists (answer :: answers).
    by constructor.
Qed.

Lemma length_concat_answers (batches : list (list string)) (answers : list (list V)) :
  Forall2 (fun batch answer => embed_documents model batch = inr answer
                               /\ length answer = length batch) batches answers ->
  length (concat answers) = length (concat batches).
Proof.
  induction 1 as [|batch answer batches answers [_ Hlen] _ IH]; [done|].
  cbn [concat]. by rewrite !length_app, Hlen, IH.
Qed.


(** Outside the positive batch sizes: zero stops at [range], a negative
    size makes no batch at all. *)
Lemma embed_all_zero_batch_size (key : column_key) (st : S) :
  default 32 (batch_size model) = 0 ->
  result (embed_all model df key st)
  = inl (ValueError "range() arg 3 must not be zero") /\
  embed_calls (journal (embed_all model df key st)) = [].
Proof.
  intros H0. unfold embed_all. rewrite !bind_log, bind_lift. unfold py_range.
  by rewrite H0.
Qed.

Lemma embed_all_negative_batch_size (key : column_key) (st : S) :
  default 32 (batch_size model) < 0 ->
  result (embed_all model df key st) = inr [] /\
  embed_calls (journal (embed_all model df key st)) = [].
Proof.
  intros Hneg. unfold embed_all. rewrite !bind_log, bind_lift. unfold py_range.
  rewrite (proj2 (Z.eqb_neq _ 0)) by lia.
  assert (Hnone : range_list 0 (len df) (default 32 (batch_size model)) = []).
  { unfold range_list, range_len, len.
    rewrite (proj2 (Z.ltb_ge 0 _)) by lia.
    by rewrite (proj2 (Z.ltb_ge _ 0)) by lia. }
  rewrite Hnone. cbn [for_each]. by rewrite bind_ret, bind_log.
Qed.

End ExecutorFacts.

Section FallbackFacts.
Context {A V St : Type} `{Str A}.
Variable model : Model V.
Variable df : DataFrame A.
Variable input_columns : list string.

Lemma singles_alone (texts : list string) :
  Forall (embeds_alone model) texts -> exists embeddings, singles model texts = inr embeddings.
Proof.
  induction 1 as [|text rest (embedding & others & Hone) _ [embeddings IH]].
  - by exists [].
  - exists (embedding :: embeddings). cbn [singles]. by rewrite Hone, IH.
Qed.

Lemma singles_fail (good : list string) (d : string) (rest : list string) (e : string) :
  Forall (embeds_alone model) good ->
  embed_documents model [d] = inl e ->
  singles model (good ++ d :: rest) = inl (embedding_failed e).
Proof.
  intros Hgood Hd. induction Hgood as [|text good (embedding & others & Hone) _ IH].
  - cbn [app singles]. by rewrite Hd.
  - cbn [app singles]. by rewrite Hone, IH.
Qed.

Lemma outcomes_through (batches : list (list string)) :
  Forall (gets_through model) batches -> exists embeddings, outcomes model batches = inr embeddings.
Proof.
  induction 1 as [|texts batches Hthrough _ [embeddings IH]].
  - by exists [].
  - cbn [outcomes]. rewrite IH. unfold batch_outcome.
    destruct Hthrough as [[batch_embeddings ->]|Halone]; [eauto|].
    destruct (embed_documents model texts) as [e|batch_embeddings]; [|eauto].
    destruct (singles_alone texts Halone) as [singly ->]. eauto.
Qed.

Lemma outcomes_app (batches1 batches2 : list (list string)) :
  outcomes model (batches1 ++ batches2)
  = match outcomes model batches1 with
    | inr embeddings1 =>
        match outcomes model batches2 with
        | inr embeddings2 => inr (embeddings1 ++ embeddings2)
        | inl e => inl e
        end
    | inl e => inl e
    end.
Proof.
  induction batches1 as [|texts batches1 IH]; cbn [app outcomes].
  - by destruct (outcomes model batches2).
  - destruct (batch_outcome model texts) as [e|batch_embeddings]; [done|].
    rewrite IH. destruct (outcomes model batches1) as [e|embeddings1]; [done|].
    destruct (outcomes model batches2) as [e|embeddings2]; [done|].
    by rewrite app_assoc.
Qed.

(** The last record of a fallback that meets a document the backend
    refuses: the error record, with the row index of that document. *)
Lemma embed_one_by_one_error_record (start i : Z) (good : list string) (d : string)
    (rest : list string) (acc : list V) (st : St) (e : string) :
  Forall (embeds_alone model) good ->
  embed_documents model [d] = inl e ->
  exists j,
    journal (embed_one_by_one model start i (good ++ d :: rest) acc st)
    = j ++ [error_record (start + Z.of_nat (length acc + length good)) e].
Proof.
  intros Hgood Hd. revert i acc.
  induction Hgood as [|text good (embedding & others & Hone) _ IH]; intros i acc.
  - cbn [app embed_one_by_one]. rewrite bind_call_embed, Hd.
    unfold document_failed. rewrite bind_log. cbn [prepend journal raise app length].
    exists [EmbedCall [d]]. by rewrite Nat.add_0_r.
  - cbn [app embed_one_by_one]. rewrite bind_call_embed, Hone, bind_log.
    destruct (IH (i + 1) (acc ++ [embedding])) as [j Hj].
    cbn [prepend journal]. rewrite Hj.
    replace (length (acc ++ [embedding]) + length good)%nat
      with (length acc + length (text :: good))%nat
      by (rewrite length_app; cbn [length]; lia).
    exists ([EmbedCall [text]] ++ [Log DEBUG ("Successfully processed individual document "
                                               +:+ str (start + i))] ++ j).
    by rewrite <- !app_assoc.
Qed.

Lemma embed_batch_fallback_journal (batch_size : Z) (acc : list V) (start_idx : Z)
    (st : St) (e0 : string) (e : exn) :
  embed_documents model (texts_at df input_columns batch_size start_idx) = inl e0 ->
  result (embed_one_by_one model start_idx 0
            (texts_at df input_columns batch_size start_idx) [] st) = inl e ->
  exists j,
    journal (embed_batch model df (Labels input_columns) batch_size (len df) acc start_idx st)
    = j ++ journal (embed_one_by_one model start_idx 0
                      (texts_at df input_columns batch_size start_idx) [] st).
Proof.
  intros He0 He. unfold embed_batch.
  rewrite bind_log. cbn [batch_documents]. rewrite bind_lift_inr, batch_texts, bind_call_embed.
  fold (texts_at df input_columns batch_size start_idx).
  rewrite He0, bind_log, bind_run, He. cbn [prepend journal].
  eexists ([_] ++ [_] ++ [_]). by rewrite <- !app_assoc.
Qed.

End FallbackFacts.

Lemma length_batches_of (B : Z) (q : nat) (pre : list string) :
  0 < B -> Z.of_nat (length pre) = Z.of_nat q * B -> length (batches_of B pre) = q.
Proof.
  intros HB. revert pre. induction q as [|q IH]; intros pre Hlen.
  - destruct pre; [|cbn in Hlen; lia]. by rewrite batches_of_nil.
  - assert (pre <> []) by (intros ->; cbn in Hlen; lia).
    rewrite batches_of_cons by done. cbn [length]. f_equal.
    apply IH. rewrite length_drop. lia.
Qed.

Lemma range_list_lookup (stop step : Z) (q : nat) (s : Z) :
  range_list 0 stop step !! q = Some s -> s = Z.of_nat q * step.
Proof.
  unfold range_list. rewrite list_lookup_fmap.
  destruct (seq 0 _ !! q) as [i|] eqn:Hi; [|done].
  apply lookup_seq in Hi as [-> _]. cbn. intros [= <-]. lia.
Qed.

Section AbortFacts.
Context {A V St : Type} `{Str A}.
Variable model : Model V.
Variable df : DataFrame A.
Variable input_columns : list string.

Lemma embed_all_aborts (st : St) (q : nat) (pre good : list string) (d : string)
    (rest : list string) (e0 e : string) :
  let B := default 32 (batch_size model) in
  0 < B ->
  documents input_columns df = pre ++ good ++ d :: rest ->
  Z.of_nat (length pre) = Z.of_nat q * B ->
  Z.of_nat (length good) < B ->
  Forall (gets_through model) (batches_of B pre) ->
  embed_documents model (take (Z.to_nat B) (good ++ d :: rest)) = inl e0 ->
  Forall (embeds_alone model) good ->
  embed_documents model [d] = inl e ->
  final (embed_all model df (Labels input_columns) st) = st /\
  result (embed_all model df (Labels input_columns) st) = inl (embedding_failed e) /\
  exists j,
    journal (embed_all model df (Labels input_columns) st)
    = j ++ [error_record (Z.of_nat (length pre + length good)) e].
Proof.
  intros B HB Hdocs Hpre Hgood Hthrough He0 Halone Hd.
  set (tail := good ++ d :: rest) in *.
  assert (Htake : exists rest', take (Z.to_nat B) tail = good ++ d :: rest').
  { unfold tail. rewrite take_app_ge by lia.
    destruct (Z.to_nat B - length good)%nat as [|m] eqn:Hm; [lia|].
    cbn [take]. eauto. }
  destruct Htake as [rest' Htake]. rewrite Htake in He0.
  assert (Hbatches : batches_of B (documents input_columns df)
                     = batches_of B pre ++ (good ++ d :: rest')
                         :: batches_of B (drop (Z.to_nat B) tail)).
  { rewrite Hdocs. fold tail. rewrite (batches_of_app B q) by done.
    rewrite (batches_of_cons B tail) by (unfold tail; by destruct good).
    by rewrite Htake. }
  destruct (outcomes_through model _ Hthrough) as [before Hbefore].
  assert (Hsingles : singles model (good ++ d :: rest') = inl (embedding_failed e))
    by (by apply singles_fail).
  destruct (embed_all_value model df input_columns st) as [Hfinal Hresult];
    [fold B; lia|].
  fold B in Hresult. rewrite Hbatches, outcomes_app, Hbefore in Hresult.
  cbn [outcomes] in Hresult. unfold batch_outcome in Hresult.
  rewrite He0, Hsingles in Hresult.
  split; [done|]. split; [done|].
  (* the journal *)
  unfold embed_all. fold B. rewrite !bind_log, bind_lift. unfold py_range.
  rewrite (proj2 (Z.eqb_neq B 0)) by lia.
  pose proof (texts_at_batches df input_columns B) as Hstarts.
  rewrite Hbatches in Hstarts.
  apply fmap_app_inv in Hstarts as (starts1 & starts2' & Hstarts1 & Hstarts2 & Hrange).
  symmetry in Hstarts2. apply fmap_cons_inv in Hstarts2 as (s & starts2 & Hs & _ & ->).
  assert (Hsq : s = Z.of_nat (length pre)).
  { rewrite Hpre. apply (range_list_lookup (len df) B). rewrite Hrange.
    assert (Hq : length starts1 = q).
    { rewrite <- (length_batches_of B q pre) by done.
      by rewrite Hstarts1, length_fmap. }
    rewrite <- Hq. by rewrite list_lookup_middle. }
  rewrite Hrange, bind_run, for_each_app, bind_run.
  destruct (for_each_value model df input_columns B starts1 [] st) as [Hf1 Hr1].
  cbv zeta in Hf1, Hr1. rewrite <- Hstarts1, Hbefore in Hr1.
  rewrite Hf1, Hr1. cbn [prepend result journal final].
  cbn [for_each]. rewrite bind_run.
  destruct (embed_batch_value model df input_columns B ([] ++ before) s st) as [Hfb Hrb].
  cbv zeta in Hfb, Hrb. unfold batch_outcome in Hrb.
  assert (Htexts : texts_at df input_columns B s = good ++ d :: rest') by done.
  rewrite Htexts, He0, Hsingles in Hrb. rewrite Hrb. cbn [result journal].
  destruct (embed_one_by_one_value model s 0 (good ++ d :: rest') [] st) as [_ Hro].
  rewrite Hsingles in Hro.
  destruct (embed_batch_fallback_journal model df input_columns B ([] ++ before) s st
              e0 (embedding_failed e)) as [jb Hjb]; [by rewrite Htexts | by rewrite Htexts |].
  rewrite Hjb, Htexts.
  destruct (embed_one_by_one_error_record model s 0 good d rest' [] st e Halone Hd)
    as [jo Hjo].
  rewrite Hjo. cbn [length]. rewrite Hsq.
  replace (Z.of_nat (length pre) + Z.of_nat (0 + length good))
    with (Z.of_nat (length pre + length good)) by lia.
  eexists. by rewrite !app_assoc.
Qed.

End AbortFacts.


(* ===================================================================== *)
(** * Prediction *)
(* ===================================================================== *)

Section StripFacts.
Variable c : ascii.

(** What [lstrip] returns does not begin with [c]. *)
Lemma lstrip_starts (s : string) : starts_with c (PyString.lstrip c s) = false.
Proof.
  induction s as [|a s IH]; [done|]. cbn [PyString.lstrip].
  destruct (Ascii.eqb a c) eqn:Hac; [done|]. cbn. by rewrite Hac.
Qed.

Lemma lstrip_id (s : string) : starts_with c s = false -> PyString.lstrip c s = s.
Proof. destruct s as [|a s]; [done|]. cbn. by intros ->. Qed.

Lemma rstrip_starts (s : string) :
  starts_with c s = false -> starts_with c (PyString.rstrip c s) = false.
Proof.
  destruct s as [|a s]; [done|]. cbn [starts_with PyString.rstrip]. intros Hac.
  destruct (PyString.rstrip c s); cbn; by rewrite Hac.
Qed.

Lemma rstrip_rstrip (s : string) :
  PyString.rstrip c (PyString.rstrip c s) = PyString.rstrip c s.
Proof.
  induction s as [|a s IH]; [done|]. cbn [PyString.rstrip].
  destruct (PyString.rstrip c s) as [|b r] eqn:Hr.
  - destruct (Ascii.eqb a c) eqn:Hac; [done|]. cbn. by rewrite Hac.
  - cbn [PyString.rstrip]. cbn [PyString.rstrip] in IH. by rewrite IH.
Qed.

(** [strip] leaves a string that [strip] does not change. *)
Lemma strip_strip (s : string) :
  PyString.strip c (PyString.strip c s) = PyString.strip c s.
Proof.
  unfold PyString.strip.
  rewrite (lstrip_id (PyString.rstrip c (PyString.lstrip c s)))
    by apply rstrip_starts, lstrip_starts.
  apply rstrip_rstrip.
Qed.

End StripFacts.

(** ** [strip] against the backtick-stripped form of the specification *)

Lemma append_String (a : ascii) (s t : string) :
  String a s +:+ t = String a (s +:+ t).
Proof. reflexivity. Qed.

Lemma append_empty (t : string) : EmptyString +:+ t = t.
Proof. reflexivity. Qed.

Lemma lstrip_ticks (s : string) : exists n, s = ticks n +:+ PyString.lstrip "`" s.
Proof.
  induction s as [|a s [n IH]]; [by exists O|]. cbn [PyString.lstrip].
  destruct (Ascii.eqb_spec a "`") as [->|Hne]; [|by exists O].
  exists (S n). cbn [ticks]. rewrite append_String. by f_equal.
Qed.

Lemma rstrip_ticks (s : string) : exists m, s = PyString.rstrip "`" s +:+ ticks m.
Proof.
  induction s as [|a s [m IH]]; [by exists O|]. cbn [PyString.rstrip].
  destruct (PyString.rstrip "`" s) as [|b r].
  - rewrite append_empty in IH. rewrite IH. destruct (Ascii.eqb_spec a "`") as [->|Hne].
    + by exists (S m).
    + by exists m.
  - exists m. rewrite append_String in *. by f_equal.
Qed.

Lemma rstrip_ends (s : string) : ends_with "`" (PyString.rstrip "`" s) = false.
Proof.
  induction s as [|a s IH]; [done|]. cbn [PyString.rstrip].
  destruct (PyString.rstrip "`" s) as [|b r].
  - destruct (Ascii.eqb a "`") eqn:Ha; [done|]. cbn. exact Ha.
  - exact IH.
Qed.

(** [strip] returns the backtick-stripped form of its argument. *)
Lemma strip_stripped_form (s : string) : stripped_form s (PyString.strip "`" s).
Proof.
  unfold stripped_form, PyString.strip. split; [|split].
  - destruct (lstrip_ticks s) as [n Hn].
    destruct (rstrip_ticks (PyString.lstrip "`" s)) as [m Hm].
    exists n, m. by rewrite <- Hm.
  - apply rstrip_starts, lstrip_starts.
  - apply rstrip_ends.
Qed.

Lemma rstrip_only_ticks (k : nat) : PyString.rstrip "`" (ticks k) = EmptyString.
Proof. induction k as [|k IH]; [done|]. cbn [ticks PyString.rstrip]. by rewrite IH. Qed.

Lemma lstrip_leading_ticks (k : nat) (s : string) :
  PyString.lstrip "`" (ticks k +:+ s) = PyString.lstrip "`" s.
Proof. induction k as [|k IH]; [done|]. cbn [ticks]. rewrite append_String. exact IH. Qed.

Lemma rstrip_trailing_ticks (k : nat) (s : string) :
  ends_with "`" s = false -> PyString.rstrip "`" (s +:+ ticks k) = s.
Proof.
  induction s as [|a s IH]; intros Hs; [apply rstrip_only_ticks|].
  rewrite append_String. cbn [PyString.rstrip]. destruct s as [|b s'].
  - rewrite append_empty, rstrip_only_ticks. cbn in Hs. by rewrite Hs.
  - rewrite IH by exact Hs. reflexivity.
Qed.

(** A label has one backtick-stripped form, the one that [strip] returns. *)
Lemma stripped_form_strip (label form : string) :
  stripped_form label form -> form = PyString.strip "`" label.
Proof.
  intros ((n & m & ->) & Hstart & Hend). unfold PyString.strip.
  rewrite lstrip_leading_ticks. destruct form as [|a form'].
  - rewrite append_empty.
    replace (PyString.lstrip "`" (ticks m)) with EmptyString; [done|].
    induction m as [|m IH]; [done|]. cbn. exact IH.
  - rewrite lstrip_id by exact Hstart. symmetry. by apply rstrip_trailing_ticks.
Qed.

Lemma strip_unquoted_labels {A} (df : DataFrame A) :
  unquoted_labels (columns df) (set_columns (PyString.strip "`" <$> columns df) df).
Proof.
  unfold unquoted_labels. cbn [set_columns columns].
  induction (columns df) as [|label labels IH]; constructor; [apply strip_stripped_form|done].
Qed.

Section PredictFacts.
Context {A V : Type} `{Str A}.
Variable EMBEDDING_MODELS : gmap string string.
Variable lib : Library V.
Variables VLLMEmbeddings FastAPIEmbeddings : ClassObj V.

Abbreviation construct :=
  (construct_model_from_args EMBEDDING_MODELS lib VLLMEmbeddings FastAPIEmbeddings).
Abbreviation prepare_ :=
  (prepare (A:=A) EMBEDDING_MODELS lib VLLMEmbeddings FastAPIEmbeddings).
Abbreviation predict_ :=
  (predict (A:=A) EMBEDDING_MODELS lib VLLMEmbeddings FastAPIEmbeddings).

Lemma bind_on_local {St T X Y} (t : T) (m : M T X) (k : T * X -> M St Y) (st : St) :
  bind (on_local t m) k st
  = match result (m t) with
    | inr x => prepend (journal (m t)) (k (final (m t), x) st)
    | inl e => Run st (journal (m t)) (inl e)
    end.
Proof. unfold bind, on_local. by destruct (m t) as [t' j [e|x]]. Qed.

(** [construct_model_from_args] never calls the backend. *)
Lemma construct_no_calls (args : gmap string value) :
  embed_calls (journal (construct args)) = [].
Proof.
  rewrite construct_run.
  destruct (class_entry args) as [[| | |alias]|]; try reflexivity.
  assert (embed_calls (mapping_log EMBEDDING_MODELS alias) = []) as Hlog
    by (unfold mapping_log; by destruct (EMBEDDING_MODELS !! alias)).
  destruct (get_langchain_class _ _ _ _) as [e|MODEL_CLASS]; [done|].
  by destruct (instantiate MODEL_CLASS _).
Qed.

(** The run of [prepare], case by case. *)
Lemma prepare_run (storage : gmap string json) (df : DataFrame A) :
  let cols_dfs := PyString.strip "`" <$> columns df in
  prepare_ storage df =
  match json_get storage "args" with
  | Some (JDict args) =>
      match result (construct args) with
      | inr model =>
          match final (construct args) !! "target" with
          | Some target =>
              prepend (journal (construct args) ++ [ColumnsAssigned cols_dfs])
                match resolve_input_columns (final (construct args)) cols_dfs with
                | inr input_columns =>
                    if forallb (fun col => bool_decide (col ∈ cols_dfs))
                               (elements input_columns)
                    then Run (set_columns cols_dfs df) [] (inr (model, target, input_columns))
                    else Run (set_columns cols_dfs df) []
                           (inl (InputColumnsNotFound input_columns cols_dfs))
                | inl e => Run (set_columns cols_dfs df) [] (inl e)
                end
          | None => Run df (journal (construct args)) (inl (KeyError "target"))
          end
      | inl e => Run df (journal (construct args)) (inl e)
      end
  | _ => Run df [] (inl (AttributeError "pop"))
  end.
Proof.
  cbv zeta. unfold prepare.
  destruct (json_get storage "args") as [[args|v]|]; cbn [as_dict];
    rewrite ?bind_ret, ?bind_raise; try reflexivity.
  rewrite bind_on_local.
  destruct (result (construct args)) as [e|model]; [reflexivity|].
  unfold getitem.
  destruct (final (construct args) !! "target") as [target|];
    rewrite ?bind_ret, ?bind_raise;
    [|unfold prepend; cbn [final journal result]; by rewrite app_nil_r].
  rewrite bind_get, bind_put, bind_emit, bind_get, bind_lift, prepend_prepend.
  f_equal. cbn [set_columns columns].
  destruct (resolve_input_columns _ _) as [e|input_columns]; [reflexivity|].
  by destruct (forallb _ (elements input_columns)).
Qed.

Lemma resolve_input_columns_final (args : gmap string value) (model : Model V)
    (cols : list string) :
  result (construct args) = inr model ->
  resolve_input_columns (final (construct args)) cols = resolve_input_columns args cols.
Proof.
  intros Hok. unfold resolve_input_columns.
  by rewrite (construct_final_lookup _ _ _ _ _ _ _ Hok).
Qed.

Lemma final_target (args : gmap string value) (model : Model V) (target : string) :
  result (construct args) = inr model ->
  args !! "target" = Some (Scalar (PyStr target)) ->
  final (construct args) !! "target" = Some (Scalar (PyStr target)).
Proof.
  intros Hok Ht. by rewrite (construct_final_lookup _ _ _ _ _ _ _ Hok), Ht.
Qed.

(** What a successful [prepare] leaves: the labels unquoted, the
    assignment recorded last, no call of the backend. *)
Lemma prepare_inr (storage : gmap string json) (df : DataFrame A) (model : Model V)
    (target : value) (input_columns : column_key) :
  result (prepare_ storage df) = inr (model, target, input_columns) ->
  final (prepare_ storage df) = set_columns (PyString.strip "`" <$> columns df) df /\
  exists before,
    journal (prepare_ storage df)
    = before ++ [ColumnsAssigned (PyString.strip "`" <$> columns df)] /\
    embed_calls before = [].
Proof.
  rewrite prepare_run. cbv zeta.
  destruct (json_get storage "args") as [[args|v]|]; try discriminate.
  destruct (result (construct args)) as [e|model']; [discriminate|].
  destruct (final (construct args) !! "target") as [target'|]; [|discriminate].
  destruct (resolve_input_columns _ _) as [e|ic]; [discriminate|].
  destruct (forallb _ (elements ic)); [|discriminate].
  intros _. cbn [prepend final journal]. split; [done|].
  exists (journal (construct args)). rewrite app_nil_r. split; [done|].
  apply construct_no_calls.
Qed.

(** The run of [predict] after a successful [prepare]. *)
Lemma predict_run (storage : gmap string json) (df : DataFrame A) (model : Model V)
    (target : value) (input_columns : column_key) :
  result (prepare_ storage df) = inr (model, target, input_columns) ->
  let df' := set_columns (PyString.strip "`" <$> columns df) df in
  predict_ storage df =
  prepend (journal (prepare_ storage df) ++ journal (embed_all model df' input_columns df'))
    match result (embed_all model df' input_columns df') with
    | inr all_embeddings =>
        match target with
        | Scalar (PyStr target) =>
            Run df' [] (assign target all_embeddings df')
        | _ => Run df' [] (inl (TypeError "keywords must be strings"))
        end
    | inl e => Run df' [] (inl e)
    end.
Proof.
  intros Hok. cbv zeta. destruct (prepare_inr _ _ _ _ _ Hok) as [Hfinal _].
  unfold predict. rewrite bind_run, Hok, Hfinal, bind_get, bind_run, embed_all_final.
  rewrite <- prepend_prepend. f_equal.
  destruct (result (embed_all _ _ _ _)) as [e|all_embeddings].
  - unfold prepend. cbn [final journal result]. by rewrite app_nil_r.
  - f_equal. destruct target as [[| | |target]|]; cbn [as_keyword];
      rewrite ?bind_raise, ?bind_ret; try reflexivity.
    rewrite bind_lift. by destruct (assign target all_embeddings _).
Qed.

(** When the model cannot be rebuilt, [predict] raises what
    [construct_model_from_args] raises and has not touched the dataframe. *)
Lemma predict_not_rebuilt (storage : gmap string json) (df : DataFrame A)
    (args : gmap string value) (e : exn) :
  json_get storage "args" = Some (JDict args) ->
  result (construct args) = inl e ->
  predict_ storage df = Run df (journal (construct args)) (inl e).
Proof.
  intros Hs Hc. unfold predict. rewrite bind_run, prepare_run. cbv zeta.
  by rewrite Hs, Hc.
Qed.


(** C5, as the code has it.  With a stored configuration whose list of
    input columns is empty, the input columns with which [predict] builds
    the documents are all the columns of the dataframe, under their
    unquoted labels: the target column is among them when the dataframe has
    it. *)
Theorem empty_input_columns_mean_all_columns (storage : gmap string json)
    (df : DataFrame A) (args : gmap string value) (model : Model V) (target : string) :
  json_get storage "args" = Some (JDict args) ->
  result (construct args) = inr model ->
  args !! "target" = Some (Scalar (PyStr target)) ->
  args !! "input_columns" = Some (StrList []) ->
  effective_input_columns EMBEDDING_MODELS lib VLLMEmbeddings FastAPIEmbeddings storage df
  = Some (PyString.strip "`" <$> columns df).
Proof.
  intros Hs Hc Ht Hic. unfold effective_input_columns.
  rewrite prepare_run. cbv zeta.
  rewrite Hs, Hc, (final_target _ _ _ Hc Ht), (resolve_input_columns_final _ _ _ Hc).
  unfold resolve_input_columns. rewrite Hic. cbn [truthy bool_decide negb].
  rewrite bool_decide_true by done. cbn [negb elements].
  replace (forallb _ _) with true; [done|].
  symmetry. apply forallb_forall. intros col Hcol.
  apply bool_decide_eq_true_2. by apply list_elem_of_In.
Qed.

Lemma assign_inr_length (target : string) (values : list V) (df : DataFrame A)
    (out : DataFrame (cell A V)) :
  assign target values df = inr out -> length values = length (rows df).
Proof.
  unfold assign. cbv zeta. destruct (_ && _)%bool; [discriminate|].
  destruct (Nat.eqb_spec (length values) (length (rows df))); [done|].
  discriminate.
Qed.

(** The caller's dataframe after [predict], once the model is rebuilt and
    the target read. *)
Lemma predict_leaves_frame (storage : gmap string json) (df : DataFrame A)
    (args : gmap string value) (model : Model V) (target : string) :
  json_get storage "args" = Some (JDict args) ->
  result (construct args) = inr model ->
  args !! "target" = Some (Scalar (PyStr target)) ->
  final (predict_ storage df) = set_columns (PyString.strip "`" <$> columns df) df /\
  (exists before after,
      journal (predict_ storage df)
      = before ++ ColumnsAssigned (PyString.strip "`" <$> columns df) :: after /\
      embed_calls before = []) /\
  (forall out, result (predict_ storage df) = inr out ->
     exists all_embeddings,
       length all_embeddings = length (rows df) /\
       assign target all_embeddings (set_columns (PyString.strip "`" <$> columns df) df)
       = inr out).
Proof.
  intros Hs Hc Ht.
  set (cols := PyString.strip "`" <$> columns df).
  pose proof (prepare_run storage df) as Hprep. cbv zeta in Hprep. fold cols in Hprep.
  rewrite Hs, Hc, (final_target _ _ _ Hc Ht) in Hprep.
  destruct (resolve_input_columns _ _) as [e|input_columns] eqn:Hic.
  { unfold predict. rewrite bind_run, Hprep. cbn [prepend final journal result].
    split; [done|]. split; [|done].
    exists (journal (construct args)), []. rewrite app_nil_r.
    split; [done | apply construct_no_calls]. }
  destruct (forallb _ (elements input_columns)) eqn:Hall.
  2:{ unfold predict. rewrite bind_run, Hprep. cbn [prepend final journal result].
      split; [done|]. split; [|done].
      exists (journal (construct args)), []. rewrite app_nil_r.
      split; [done | apply construct_no_calls]. }
  assert (Hok : result (prepare_ storage df)
                = inr (model, Scalar (PyStr target), input_columns)) by (by rewrite Hprep).
  rewrite (predict_run _ _ _ _ _ Hok). cbv zeta. fold cols.
  rewrite Hprep. cbn [prepend journal]. rewrite app_nil_r.
  split; [by destruct (result (embed_all _ _ _ _))|]. split.
  - exists (journal (construct args)). eexists. rewrite <- !app_assoc.
    split; [reflexivity | apply construct_no_calls].
  - intros out. destruct (result (embed_all _ _ _ _)) as [e|all_embeddings]; [done|].
    cbn [prepend final result]. intros Hout. exists all_embeddings. split; [|done].
    by apply (assign_inr_length target _ (set_columns cols df) out).
Qed.

(** C10.  When the stored configuration rebuilds the model and names the
    target, [predict] overwrites the labels of the caller's dataframe: after
    the call, returning or raising, every label of that dataframe is the
    backtick-stripped form of the label it had -- the old label is the new
    one between two runs of backticks, and the new one neither begins nor
    ends with a backtick -- and the rows are as they were.  The assignment
    of these labels is recorded before any call of the backend.  The
    dataframe that [predict] returns is another one, made by [assign] from
    a copy of the caller's dataframe with the new labels: the caller's
    dataframe gets no target column. *)
Theorem predict_unquotes_in_place (storage : gmap string json) (df : DataFrame A)
    (args : gmap string value) (model : Model V) (target : string) :
  json_get storage "args" = Some (JDict args) ->
  result (construct args) = inr model ->
  args !! "target" = Some (Scalar (PyStr target)) ->
  let after_call := final (predict_ storage df) in
  Forall2 stripped_form (columns df) (columns after_call) /\
  rows after_call = rows df /\
  (exists before after,
      journal (predict_ storage df)
      = before ++ ColumnsAssigned (columns after_call) :: after /\
      embed_calls before = []) /\
  (forall out, result (predict_ storage df) = inr out ->
     exists all_embeddings,
       length all_embeddings = length (rows df) /\
       assign target all_embeddings after_call = inr out).
Proof.
  intros Hs Hc Ht. cbv zeta.
  destruct (predict_leaves_frame storage df args model target Hs Hc Ht)
    as (-> & Hjournal & Hout).
  split; [apply strip_unquoted_labels|]. split; [done|]. by split.
Qed.

Lemma assign_inr (target : string) (values : list V) (df : DataFrame A) :
  at_most_one_column target (columns df) ->
  length values = length (rows df) ->
  exists out, assign target values df = inr out /\ length (rows out) = length (rows df).
Proof.
  intros Honce Hlen. unfold assign. cbv zeta.
  rewrite (proj2 (Nat.ltb_ge 1 _)) by exact Honce. cbn [andb].
  rewrite Hlen, Nat.eqb_refl. cbn [negb].
  destruct (bool_decide _); eexists; (split; [reflexivity|]);
    cbn [rows]; rewrite length_zip_with; lia.
Qed.

(** With a backend that answers every call with as many vectors as
    documents, [predict] returns the dataframe with the answers to the
    batches, in order, under the target label: one vector per row. *)
Lemma predict_returns_vectors (storage : gmap string json) (df : DataFrame A)
    (model : Model V) (target : string) (input_columns : list string) :
  let df' := set_columns (PyString.strip "`" <$> columns df) df in
  let B := default 32 (batch_size model) in
  result (prepare_ storage df) = inr (model, Scalar (PyStr target), Labels input_columns) ->
  at_most_one_column target (columns df') ->
  0 < B ->
  (forall ds, exists vs, embed_documents model ds = inr vs /\ length vs = length ds) ->
  exists answers out,
    Forall2 (fun batch answer => embed_documents model batch = inr answer)
            (batches_of B (documents input_columns df')) answers /\
    result (predict_ storage df) = inr out /\
    assign target (concat answers) df' = inr out /\
    length (rows out) = length (rows df).
Proof.
  intros df' B Hok Honce HB Hanswers.
  destruct (answers_exist model (batches_of B (documents input_columns df')) Hanswers)
    as [answers Hall].
  assert (Hall' : Forall2 (fun batch answer => embed_documents model batch = inr answer)
                          (batches_of B (documents input_columns df')) answers).
  { eapply Forall2_impl; [exact Hall|]. by intros batch answer [? _]. }
  destruct (embed_all_value model df' input_columns df') as [_ Hresult]; [fold B; lia|].
  fold B in Hresult. rewrite (outcomes_answers model _ _ Hall') in Hresult.
  assert (Hlen : length (concat answers) = length (rows df')).
  { rewrite (length_concat_answers model _ _ Hall), concat_batches_of by done.
    apply length_documents. }
  destruct (assign_inr target (concat answers) df' Honce Hlen) as (out & Hout & Hrows).
  exists answers, out. rewrite (predict_run _ _ _ _ _ Hok). cbv zeta. fold df'.
  rewrite Hresult. cbn [prepend result]. by rewrite Hout.
Qed.

(** C3, as the code has it.  Let [predict] reach the batch executor, let
    the documents be [pre ++ good ++ d :: rest] with [pre] a whole number of
    batches that the executor gets through, and let the batch that starts
    with [good] be refused at batch level, the documents of [good] be
    embedded alone, and [d], the document of row
    [length pre + length good], be refused alone with the error [e].  Then
    [predict] raises an exception whose message is the fixed text of line
    217 followed by [e]; the row index is in the error record that the
    logger receives last, not in the exception; no dataframe is returned,
    and the caller's dataframe keeps its unquoted labels. *)
Theorem predict_aborts_on_refused_document (storage : gmap string json)
    (df : DataFrame A) (model : Model V) (target : value) (input_columns : list string)
    (q : nat) (pre good : list string) (d : string) (rest : list string)
    (e0 e : string) :
  let df' := set_columns (PyString.strip "`" <$> columns df) df in
  let B := default 32 (batch_size model) in
  result (prepare_ storage df) = inr (model, target, Labels input_columns) ->
  0 < B ->
  documents input_columns df' = pre ++ good ++ d :: rest ->
  Z.of_nat (length pre) = Z.of_nat q * B ->
  Z.of_nat (length good) < B ->
  Forall (gets_through model) (batches_of B pre) ->
  embed_documents model (take (Z.to_nat B) (good ++ d :: rest)) = inl e0 ->
  Forall (embeds_alone model) good ->
  embed_documents model [d] = inl e ->
  result (predict_ storage df)
  = inl (Exception
           ("Failed to generate embedding for document. Original error: " +:+ e)) /\
  final (predict_ storage df) = df' /\
  exists j,
    journal (predict_ storage df)
    = j ++ [Log ERROR ("Error embedding document at index " +:+
                       str (Z.of_nat (length pre + length good)) +:+ ": " +:+ e)].
Proof.
  intros df' B Hok HB Hdocs Hpre Hgood Hthrough He0 Halone Hd.
  destruct (embed_all_aborts model df' input_columns df' q pre good d rest e0 e
              HB Hdocs Hpre Hgood Hthrough He0 Halone Hd) as (_ & Hresult & j & Hj).
  rewrite (predict_run _ _ _ _ _ Hok). cbv zeta. fold df'.
  rewrite Hresult, Hj. cbn [prepend final journal result].
  repeat split; [].
  exists (journal (prepare_ storage df) ++ j). by rewrite app_nil_r, <- !app_assoc.
Qed.

End PredictFacts.

(** C2.  Let two models with the same batch size compute the same vector
    [vec d] for a document [d] whenever they answer.  Let [steady] answer
    the batch-level call on every batch, and let [flaky] on every batch
    either answer the batch-level call or refuse it and answer every
    document of the batch alone (the fallback keeps the first vector of
    such an answer).  Then the batch executor of [predict]
    returns the same vectors in the same order with [flaky] as with
    [steady], and raises nothing. *)
Theorem batch_failure_invisible {A V St : Type} `{Str A} (flaky steady : Model V)
    (vec : string -> V) (df : DataFrame A) (input_columns : list string) (st : St) :
  let B := default 32 (batch_size flaky) in
  let docs := documents input_columns df in
  batch_size steady = batch_size flaky ->
  0 < B ->
  Forall (fun batch => embed_documents steady batch = inr (vec <$> batch))
         (batches_of B docs) ->
  Forall (fun batch =>
            embed_documents flaky batch = inr (vec <$> batch)
            \/ ((exists e, embed_documents flaky batch = inl e)
                /\ Forall (fun d => exists others,
                                      embed_documents flaky [d] = inr (vec d :: others))
                          batch))
         (batches_of B docs) ->
  result (embed_all flaky df (Labels input_columns) st) = inr (vec <$> docs) /\
  result (embed_all flaky df (Labels input_columns) st)
  = result (embed_all steady df (Labels input_columns) st) /\
  final (embed_all flaky df (Labels input_columns) st) = st.
Proof.
  intros B docs Hsize HB Hsteady Hflaky.
  destruct (embed_all_value flaky df input_columns st) as [Hfinal Hresult];
    [fold B; lia|].
  destruct (embed_all_value steady df input_columns st) as [_ Hresult'];
    [rewrite Hsize; fold B; lia|].
  rewrite Hsize in Hresult'. fold B docs in Hresult, Hresult'.
  assert (Hvalue : forall model batches,
    Forall (fun batch => batch_outcome model batch = inr (vec <$> batch)) batches ->
    outcomes model batches = inr (vec <$> concat batches)).
  { intros model batches Hall.
    induction Hall as [|batch batches Hbatch _ IH]; [done|].
    cbn [outcomes concat]. by rewrite Hbatch, IH, fmap_app. }
  assert (Hsingles : forall batch,
    Forall (fun d => exists others, embed_documents flaky [d] = inr (vec d :: others))
           batch ->
    singles flaky batch = inr (vec <$> batch)).
  { intros batch Hall. induction Hall as [|d batch [others Hd] _ IH]; [done|].
    cbn [singles]. by rewrite Hd, IH. }
  rewrite Hresult, Hresult'.
  rewrite (Hvalue flaky), (Hvalue steady), concat_batches_of by first
    [ done
    | eapply Forall_impl; [exact Hsteady|]; intros batch Hb; cbn in Hb;
      unfold batch_outcome; by rewrite Hb
    | eapply Forall_impl; [exact Hflaky|]; intros batch Hb; cbn in Hb;
      unfold batch_outcome; destruct Hb as [->|[[e ->] Halone]]; [done|];
      by apply Hsingles ].
  done.
Qed.

(* ===================================================================== *)
(** * Creation and description *)
(* ===================================================================== *)

Section CreateFacts.
Context {A V : Type} `{Str A}.
Variable EMBEDDING_MODELS : gmap string string.
Variable lib : Library V.
Variables VLLMEmbeddings FastAPIEmbeddings : ClassObj V.

Abbreviation construct :=
  (construct_model_from_args EMBEDDING_MODELS lib VLLMEmbeddings FastAPIEmbeddings).
Abbreviation create_ :=
  (create (A:=A) EMBEDDING_MODELS lib VLLMEmbeddings FastAPIEmbeddings).

(** The run of [create], case by case. *)
Lemma create_run (target : option string) (df : option (DataFrame A))
    (using_args : option (gmap string value)) (storage : gmap string json) :
  let user_args := infer_input_columns target df (default ∅ using_args) in
  create_ target df using_args storage =
  match result (construct user_args) with
  | inr _ =>
      Run (<["args" := JDict (<["target" := Scalar (PyStr (target_or_default target))]>
                                (final (construct user_args)))]> storage)
          (journal (construct user_args)) (inr tt)
  | inl e => Run storage (journal (construct user_args)) (inl e)
  end.
Proof.
  cbv zeta. unfold create. rewrite bind_on_local.
  destruct (result (construct _)) as [e|model]; [reflexivity|].
  rewrite bind_get. unfold prepend, put. cbn [final journal result].
  by rewrite app_nil_r.
Qed.

(** [create] writes under the name [args] and under no other name. *)
Lemma create_writes_args_only (target : option string) (df : option (DataFrame A))
    (using_args : option (gmap string value)) (storage : gmap string json)
    (name : string) :
  name <> "args" ->
  json_get (final (create_ target df using_args storage)) name = json_get storage name.
Proof.
  intros Hname. rewrite create_run. cbv zeta. unfold json_get.
  destruct (result (construct _)); cbn [final]; [done|].
  by rewrite lookup_insert_ne.
Qed.

(** What [create] stores: [class] is the resolved identifier. *)
Lemma create_stores_resolved_class (target : option string) (df : option (DataFrame A))
    (using_args : option (gmap string value)) (storage : gmap string json) :
  result (create_ target df using_args storage) = inr tt ->
  exists args alias,
    json_get (final (create_ target df using_args storage)) "args" = Some (JDict args) /\
    class_entry (infer_input_columns target df (default ∅ using_args))
    = Scalar (PyStr alias) /\
    args !! "class" = Some (Scalar (PyStr (resolve EMBEDDING_MODELS alias))) /\
    args !! "target" = Some (Scalar (PyStr (target_or_default target))).
Proof.
  rewrite create_run. cbv zeta.
  destruct (result (construct _)) as [e|model] eqn:Hres; [discriminate|]. intros _.
  destruct (construct_inr _ _ _ _ _ _ Hres) as (alias & C & Hcls & _ & _ & _).
  eexists _, alias. cbn [final]. unfold json_get. rewrite lookup_insert_eq.
  split; [reflexivity|]. split; [done|].
  rewrite lookup_insert_ne by done. rewrite lookup_insert_eq.
  rewrite (construct_final_lookup _ _ _ _ _ _ _ Hres), Hcls. done.
Qed.

(** The metadata view shows what the storage keeps under [model_class]:
    [create] does not change it. *)
Lemma describe_metadata_after_create (target : option string) (df : option (DataFrame A))
    (using_args : option (gmap string value)) (storage : gmap string json) :
  describe (final (create_ target df using_args storage)) (Some "metadata")
  = describe storage (Some "metadata").
Proof.
  unfold describe. rewrite decide_False by done. rewrite decide_True by done.
  by rewrite create_writes_args_only.
Qed.

End CreateFacts.

(** The configuration view lists the stored configuration, key by key. *)
Lemma describe_args_items (storage : gmap string json) (args : gmap string value) :
  json_get storage "args" = Some (JDict args) ->
  exists items,
    describe storage (Some "args") = inr (KeyValue items) /\
    forall k v, (k, Some (JValue v)) ∈ items <-> args !! k = Some v.
Proof.
  intros Hargs. unfold describe. rewrite decide_True by done. rewrite Hargs.
  eexists. split; [reflexivity|]. intros k v. rewrite list_elem_of_fmap. split.
  - intros ([k' v'] & [= -> ->] & Hin). by apply elem_of_map_to_list in Hin.
  - intros Hk. exists (k, v). split; [done|]. by apply elem_of_map_to_list.
Qed.

(** C9.  For a model that [create] has made in a storage that holds
    nothing under [model_class]: the configuration view lists the stored
    configuration key by key, with [class] bound to the resolved backend
    identifier; the metadata view is the single row [model_class] with
    [None].  It names no backend: [create] stores the configuration under
    [args] and nothing under [model_class], the one entry that the
    metadata view reads. *)
Theorem describe_metadata_names_no_backend {A V : Type} `{Str A}
    (EMBEDDING_MODELS : gmap string string) (lib : Library V)
    (VLLMEmbeddings FastAPIEmbeddings : ClassObj V)
    (target : option string) (df : option (DataFrame A))
    (using_args : option (gmap string value)) (storage : gmap string json) :
  let created :=
    create EMBEDDING_MODELS lib VLLMEmbeddings FastAPIEmbeddings target df using_args
      storage in
  result created = inr tt ->
  json_get storage "model_class" = None ->
  (exists args alias items,
      json_get (final created) "args" = Some (JDict args) /\
      class_entry (infer_input_columns target df (default ∅ using_args))
      = Scalar (PyStr alias) /\
      args !! "class" = Some (Scalar (PyStr (resolve EMBEDDING_MODELS alias))) /\
      describe (final created) (Some "args") = inr (KeyValue items) /\
      forall k v, (k, Some (JValue v)) ∈ items <-> args !! k = Some v) /\
  describe (final created) (Some "metadata") = inr (KeyValue [("model_class", None)]).
Proof.
  intros created Hok Hnone. subst created. split.
  - destruct (create_stores_resolved_class _ _ _ _ _ _ _ _ Hok)
      as (args & alias & Hargs & Hcls & Hclass & _).
    destruct (describe_args_items _ _ Hargs) as (items & Hview & Hitems).
    by exists args, alias, items.
  - rewrite describe_metadata_after_create. unfold describe.
    rewrite decide_False by done. rewrite decide_True by done. by rewrite Hnone.
Qed.

(** C9, on a model created on langchain's [FakeEmbeddings] under the alias
    [fake], in an empty storage. *)
Lemma describe_metadata_names_no_backend_witness :
  (let created :=
     create (A:=scalar) Sample.registry Sample.library Sample.vllm_class
       Sample.fastapi_class (Some "emb") None (Some Example.using_fake) ∅ in
   (exists args alias items,
       json_get (final created) "args" = Some (JDict args) /\
       class_entry (infer_input_columns (A:=scalar) (Some "emb") None
                      (default ∅ (Some Example.using_fake)))
       = Scalar (PyStr alias) /\
       args !! "class" = Some (Scalar (PyStr (resolve Sample.registry alias))) /\
       describe (final created) (Some "args") = inr (KeyValue items) /\
       forall k v, (k, Some (JValue v)) ∈ items <-> args !! k = Some v) /\
   describe (final created) (Some "metadata") = inr (KeyValue [("model_class", None)])) /\
  json_get (final (create (A:=scalar) Sample.registry Sample.library Sample.vllm_class
                     Sample.fastapi_class (Some "emb") None (Some Example.using_fake) ∅))
    "args"
  = Some (JDict (<["class" := Scalar (PyStr "FakeEmbeddings")]>
                   (<["target" := Scalar (PyStr "emb")]>
                      (<["input_columns" := StrList []]>
                         (<["size" := Scalar (PyInt 8)]> ∅))))).
Proof.
  split.
  - apply (describe_metadata_names_no_backend Sample.registry Sample.library
             Sample.vllm_class Sample.fastapi_class (Some "emb") None
             (Some Example.using_fake) ∅).
    + vm_compute. reflexivity.
    + reflexivity.
  - vm_compute. reflexivity.
Defined.
(* ===================================================================== *)
(** * Runs on the small installation *)
(* ===================================================================== *)

Section Runs.

Abbreviation sample_predict :=
  (predict Sample.registry Sample.library Sample.vllm_class Sample.fastapi_class).
Abbreviation sample_prepare :=
  (prepare Sample.registry Sample.library Sample.vllm_class Sample.fastapi_class).



Lemma batch_failure_invisible_witness :
  result (embed_all (Sample.flaky (Some 2)) Example.unquoted (Labels ["a"; "b"]) tt)
  = inr (Sample.toy <$> documents ["a"; "b"] Example.unquoted) /\
  result (embed_all (Sample.flaky (Some 2)) Example.unquoted (Labels ["a"; "b"]) tt)
  = result (embed_all (Sample.steady (Some 2)) Example.unquoted (Labels ["a"; "b"]) tt) /\
  final (embed_all (Sample.flaky (Some 2)) Example.unquoted (Labels ["a"; "b"]) tt) = tt.
Proof.
  apply (batch_failure_invisible (Sample.flaky (Some 2)) (Sample.steady (Some 2))
           Sample.toy Example.unquoted ["a"; "b"] tt).
  - reflexivity.
  - cbn. lia.
  - cbv zeta.
    let bs := eval vm_compute in (batches_of 2 (documents ["a"; "b"] Example.unquoted)) in
    change (batches_of (default 32 (batch_size (Sample.flaky (Some 2))))
              (documents ["a"; "b"] Example.unquoted)) with bs.
    repeat (constructor; [reflexivity|]). constructor.
  - cbv zeta.
    let bs := eval vm_compute in (batches_of 2 (documents ["a"; "b"] Example.unquoted)) in
    change (batches_of (default 32 (batch_size (Sample.flaky (Some 2))))
              (documents ["a"; "b"] Example.unquoted)) with bs.
    constructor; [|constructor; [|constructor]].
    + right. split; [by eexists | repeat (constructor; [by eexists|]); constructor].
    + by left.
Defined.

Lemma predict_aborts_on_refused_document_witness :
  result (sample_predict (Sample.storage_of (Sample.stored_args ["text"])) Sample.texts)
  = inl (Exception
           ("Failed to generate embedding for document. Original error: " +:+
            "unprocessable document")) /\
  final (sample_predict (Sample.storage_of (Sample.stored_args ["text"])) Sample.texts)
  = set_columns (PyString.strip "`" <$> columns Sample.texts) Sample.texts /\
  exists j,
    journal (sample_predict (Sample.storage_of (Sample.stored_args ["text"])) Sample.texts)
    = j ++ [Log ERROR ("Error embedding document at index " +:+
                       str (Z.of_nat (length ["text: one"; "text: two"]
                                      + length ["text: three"])) +:+ ": " +:+
                       "unprocessable document")].
Proof.
  apply (predict_aborts_on_refused_document Sample.registry Sample.library
           Sample.vllm_class Sample.fastapi_class
           (Sample.storage_of (Sample.stored_args ["text"])) Sample.texts
           (Sample.choking "text: poison" (Some 2)) (Scalar (PyStr "target")) ["text"]
           1%nat ["text: one"; "text: two"] ["text: three"] "text: poison" ["text: five"]
           "unprocessable document" "unprocessable document").
  - vm_compute. reflexivity.
  - cbn. lia.
  - vm_compute. reflexivity.
  - reflexivity.
  - cbn. lia.
  - let bs := eval vm_compute in (batches_of 2 ["text: one"; "text: two"]) in
    change (batches_of (default 32 (batch_size (Sample.choking "text: poison" (Some 2))))
              ["text: one"; "text: two"]) with bs.
    constructor; [|constructor]. left. by eexists.
  - vm_compute. reflexivity.
  - constructor; [|constructor]. by eexists _, _.
  - vm_compute. reflexivity.
Defined.

(** C3, on two dataframes that differ in the row of the refused document:
    row 3 in one, row 1 in the other.  The exception is the same; the row
    index is in the last record of the journal only. *)
Lemma raised_error_omits_row_index :
  result (Sample.run_predict (Sample.stored_args ["text"]) Sample.texts)
  = inl (Exception
      "Failed to generate embedding for document. Original error: unprocessable document") /\
  result (Sample.run_predict (Sample.stored_args ["text"]) Sample.texts')
  = result (Sample.run_predict (Sample.stored_args ["text"]) Sample.texts) /\
  last (journal (Sample.run_predict (Sample.stored_args ["text"]) Sample.texts))
  = Some (Log ERROR "Error embedding document at index 3: unprocessable document") /\
  last (journal (Sample.run_predict (Sample.stored_args ["text"]) Sample.texts'))
  = Some (Log ERROR "Error embedding document at index 1: unprocessable document").
Proof. repeat split; vm_compute; reflexivity. Qed.


(** At creation, with no [input_columns] in the configuration and a
    training dataframe with the columns [a], [b] and [target], the inferred
    input columns leave the target out. *)
Lemma infer_input_columns_without_target :
  infer_input_columns (Some "target") (Some Sample.plain) ∅
  = <["input_columns" := StrList ["a"; "b"]]> ∅.
Proof. reflexivity. Qed.

(** C5, on the example of the claim: the stored list of input columns is
    empty, the dataframe has the columns [a], [b] and [target], the target
    is [target].  The documents are built from all three columns. *)
Lemma empty_input_columns_keep_target :
  effective_input_columns Sample.registry Sample.library Sample.vllm_class
    Sample.fastapi_class (Sample.storage_of (Sample.stored_args [])) Sample.plain
  = Some ["a"; "b"; "target"] /\
  effective_input_columns Sample.registry Sample.library Sample.vllm_class
    Sample.fastapi_class (Sample.storage_of (Sample.stored_args [])) Sample.plain
  <> Some ["a"; "b"] /\
  embed_calls (journal (Sample.run_predict (Sample.stored_args []) Sample.plain))
  = [["a: 1" +:+ PyString.nl +:+ "b: x" +:+ PyString.nl +:+ "target: 0"]].
Proof.
  split; [vm_compute; reflexivity|]. split; [|vm_compute; reflexivity].
  vm_compute. discriminate.
Qed.

Lemma empty_input_columns_mean_all_columns_witness :
  effective_input_columns Sample.registry Sample.library Sample.vllm_class
    Sample.fastapi_class (Sample.storage_of (Sample.stored_args [])) Sample.plain
  = Some (PyString.strip "`" <$> ["a"; "b"; "target"]).
Proof.
  apply (empty_input_columns_mean_all_columns Sample.registry Sample.library
           Sample.vllm_class Sample.fastapi_class
           (Sample.storage_of (Sample.stored_args [])) Sample.plain
           (Sample.stored_args []) (Sample.choking "text: poison" (Some 2)) "target").
  - reflexivity.
  - vm_compute. reflexivity.
  - reflexivity.
  - reflexivity.
Defined.

(** C10, on a dataframe whose second label is quoted: after the call the
    caller's dataframe has the labels [a], [b] and [target]. *)
Lemma predict_unquotes_in_place_witness :
  (let after_call :=
     final (sample_predict (Sample.storage_of (Sample.stored_args ["a"])) Sample.frame) in
   Forall2 stripped_form (columns Sample.frame) (columns after_call) /\
   rows after_call = rows Sample.frame /\
   (exists before after,
       journal (sample_predict (Sample.storage_of (Sample.stored_args ["a"])) Sample.frame)
       = before ++ ColumnsAssigned (columns after_call) :: after /\
       embed_calls before = []) /\
   (forall out,
       result (sample_predict (Sample.storage_of (Sample.stored_args ["a"])) Sample.frame)
       = inr out ->
       exists all_embeddings,
         length all_embeddings = length (rows Sample.frame) /\
         assign "target" all_embeddings after_call = inr out)) /\
  columns Sample.frame = ["a"; "`b`"; "target"] /\
  columns (final (sample_predict (Sample.storage_of (Sample.stored_args ["a"]))
                    Sample.frame))
  = ["a"; "b"; "target"].
Proof.
  split; [|split; vm_compute; reflexivity].
  apply (predict_unquotes_in_place Sample.registry Sample.library
           Sample.vllm_class Sample.fastapi_class
           (Sample.storage_of (Sample.stored_args ["a"])) Sample.frame
           (Sample.stored_args ["a"]) (Sample.choking "text: poison" (Some 2)) "target").
  - reflexivity.
  - vm_compute. reflexivity.
  - reflexivity.
Defined.

End Runs.
(* ===================================================================== *)
(** * The registry of backends *)
(* ===================================================================== *)

Section RegistryFacts.
Context {V : Type}.
Variable lib : Library V.
Variables VLLMEmbeddings FastAPIEmbeddings : ClassObj V.

Lemma discover_app (names1 names2 : list string) (models : gmap string string) :
  discover lib (names1 ++ names2) models
  = match discover lib names1 models with
    | inr models1 => discover lib names2 models1
    | inl e => inl e
    end.
Proof.
  revert models. induction names1 as [|name names1 IH]; intros models; [done|].
  cbn [app discover]. destruct (lib_getattr lib name) as [class_|]; [|done].
  destruct (is_embeddings class_); apply IH.
Qed.

(** What holds of the identifiers of the built-in entries and of every
    embeddings class of the library holds of every identifier of the
    registry. *)
Lemma discover_values (P : string -> Prop) (names : list string)
    (models models' : gmap string string) :
  discover lib names models = inr models' ->
  (forall name class_, name ∈ names -> lib_getattr lib name = Some class_ ->
                       is_embeddings class_ = true -> P name) ->
  map_Forall (fun _ id => P id) models ->
  map_Forall (fun _ id => P id) models'.
Proof.
  revert models. induction names as [|name names IH]; intros models Hrun Hnames Hinv.
  - by injection Hrun as <-.
  - cbn [discover] in Hrun. destruct (lib_getattr lib name) as [class_|] eqn:Hattr; [|done].
    destruct (is_embeddings class_) eqn:Hemb.
    + apply (IH _ Hrun); [intros n c Hn; apply Hnames; by right|].
      unfold register. apply map_Forall_insert_2; [|apply map_Forall_insert_2; [|done]];
        apply (Hnames name class_); by try left.
    + apply (IH _ Hrun); [intros n c Hn; apply Hnames; by right | done].
Qed.

(** The loop adds and overwrites entries; it removes none. *)
Lemma discover_keys (names : list string) (models models' : gmap string string)
    (alias : string) :
  discover lib names models = inr models' ->
  is_Some (models !! alias) -> is_Some (models' !! alias).
Proof.
  revert models. induction names as [|name names IH]; intros models Hrun Hkey.
  - by injection Hrun as <-.
  - cbn [discover] in Hrun. destruct (lib_getattr lib name) as [class_|]; [|done].
    destruct (is_embeddings class_); apply (IH _ Hrun); [|done].
    unfold register. rewrite !lookup_insert_is_Some'. auto.
Qed.

(** Keys that no class of [names] writes keep their entry. *)
Lemma discover_untouched (names : list string) (models models' : gmap string string)
    (alias : string) :
  discover lib names models = inr models' ->
  Forall (fun name => forall class_, lib_getattr lib name = Some class_ ->
                                     is_embeddings class_ = true ->
                                     alias ∉ aliases_of name) names ->
  models' !! alias = models !! alias.
Proof.
  revert models. induction names as [|name names IH]; intros models Hrun Hfree.
  - by injection Hrun as <-.
  - apply Forall_cons in Hfree as [Hname Hfree].
    cbn [discover] in Hrun. destruct (lib_getattr lib name) as [class_|] eqn:Hattr; [|done].
    destruct (is_embeddings class_) eqn:Hemb; [|by apply IH].
    rewrite (IH _ Hrun Hfree). specialize (Hname class_ eq_refl Hemb).
    assert (friendly_name name <> alias)
      by (intros <-; apply Hname; unfold aliases_of; set_solver).
    assert (PyString.lower (friendly_name name) <> alias)
      by (intros <-; apply Hname; unfold aliases_of; set_solver).
    unfold register. fold (friendly_name name). by rewrite !lookup_insert_ne.
Qed.

Lemma discover_inr (names : list string) (models models' : gmap string string) :
  discover lib names models = inr models' ->
  Forall (fun name => is_Some (lib_getattr lib name)) names.
Proof.
  revert models. induction names as [|name names IH]; intros models Hrun; [done|].
  cbn [discover] in Hrun. destruct (lib_getattr lib name) as [class_|] eqn:Hattr; [|done].
  constructor; [by rewrite Hattr|]. destruct (is_embeddings class_); by eapply IH.
Qed.

Lemma discover_inl (names : list string) (models : gmap string string) (e : exn) :
  discover lib names models = inl e ->
  exists before name after,
    names = before ++ name :: after /\
    Forall (fun name => is_Some (lib_getattr lib name)) before /\
    lib_getattr lib name = None /\
    e = AttributeError name.
Proof.
  revert models. induction names as [|name names IH]; intros models Hrun; [done|].
  cbn [discover] in Hrun. destruct (lib_getattr lib name) as [class_|] eqn:Hattr.
  - assert (exists models1, discover lib names models1 = inl e) as [models1 Hrest]
      by (destruct (is_embeddings class_); eauto).
    destruct (IH _ Hrest) as (before & bad & after & -> & Hbefore & Hbad & ->).
    exists (name :: before), bad, after. repeat split; [|done].
    constructor; [by rewrite Hattr | done].
  - injection Hrun as <-. by exists [], name, names.
Qed.

(** X1.  Building the registry at import either succeeds, and then every
    name that the library exports is an attribute of it and the four
    built-in aliases [VLLM], [vllm], [FastAPI] and [fastapi] are keys of the
    registry; or it stops at the first exported name that is no attribute
    of the library, with the [AttributeError] of [getattr] for that name,
    which the [except ImportError] clause does not catch. *)
Theorem registry_load_outcome :
  match load_EMBEDDING_MODELS (Some lib) with
  | inr models =>
      Forall (fun name => is_Some (lib_getattr lib name)) (lib_all lib) /\
      forall alias, alias ∈ ["VLLM"; "vllm"; "FastAPI"; "fastapi"] ->
                    is_Some (models !! alias)
  | inl e =>
      exists before name after,
        lib_all lib = before ++ name :: after /\
        Forall (fun name => is_Some (lib_getattr lib name)) before /\
        lib_getattr lib name = None /\
        e = AttributeError name
  end.
Proof.
  cbn [load_EMBEDDING_MODELS].
  destruct (discover lib (lib_all lib) builtin_models) as [e|models] eqn:Hrun.
  - by apply discover_inl in Hrun.
  - split; [by eapply discover_inr|]. intros alias Halias.
    apply (discover_keys _ _ _ _ Hrun). unfold builtin_models.
    rewrite !elem_of_cons in Halias.
    destruct Halias as [->|[->|[->|[->|Hnil]]]]; [by eexists..|by apply elem_of_nil in Hnil].
Qed.

(** X2.  Every alias of the registry built at import stands for a backend
    identifier that [get_langchain_class] finds: [VLLMEmbeddings],
    [FastAPIEmbeddings], or an exported class of the library that is a
    subclass of [Embeddings].  So [get_langchain_class] returns a class for
    every alias once it is resolved. *)
Theorem registry_aliases_are_known (models : gmap string string) (alias id : string) :
  load_EMBEDDING_MODELS (Some lib) = inr models ->
  models !! alias = Some id ->
  known_identifier lib id /\
  exists class_,
    get_langchain_class lib VLLMEmbeddings FastAPIEmbeddings (resolve models alias)
    = inr class_.
Proof.
  intros Hload Halias. cbn [load_EMBEDDING_MODELS] in Hload.
  assert (Hknown : known_identifier lib id).
  { eapply (discover_values (known_identifier lib) _ _ _ Hload); [| |exact Halias].
    - intros name class_ Hname Hattr Hemb. right. right. eauto.
    - unfold builtin_models.
      repeat (apply map_Forall_insert_2; [unfold known_identifier; auto|]).
      apply map_Forall_empty. }
  split; [done|]. unfold resolve. rewrite Halias. unfold get_langchain_class.
  destruct Hknown as [->|[->|(_ & class_ & Hattr & _)]].
  - rewrite decide_True by done. eauto.
  - rewrite decide_False by done. rewrite decide_True by done. eauto.
  - repeat case_decide; eauto. rewrite Hattr. eauto.
Qed.

(** X3.  The loop of lines 33-41 overwrites: when the friendly names of two
    classes collide, the class exported later wins.  For an embeddings
    class [class_name] of the library, if no embeddings class exported after
    it writes one of its two aliases, then the friendly name of
    [class_name] and its lower-case form both resolve to [class_name],
    whatever the built-in entries and the classes exported before it have
    written under these keys. *)
Theorem registry_keeps_last_writer (models : gmap string string)
    (before after : list string) (class_name : string) (class_ : ClassObj V) :
  load_EMBEDDING_MODELS (Some lib) = inr models ->
  lib_all lib = before ++ class_name :: after ->
  lib_getattr lib class_name = Some class_ ->
  is_embeddings class_ = true ->
  Forall (fun later => forall class_', lib_getattr lib later = Some class_' ->
                                       is_embeddings class_' = true ->
                                       forall alias, alias ∈ aliases_of class_name ->
                                                     alias ∉ aliases_of later) after ->
  resolve models (friendly_name class_name) = class_name /\
  resolve models (PyString.lower (friendly_name class_name)) = class_name.
Proof.
  intros Hload Hall Hattr Hemb Hafter. cbn [load_EMBEDDING_MODELS] in Hload.
  rewrite Hall, discover_app in Hload.
  destruct (discover lib before builtin_models) as [e|models1]; [done|].
  cbn [discover] in Hload. rewrite Hattr, Hemb in Hload.
  assert (Hkeep : forall alias, alias ∈ aliases_of class_name ->
                                models !! alias = register class_name models1 !! alias).
  { intros alias Halias. apply (discover_untouched _ _ _ _ Hload).
    eapply Forall_impl; [exact Hafter|].
    intros later Hlater c Hc He. exact (Hlater c Hc He alias Halias). }
  unfold resolve. rewrite !Hkeep by (unfold aliases_of; set_solver).
  unfold register. fold (friendly_name class_name).
  rewrite lookup_insert_eq.
  destruct (decide (PyString.lower (friendly_name class_name) = friendly_name class_name))
    as [->|Hne]; [by rewrite lookup_insert_eq|].
  by rewrite lookup_insert_ne, lookup_insert_eq.
Qed.

End RegistryFacts.

Lemma registry_aliases_are_known_witness :
  known_identifier Sample.library "OpenAIEmbeddings" /\
  exists class_,
    get_langchain_class Sample.library Sample.vllm_class Sample.fastapi_class
      (resolve Sample.registry "openai") = inr class_.
Proof.
  apply (registry_aliases_are_known Sample.library Sample.vllm_class Sample.fastapi_class
           Sample.registry "openai" "OpenAIEmbeddings").
  - exact sample_registry_loaded.
  - vm_compute. reflexivity.
Defined.

Lemma registry_keeps_last_writer_witness :
  resolve Sample.registry (friendly_name "OpenAIEmbeddings") = "OpenAIEmbeddings" /\
  resolve Sample.registry (PyString.lower (friendly_name "OpenAIEmbeddings"))
  = "OpenAIEmbeddings".
Proof.
  apply (registry_keeps_last_writer Sample.library Sample.registry
           ["FakeEmbeddings"; "HuggingFaceEmbeddings"] ["QianfanEmbeddingsEndpoint"]
           "OpenAIEmbeddings" Sample.openai_class).
  - exact sample_registry_loaded.
  - reflexivity.
  - reflexivity.
  - reflexivity.
  - constructor; [|constructor]. intros class_' _ _ alias Halias.
    apply (bool_decide_unpack _).
    unfold aliases_of in *. rewrite !elem_of_cons in Halias.
    destruct Halias as [->|[->|Hnil]]; [vm_compute; exact I..|by apply elem_of_nil in Hnil].
Defined.

(* ===================================================================== *)
(** * More on the model factory, [create] and [describe] *)
(* ===================================================================== *)

Section FactoryMore.
Context {A V : Type} `{Str A}.
Variable EMBEDDING_MODELS : gmap string string.
Variable lib : Library V.
Variables VLLMEmbeddings FastAPIEmbeddings : ClassObj V.

Abbreviation construct :=
  (construct_model_from_args EMBEDDING_MODELS lib VLLMEmbeddings FastAPIEmbeddings).
Abbreviation get_class := (get_langchain_class lib VLLMEmbeddings FastAPIEmbeddings).
Abbreviation create_ :=
  (create (A:=A) EMBEDDING_MODELS lib VLLMEmbeddings FastAPIEmbeddings).
Abbreviation prepare_ :=
  (prepare (A:=A) EMBEDDING_MODELS lib VLLMEmbeddings FastAPIEmbeddings).

(** The result of [construct_model_from_args] is settled by the resolved
    identifier and by the dict that the constructor receives. *)
Lemma construct_result_same (args1 args2 : gmap string value) (alias1 alias2 : string)
    (MODEL_CLASS : ClassObj V) :
  class_entry args1 = Scalar (PyStr alias1) ->
  class_entry args2 = Scalar (PyStr alias2) ->
  resolve EMBEDDING_MODELS alias2 = resolve EMBEDDING_MODELS alias1 ->
  get_class (resolve EMBEDDING_MODELS alias1) = inr MODEL_CLASS ->
  keep_fields MODEL_CLASS (popped args2) = keep_fields MODEL_CLASS (popped args1) ->
  result (construct args2) = result (construct args1).
Proof.
  intros H1 H2 Hres Hget Hkeep. rewrite !construct_run, H1, H2, Hres, Hget, Hkeep.
  by destruct (instantiate MODEL_CLASS _).
Qed.

(** X4.  For a backend class with declared fields (a pydantic model), the
    filter of lines 95-98 makes the outcome of [construct_model_from_args]
    depend on the declared fields only: two configurations that name the
    same backend and agree on every declared field other than [target] and
    [class] give the same model, or the same exception, whatever else they
    hold. *)
Theorem construct_reads_model_fields_only (args1 args2 : gmap string value)
    (alias : string) (MODEL_CLASS : ClassObj V) (fields : list string) :
  class_entry args1 = Scalar (PyStr alias) ->
  class_entry args2 = Scalar (PyStr alias) ->
  get_class (resolve EMBEDDING_MODELS alias) = inr MODEL_CLASS ->
  model_fields MODEL_CLASS = Some fields ->
  (forall k, k ∈ fields -> k <> "target" -> k <> "class" -> args1 !! k = args2 !! k) ->
  result (construct args1) = result (construct args2).
Proof.
  intros H1 H2 Hget Hfields Hagree.
  apply (construct_result_same args2 args1 alias alias MODEL_CLASS); try done.
  unfold keep_fields. rewrite Hfields. apply map_eq. intros k.
  rewrite !map_lookup_filter.
  destruct (decide (k = "class")) as [->|Hc]; [by rewrite !lookup_popped_class|].
  destruct (decide (k = "target")) as [->|Ht]; [by rewrite !lookup_popped_target|].
  rewrite !lookup_popped_ne by done.
  destruct (decide (k ∈ fields)) as [Hin|Hout].
  - by rewrite (Hagree k Hin Ht Hc).
  - destruct (args1 !! k) as [v1|], (args2 !! k) as [v2|]; cbn;
      rewrite ?option_guard_False; done.
Qed.

(** X5.  [create] fails exactly when [construct_model_from_args] fails on
    the configuration with the inferred input columns, with the same
    exception, and then the model storage is as it was: nothing is
    persisted for a model that cannot be built. *)
Theorem create_failure_persists_nothing (target : option string)
    (df : option (DataFrame A)) (using_args : option (gmap string value))
    (storage : gmap string json) :
  match result (create_ target df using_args storage) with
  | inl e =>
      final (create_ target df using_args storage) = storage /\
      result (construct (infer_input_columns target df (default ∅ using_args))) = inl e
  | inr _ =>
      exists model,
        result (construct (infer_input_columns target df (default ∅ using_args)))
        = inr model
  end.
Proof.
  rewrite create_run. cbv zeta.
  destruct (result (construct _)) as [e|model]; cbn [result final]; eauto.
Qed.

(** X6.  Whether it returns or raises, [create] leaves every entry of the
    model storage other than [args] as it was, and never calls the
    backend's [embed_documents]: the model it builds is only a check of the
    configuration. *)
Theorem create_touches_args_only (target : option string)
    (df : option (DataFrame A)) (using_args : option (gmap string value))
    (storage : gmap string json) :
  delete "args" (final (create_ target df using_args storage)) = delete "args" storage /\
  embed_calls (journal (create_ target df using_args storage)) = [].
Proof.
  rewrite create_run. cbv zeta.
  destruct (result (construct _)) as [e|model]; cbn [result final journal];
    (split; [|apply construct_no_calls]); [done|].
  by rewrite delete_insert_eq.
Qed.

(** X7.  When [create] returns, the stored configuration holds under
    [class] the resolved backend identifier of the alias that the user
    gave (or of the default), under [target] the given target, or
    [embeddings] when none or the empty string was given, so never the
    empty string; it has an entry [input_columns]; and every other entry
    that the user supplied is stored as given. *)
Theorem create_persists_configuration (target : option string)
    (df : option (DataFrame A)) (using_args : option (gmap string value))
    (storage : gmap string json) :
  result (create_ target df using_args storage) = inr tt ->
  exists args alias,
    json_get (final (create_ target df using_args storage)) "args" = Some (JDict args) /\
    class_entry (default ∅ using_args) = Scalar (PyStr alias) /\
    args !! "class" = Some (Scalar (PyStr (resolve EMBEDDING_MODELS alias))) /\
    args !! "target" = Some (Scalar (PyStr (target_or_default target))) /\
    target_or_default target <> EmptyString /\
    is_Some (args !! "input_columns") /\
    (forall k v, k <> "class" -> k <> "target" ->
                 default ∅ using_args !! k = Some v -> args !! k = Some v).
Proof.
  rewrite create_run. cbv zeta.
  set (user_args := infer_input_columns target df (default ∅ using_args)).
  destruct (result (construct user_args)) as [e|model] eqn:Hres; [discriminate|]. intros _.
  destruct (construct_inr _ _ _ _ _ _ Hres) as (alias & C & Hcls & _ & _ & _).
  assert (Hkeep : forall k, k <> "input_columns" -> user_args !! k = default ∅ using_args !! k).
  { intros k Hk. unfold user_args, infer_input_columns.
    destruct (default ∅ using_args !! "input_columns"), df; by rewrite ?lookup_insert_ne. }
  assert (Hcolumns : is_Some (user_args !! "input_columns")).
  { unfold user_args, infer_input_columns.
    destruct (default ∅ using_args !! "input_columns") eqn:Hic, df;
      rewrite ?lookup_insert_eq, ?Hic; eauto. }
  assert (Hsupplied : forall k v, default ∅ using_args !! k = Some v -> user_args !! k = Some v).
  { intros k v Hk. destruct (decide (k = "input_columns")) as [->|Hne];
      [|by rewrite Hkeep].
    unfold user_args, infer_input_columns. by rewrite Hk. }
  eexists _, alias. cbn [final]. unfold json_get. rewrite lookup_insert_eq.
  split; [reflexivity|]. split.
  { unfold class_entry in *. by rewrite <- Hkeep. }
  rewrite (lookup_insert_ne _ "target" "class"), lookup_insert_eq by done.
  rewrite (lookup_insert_ne _ "target" "input_columns") by done.
  rewrite !(construct_final_lookup _ _ _ _ _ _ _ Hres), Hcls.
  repeat split; try done.
  - unfold target_or_default. destruct target as [t|]; [|done].
    destruct (String.eqb_spec t EmptyString); done.
  - intros k v Hk Hk' Hv. rewrite lookup_insert_ne by done.
    rewrite (construct_final_lookup _ _ _ _ _ _ _ Hres). rewrite !decide_False by done.
    by apply Hsupplied.
Qed.

(** What [create] stores rebuilds the model that [create] built. *)
Lemma create_stored_rebuilds (target : option string) (df : option (DataFrame A))
    (using_args : option (gmap string value)) (storage : gmap string json) :
  identifiers_resolved EMBEDDING_MODELS ->
  result (create_ target df using_args storage) = inr tt ->
  exists args model,
    json_get (final (create_ target df using_args storage)) "args" = Some (JDict args) /\
    result (construct (infer_input_columns target df (default ∅ using_args))) = inr model /\
    result (construct args) = inr model /\
    final (construct args) !! "target"
    = Some (Scalar (PyStr (target_or_default target))) /\
    args !! "input_columns"
    = infer_input_columns target df (default ∅ using_args) !! "input_columns".
Proof.
  intros Hreg. rewrite create_run. cbv zeta.
  set (user_args := infer_input_columns target df (default ∅ using_args)).
  destruct (result (construct user_args)) as [e|model] eqn:Hres; [discriminate|]. intros _.
  destruct (construct_inr _ _ _ _ _ _ Hres) as (alias & C & Hcls & Hget & Hinst & _).
  set (args := <["target" := Scalar (PyStr (target_or_default target))]>
                 (final (construct user_args))).
  assert (Hclass : class_entry args = Scalar (PyStr (resolve EMBEDDING_MODELS alias))).
  { unfold class_entry, args. rewrite lookup_insert_ne by done.
    by rewrite (construct_final_lookup _ _ _ _ _ _ _ Hres), Hcls. }
  assert (Hpopped : popped args = popped user_args).
  { apply map_eq. intros k.
    destruct (decide (k = "class")) as [->|Hk]; [by rewrite !lookup_popped_class|].
    destruct (decide (k = "target")) as [->|Hk']; [by rewrite !lookup_popped_target|].
    rewrite !lookup_popped_ne by done. unfold args. rewrite lookup_insert_ne by done.
    rewrite (construct_final_lookup _ _ _ _ _ _ _ Hres). by rewrite !decide_False. }
  assert (Hagain : result (construct args) = inr model).
  { rewrite (construct_result_same user_args args alias
               (resolve EMBEDDING_MODELS alias) C); try done.
    - by apply resolve_resolved.
    - by rewrite Hpopped. }
  exists args, model. cbn [final]. unfold json_get. rewrite lookup_insert_eq.
  repeat split; try done.
  - rewrite (construct_final_lookup _ _ _ _ _ _ _ Hagain).
    unfold args. by rewrite lookup_insert_eq.
  - unfold args. rewrite lookup_insert_ne by done.
    by rewrite (construct_final_lookup _ _ _ _ _ _ _ Hres).
Qed.

(** X8.  Round trip of the configuration: over a registry that maps no
    backend identifier to another one, when [create] returns, the
    configuration it has stored makes [construct_model_from_args] return,
    as [predict] calls it, the very model that [create] built, and leaves
    the target that [predict] reads next. *)
Theorem create_then_predict_rebuilds (target : option string)
    (df : option (DataFrame A)) (using_args : option (gmap string value))
    (storage : gmap string json) :
  identifiers_resolved EMBEDDING_MODELS ->
  result (create_ target df using_args storage) = inr tt ->
  exists args model,
    json_get (final (create_ target df using_args storage)) "args" = Some (JDict args) /\
    result (construct (infer_input_columns target df (default ∅ using_args))) = inr model /\
    result (construct args) = inr model /\
    final (construct args) !! "target"
    = Some (Scalar (PyStr (target_or_default target))).
Proof.
  intros Hreg Hok.
  destruct (create_stored_rebuilds _ _ _ _ Hreg Hok) as (args & model & Hs & Hm & Hc & Ht & _).
  by exists args, model.
Qed.


(** X10.  After [create] has returned, [describe] raises for no attribute,
    and the configuration view is the stored configuration, entry by
    entry: a key is listed with a value exactly when the stored
    configuration binds the key to that value, no key is listed twice, and
    every row has a value.  Among the rows are [class] with the resolved
    backend identifier and [target] with the stored target. *)
Theorem describe_args_after_create (target : option string)
    (df : option (DataFrame A)) (using_args : option (gmap string value))
    (storage : gmap string json) :
  result (create_ target df using_args storage) = inr tt ->
  let stored := final (create_ target df using_args storage) in
  (forall attribute, exists v, describe stored attribute = inr v) /\
  exists args items alias,
    json_get stored "args" = Some (JDict args) /\
    describe stored (Some "args") = inr (KeyValue items) /\
    (forall k v, (k, Some (JValue v)) ∈ items <-> args !! k = Some v) /\
    (forall k o, (k, o) ∈ items -> exists v, o = Some (JValue v)) /\
    NoDup items.*1 /\
    class_entry (infer_input_columns target df (default ∅ using_args))
    = Scalar (PyStr alias) /\
    ("class", Some (JValue (Scalar (PyStr (resolve EMBEDDING_MODELS alias))))) ∈ items /\
    ("target", Some (JValue (Scalar (PyStr (target_or_default target))))) ∈ items.
Proof.
  intros Hok. cbv zeta.
  destruct (create_stores_resolved_class _ _ _ _ _ _ _ _ Hok)
    as (args & alias & Hargs & Hcls & Hclass & Htarget).
  assert (Hview : describe (final (create_ target df using_args storage)) (Some "args")
                  = inr (KeyValue ((fun kv => (kv.1, Some (JValue kv.2))) <$> map_to_list args))).
  { unfold describe. rewrite decide_True by done. by rewrite Hargs. }
  assert (Hitems : forall k v,
            (k, Some (JValue v)) ∈ (fun kv : string * value => (kv.1, Some (JValue kv.2)))
                                     <$> map_to_list args
            <-> args !! k = Some v).
  { intros k v. rewrite list_elem_of_fmap. split.
    - intros ([k' v'] & [= -> ->] & Hin). by apply elem_of_map_to_list in Hin.
    - intros Hk. exists (k, v). split; [done|]. by apply elem_of_map_to_list. }
  split.
  - intros attribute. destruct (decide (attribute = Some "args")) as [->|Hne]; [eauto|].
    unfold describe. rewrite decide_False by done.
    destruct (decide (attribute = Some "metadata")); eauto.
  - eexists args, _, alias. split; [exact Hargs|]. split; [exact Hview|].
    split; [exact Hitems|]. split; [|split; [|split; [done|split]]].
    + intros k o Hin. apply list_elem_of_fmap in Hin as ([k' v'] & [= -> ->] & _). eauto.
    + rewrite <- list_fmap_compose. apply NoDup_fst_map_to_list.
    + by apply Hitems.
    + by apply Hitems.
Qed.

End FactoryMore.

(** ** Runs of the factory and of [create] on the small installation *)

Lemma construct_reads_model_fields_only_witness :
  result (construct_model_from_args Sample.registry Sample.library Sample.vllm_class
            Sample.fastapi_class (Sample.stored_args []))
  = result (construct_model_from_args Sample.registry Sample.library Sample.vllm_class
              Sample.fastapi_class
              Example.args_with_extra).
Proof.
  apply (construct_reads_model_fields_only Sample.registry Sample.library
           Sample.vllm_class Sample.fastapi_class
           (Sample.stored_args [])
           Example.args_with_extra
           "VLLMEmbeddings" Sample.vllm_class ["openai_api_base"; "model"; "batch_size"]).
  - reflexivity.
  - reflexivity.
  - reflexivity.
  - reflexivity.
  - intros k Hk _ _. rewrite !elem_of_cons in Hk.
    destruct Hk as [->|[->|[->|Hnil]]]; [reflexivity..|by apply elem_of_nil in Hnil].
Defined.

Lemma create_persists_configuration_witness :
  exists args alias,
    json_get (final (create (A:=scalar) Sample.registry Sample.library Sample.vllm_class
                       Sample.fastapi_class (Some EmptyString) None
                       (Some Example.using_vllm) ∅)) "args"
    = Some (JDict args) /\
    class_entry (default ∅ (Some Example.using_vllm))
    = Scalar (PyStr alias) /\
    args !! "class" = Some (Scalar (PyStr (resolve Sample.registry alias))) /\
    args !! "target" = Some (Scalar (PyStr (target_or_default (Some EmptyString)))) /\
    target_or_default (Some EmptyString) <> EmptyString /\
    is_Some (args !! "input_columns") /\
    (forall k v, k <> "class" -> k <> "target" ->
                 default ∅ (Some Example.using_vllm) !! k = Some v ->
                 args !! k = Some v).
Proof.
  apply (create_persists_configuration Sample.registry Sample.library
           Sample.vllm_class Sample.fastapi_class (Some EmptyString) None
           (Some Example.using_vllm) ∅).
  vm_compute. reflexivity.
Defined.

Lemma create_then_predict_rebuilds_witness :
  exists args model,
    json_get (final (create (A:=scalar) Sample.registry Sample.library Sample.vllm_class
                       Sample.fastapi_class (Some "emb") None
                       (Some Example.using_vllm) ∅)) "args"
    = Some (JDict args) /\
    result (construct_model_from_args Sample.registry Sample.library Sample.vllm_class
              Sample.fastapi_class
              (infer_input_columns (A:=scalar) (Some "emb") None
                 (default ∅ (Some Example.using_vllm))))
    = inr model /\
    result (construct_model_from_args Sample.registry Sample.library Sample.vllm_class
              Sample.fastapi_class args) = inr model /\
    final (construct_model_from_args Sample.registry Sample.library Sample.vllm_class
             Sample.fastapi_class args) !! "target"
    = Some (Scalar (PyStr (target_or_default (Some "emb")))).
Proof.
  apply (create_then_predict_rebuilds Sample.registry Sample.library
           Sample.vllm_class Sample.fastapi_class (Some "emb") None
           (Some Example.using_vllm) ∅).
  - exact sample_registry_resolved.
  - vm_compute. reflexivity.
Defined.


(** X10, on a model created on the backend [vllm] under the default
    target. *)
Lemma describe_args_after_create_witness :
  let stored :=
    final (create (A:=scalar) Sample.registry Sample.library Sample.vllm_class
             Sample.fastapi_class None None
             (Some Example.using_vllm) ∅) in
  (forall attribute, exists v, describe stored attribute = inr v) /\
  exists args items alias,
    json_get stored "args" = Some (JDict args) /\
    describe stored (Some "args") = inr (KeyValue items) /\
    (forall k v, (k, Some (JValue v)) ∈ items <-> args !! k = Some v) /\
    (forall k o, (k, o) ∈ items -> exists v, o = Some (JValue v)) /\
    NoDup items.*1 /\
    class_entry (infer_input_columns (A:=scalar) None None
                   (default ∅ (Some Example.using_vllm)))
    = Scalar (PyStr alias) /\
    ("class", Some (JValue (Scalar (PyStr (resolve Sample.registry alias))))) ∈ items /\
    ("target", Some (JValue (Scalar (PyStr (target_or_default None))))) ∈ items.
Proof.
  apply (describe_args_after_create Sample.registry Sample.library
           Sample.vllm_class Sample.fastapi_class None None
           (Some Example.using_vllm) ∅).
  vm_compute. reflexivity.
Defined.
(* ===================================================================== *)
(** * More on [predict] *)
(* ===================================================================== *)

Section PredictMore.
Context {A V : Type} `{Str A}.
Variable EMBEDDING_MODELS : gmap string string.
Variable lib : Library V.
Variables VLLMEmbeddings FastAPIEmbeddings : ClassObj V.

Abbreviation construct :=
  (construct_model_from_args EMBEDDING_MODELS lib VLLMEmbeddings FastAPIEmbeddings).
Abbreviation prepare_ :=
  (prepare (A:=A) EMBEDDING_MODELS lib VLLMEmbeddings FastAPIEmbeddings).
Abbreviation predict_ :=
  (predict (A:=A) EMBEDDING_MODELS lib VLLMEmbeddings FastAPIEmbeddings).
Abbreviation reads :=
  (reads_configuration EMBEDDING_MODELS lib VLLMEmbeddings FastAPIEmbeddings).

(** When lines 161-165 do not get through, the dataframe is untouched and
    the backend has not been called. *)
Lemma predict_early_failure (storage : gmap string json) (df : DataFrame A) :
  reads storage = false ->
  final (predict_ storage df) = df /\
  embed_calls (journal (predict_ storage df)) = [] /\
  exists e, result (predict_ storage df) = inl e.
Proof.
  unfold reads_configuration, predict. rewrite bind_run, prepare_run. cbv zeta.
  destruct (json_get storage "args") as [[args|v]|]; cbn [final journal result]; eauto.
  destruct (result (construct args)) as [e|model]; cbn [final journal result];
    [intros _; split; [done|]; split; [apply construct_no_calls | eauto]|].
  destruct (final (construct args) !! "target") as [target|]; cbn [final journal result].
  - rewrite bool_decide_true by eauto. discriminate.
  - intros _. split; [done|]. split; [apply construct_no_calls | eauto].
Qed.

(** The caller's dataframe after [predict], in every run. *)
Lemma predict_final (storage : gmap string json) (df : DataFrame A) :
  final (predict_ storage df)
  = if reads storage then set_columns (PyString.strip "`" <$> columns df) df else df.
Proof.
  destruct (reads storage) eqn:Hreads; [|by apply predict_early_failure].
  unfold reads_configuration in Hreads. pose proof (prepare_run EMBEDDING_MODELS lib VLLMEmbeddings FastAPIEmbeddings storage df) as Hprep.
  cbv zeta in Hprep.
  destruct (json_get storage "args") as [[args|v]|]; try discriminate.
  destruct (result (construct args)) as [e|model]; [discriminate|].
  destruct (final (construct args) !! "target") as [target|];
    [|by rewrite bool_decide_false in Hreads by (by intros [??])].
  destruct (resolve_input_columns _ _) as [e|input_columns].
  { unfold predict. by rewrite bind_run, Hprep. }
  destruct (forallb _ (elements input_columns)).
  2:{ unfold predict. by rewrite bind_run, Hprep. }
  assert (Hok : result (prepare_ storage df) = inr (model, target, input_columns))
    by (by rewrite Hprep).
  rewrite (predict_run _ _ _ _ _ _ _ _ _ Hok). cbv zeta. cbn [prepend final].
  destruct (result (embed_all _ _ _ _)); [done|].
  by destruct target as [[| | |]|].
Qed.

(** X11.  In every run of [predict], returning or raising, the rows of the
    caller's dataframe are left as they were; and either the dataframe is
    untouched altogether, in which case [predict] has raised before any
    call of the backend, or its labels are the unquoted labels. *)
Theorem predict_changes_labels_only (storage : gmap string json) (df : DataFrame A) :
  rows (final (predict_ storage df)) = rows df /\
  ((final (predict_ storage df) = df /\
    embed_calls (journal (predict_ storage df)) = [] /\
    exists e, result (predict_ storage df) = inl e)
   \/ columns (final (predict_ storage df)) = PyString.strip "`" <$> columns df).
Proof.
  destruct (reads storage) eqn:Hreads.
  - rewrite predict_final, Hreads. split; [done|]. by right.
  - destruct (predict_early_failure storage df Hreads) as (Hfinal & Hcalls & He).
    rewrite Hfinal. split; [done|]. by left.
Qed.

(** X12.  Unquoting is idempotent: calling [predict] again on the
    dataframe that a first call has left, with the same model storage,
    leaves it as the first call did. *)
Theorem predict_again_same_frame (storage : gmap string json) (df : DataFrame A) :
  final (predict_ storage (final (predict_ storage df))) = final (predict_ storage df).
Proof.
  rewrite !predict_final. destruct (reads storage); [|done].
  unfold set_columns. cbn [columns rows]. f_equal.
  rewrite <- list_fmap_compose. apply list_fmap_ext. intros i label _. cbn.
  apply strip_strip.
Qed.

End PredictMore.

(* ===================================================================== *)
(** * More on the batch executor *)
(* ===================================================================== *)



Lemma embed_calls_call (docs : list string) (j : list event) :
  embed_calls (EmbedCall docs :: j) = docs :: embed_calls j.
Proof. reflexivity. Qed.

Lemma embed_calls_log (lvl : level) (msg : string) (j : list event) :
  embed_calls (Log lvl msg :: j) = embed_calls j.
Proof. reflexivity. Qed.

Section ExecutorMore.
Context {A V St : Type} `{Str A}.
Variable model : Model V.
Variable df : DataFrame A.
Variable input_columns : list string.

(** The calls of the fallback: one document each, at most one per
    document of the batch. *)
Lemma embed_one_by_one_calls (start i : Z) (texts : list string) (acc : list V) (st : St) :
  Forall (single_of texts) (embed_calls (journal (embed_one_by_one model start i texts acc st)))
  /\ (length (embed_calls (journal (embed_one_by_one model start i texts acc st)))
      <= length texts)%nat.
Proof.
  revert i acc. induction texts as [|text rest IH]; intros i acc; [by split|].
  cbn [embed_one_by_one]. rewrite bind_call_embed.
  assert (Hhead : single_of (text :: rest) [text]) by (exists text; split; [by left|done]).
  unfold prepend. cbn [journal app]. rewrite embed_calls_call. cbn [length].
  destruct (embed_documents model [text]) as [inner_e|[|embedding others]].
  - unfold document_failed. rewrite bind_log. cbn [prepend journal app raise].
    rewrite embed_calls_log. cbn. split; [by repeat constructor | lia].
  - unfold document_failed. rewrite bind_log. cbn [prepend journal app raise].
    rewrite embed_calls_log. cbn. split; [by repeat constructor | lia].
  - rewrite bind_log. cbn [prepend journal app]. rewrite embed_calls_log.
    destruct (IH (i + 1) (acc ++ [embedding])) as [Hshape Hlen].
    split; [|lia].
    constructor; [done|]. eapply Forall_impl; [exact Hshape|].
    intros call (d & Hd & ->). exists d. split; [by right|done].
Qed.

(** The calls of one pass of the loop: the batch, then possibly its
    documents one by one. *)
Lemma embed_batch_calls_any (batch_size : Z) (acc : list V) (start_idx : Z) (st : St) :
  let texts := texts_at df input_columns batch_size start_idx in
  let calls := embed_calls (journal (embed_batch model df (Labels input_columns) batch_size
                                       (len df) acc start_idx st)) in
  Forall (fun call => call = texts \/ single_of texts call) calls /\
  (length calls <= 1 + length texts)%nat.
Proof.
  cbv zeta. unfold embed_batch. rewrite bind_log. cbn [batch_documents].
  rewrite bind_lift_inr, batch_texts, bind_call_embed.
  fold (texts_at df input_columns batch_size start_idx).
  set (texts := texts_at df input_columns batch_size start_idx).
  unfold prepend at 1 2. cbn [journal app].
  rewrite embed_calls_log, embed_calls_call. cbn [length].
  destruct (embed_documents model texts) as [e|batch_embeddings].
  - rewrite bind_log. unfold prepend at 1. cbn [journal app]. rewrite embed_calls_log.
    rewrite bind_run.
    destruct (embed_one_by_one_calls start_idx 0 texts [] st) as [Hshape Hlen].
    assert (Hsame : forall j : list event,
      embed_calls j = embed_calls (journal (embed_one_by_one model start_idx 0 texts [] st)) ->
      Forall (fun call => call = texts \/ single_of texts call) (texts :: embed_calls j) /\
      (S (length (embed_calls j)) <= 1 + length texts)%nat).
    { intros j ->. split; [|lia].
      constructor; [by left|]. eapply Forall_impl; [exact Hshape|]. auto. }
    destruct (result (embed_one_by_one _ _ _ _ _ _));
      cbn [prepend journal ret]; apply Hsame; by rewrite ?app_nil_r.
  - rewrite bind_log. cbn. split; [by repeat constructor | lia].
Qed.

Lemma for_each_calls_any (batch_size : Z) (starts : list Z) (acc : list V) (st : St) :
  let batches := texts_at df input_columns batch_size <$> starts in
  let calls := embed_calls (journal (for_each starts
                 (embed_batch model df (Labels input_columns) batch_size (len df)) acc st)) in
  Forall (fun call => call ∈ batches \/ single_of (concat batches) call) calls /\
  (length calls <= length batches + length (concat batches))%nat.
Proof.
  cbv zeta. revert acc. induction starts as [|start_idx starts IH]; intros acc; [by split|].
  cbn [for_each fmap list_fmap concat]. rewrite bind_run.
  destruct (embed_batch_calls_any batch_size acc start_idx st) as [Hshape Hlen].
  cbv zeta in Hshape, Hlen.
  set (texts := texts_at df input_columns batch_size start_idx) in *.
  assert (Hhead :
    Forall (fun call =>
              call ∈ texts :: (texts_at df input_columns batch_size <$> starts)
              \/ single_of (texts ++ concat (texts_at df input_columns batch_size <$> starts))
                   call)
           (embed_calls (journal (embed_batch model df (Labels input_columns) batch_size
                                    (len df) acc start_idx st)))).
  { eapply Forall_impl; [exact Hshape|]. intros call [->|(d & Hd & ->)].
    - left. by left.
    - right. exists d. split; [|done]. apply elem_of_app. by left. }
  destruct (result (embed_batch _ _ _ _ _ _ _ _)) as [e|acc'].
  - cbn [journal]. split; [done|]. rewrite length_app. cbn [length]. lia.
  - cbn [prepend journal]. rewrite embed_calls_app.
    destruct (embed_batch_value model df input_columns batch_size acc start_idx st)
      as [Hfinal _].
    cbv zeta in Hfinal. rewrite Hfinal.
    destruct (IH acc') as [Hrest Hrestlen].
    split.
    + apply Forall_app. split; [done|]. eapply Forall_impl; [exact Hrest|].
      intros call [Hin|(d & Hd & ->)].
      * left. by right.
      * right. exists d. split; [|done]. apply elem_of_app. by right.
    + rewrite !length_app. cbn [length]. lia.
Qed.

(** X14.  Whatever the backend answers or refuses, and whether the
    executor returns or raises, every call of [embed_documents] that it
    makes is on one of the batches or on one document alone, and it makes
    at most as many calls as there are batches and documents together: no
    document is sent more than twice. *)
Theorem embed_all_calls_bounded (st : St) :
  let B := default 32 (batch_size model) in
  let docs := documents input_columns df in
  let calls := embed_calls (journal (embed_all model df (Labels input_columns) st)) in
  Forall (fun call => call ∈ batches_of B docs \/ single_of docs call) calls /\
  (length calls <= length (batches_of B docs) + length docs)%nat.
Proof.
  cbv zeta. set (B := default 32 (batch_size model)).
  destruct (Z.eq_dec B 0) as [H0|Hne].
  { destruct (embed_all_zero_batch_size model df (Labels input_columns) st H0) as [_ ->].
    split; [done | cbn; lia]. }
  unfold embed_all. fold B. rewrite !bind_log, bind_lift. unfold py_range.
  rewrite (proj2 (Z.eqb_neq _ 0)) by done.
  rewrite bind_run.
  destruct (for_each_calls_any B (range_list 0 (len df) B) [] st) as [Hshape Hlen].
  cbv zeta in Hshape, Hlen. rewrite texts_at_batches in Hshape, Hlen.
  assert (Hconcat : forall call,
            single_of (concat (batches_of B (documents input_columns df))) call ->
            single_of (documents input_columns df) call).
  { intros call (d & Hd & ->). exists d. split; [|done].
    destruct (Z.ltb_spec 0 B) as [Hpos|Hneg].
    - by rewrite concat_batches_of in Hd.
    - unfold batches_of, range_list, range_len in Hd.
      rewrite (proj2 (Z.ltb_ge 0 B)) in Hd by lia.
      rewrite (proj2 (Z.ltb_ge _ 0)) in Hd by lia. cbn in Hd. by apply elem_of_nil in Hd. }
  assert (Hlenc : (length (concat (batches_of B (documents input_columns df)))
                   <= length (documents input_columns df))%nat).
  { destruct (Z.ltb_spec 0 B) as [Hpos|Hneg].
    - by rewrite concat_batches_of.
    - unfold batches_of, range_list, range_len.
      rewrite (proj2 (Z.ltb_ge 0 B)) by lia.
      rewrite (proj2 (Z.ltb_ge _ 0)) by lia.
      change (seq 0 (Z.to_nat 0)) with (@nil nat). cbn [fmap list_fmap concat length]. lia. }
  assert (Hgoal : Forall (fun call => call ∈ batches_of B (documents input_columns df)
                                      \/ single_of (documents input_columns df) call)
            (embed_calls (journal (for_each (range_list 0 (len df) B)
               (embed_batch model df (Labels input_columns) B (len df)) [] st)))).
  { eapply Forall_impl; [exact Hshape|]. intros call [?|?]; auto. }
  destruct (result (for_each _ _ _ _)).
  - cbn [prepend journal app]. rewrite !embed_calls_log. split; [done|lia].
  - rewrite bind_log. cbn [prepend journal ret app]. rewrite !embed_calls_log.
    rewrite embed_calls_app, embed_calls_log. cbn [embed_calls omap]. rewrite app_nil_r.
    split; [done|lia].
Qed.

End ExecutorMore.

Section OutcomeFacts.
Context {V : Type}.
Variable model : Model V.


Lemma singles_inl (texts : list string) (e : exn) :
  singles model texts = inl e -> exists inner_e, e = embedding_failed inner_e.
Proof.
  induction texts as [|text rest IH]; [done|].
  cbn [singles]. destruct (embed_documents model [text]) as [inner_e|[|embedding others]].
  - intros [= <-]. eauto.
  - intros [= <-]. eauto.
  - destruct (singles model rest) as [e'|rest_embeddings]; [|done].
    intros [= <-]. by apply IH.
Qed.

(** The batches fail with the exception of line 217 only. *)
Lemma outcomes_inl (batches : list (list string)) (e : exn) :
  outcomes model batches = inl e -> exists inner_e, e = embedding_failed inner_e.
Proof.
  induction batches as [|texts rest IH]; [done|].
  cbn [outcomes]. unfold batch_outcome.
  destruct (embed_documents model texts) as [batch_e|batch_embeddings].
  - destruct (singles model texts) as [e'|embeddings] eqn:Hs.
    + intros [= <-]. by apply (singles_inl texts).
    + destruct (outcomes model rest) as [e'|embeddings']; [|done].
      intros [= <-]. by apply IH.
  - destruct (outcomes model rest) as [e'|embeddings']; [|done].
    intros [= <-]. by apply IH.
Qed.


End OutcomeFacts.

Section ExecutorFailures.
Context {A V St : Type} `{Str A}.
Variable model : Model V.
Variable df : DataFrame A.

(** What [batch_df[input_columns].apply(...)] raises: nothing for a list
    of labels of the dataframe; for a string, the [KeyError] of a label
    that the dataframe does not have, and the [TypeError] of the
    serializer called with the keyword [axis] on the cells of a single
    column. *)
Lemma batch_documents_inl (key : column_key) (batch_df : DataFrame A) (e : exn) :
  batch_documents key batch_df = inl e ->
  exists s, key = Label s /\
    ((e = KeyError s /\ s ∉ columns batch_df) \/
     (e = TypeError
            "LangchainEmbeddingHandler.row_to_document() got an unexpected keyword argument 'axis'" /\
      length (filter (fun label => label = s) (columns batch_df)) = 1%nat)).
Proof.
  destruct key as [cols|s]; [done|]. cbn [batch_documents].
  destruct (filter (fun label => label = s) (columns batch_df)) as [|l [|l' ls]] eqn:Hf.
  - intros [= <-]. exists s. split; [done|]. left. split; [done|]. intros Hin.
    assert (Hs : s ∈ filter (fun label => label = s) (columns batch_df))
      by (by apply list_elem_of_filter).
    rewrite Hf in Hs. by apply elem_of_nil in Hs.
  - destruct (rows batch_df); [done|]. intros [= <-]. exists s. split; [done|].
    right. split; [reflexivity|]. by rewrite Hf.
  - done.
Qed.

(** One pass of the loop fails on the selection of the columns or with
    the exception of line 217. *)
Lemma embed_batch_inl (key : column_key) (batch_size total_rows : Z) (acc : list V)
    (start_idx : Z) (st : St) (e : exn) :
  result (embed_batch model df key batch_size total_rows acc start_idx st) = inl e ->
  batch_documents key (iloc start_idx (Z.min (start_idx + batch_size) total_rows) df)
  = inl e
  \/ exists inner_e, e = embedding_failed inner_e.
Proof.
  unfold embed_batch. rewrite bind_log, bind_lift. cbn [prepend result].
  destruct (batch_documents _ _) as [e'|texts]; [intros [= <-]; by left|].
  rewrite bind_call_embed. cbn [prepend result].
  destruct (embed_documents model texts) as [e0|batch_embeddings].
  - rewrite bind_log, bind_run. cbn [prepend result].
    destruct (embed_one_by_one_value model start_idx 0 texts [] st) as [_ Hresult].
    rewrite Hresult. destruct (singles model texts) as [e'|embeddings] eqn:Hs;
      cbn [prepend result ret]; [|discriminate].
    intros [= <-]. right. by apply (singles_inl model texts).
  - rewrite bind_log. discriminate.
Qed.

Lemma for_each_inl (key : column_key) (batch_size total_rows : Z) (starts : list Z)
    (acc : list V) (st : St) (e : exn) :
  result (for_each starts (embed_batch model df key batch_size total_rows) acc st) = inl e ->
  (exists start_idx,
      batch_documents key (iloc start_idx (Z.min (start_idx + batch_size) total_rows) df)
      = inl e)
  \/ exists inner_e, e = embedding_failed inner_e.
Proof.
  revert acc. induction starts as [|start_idx starts IH]; intros acc; [done|].
  cbn [for_each]. rewrite bind_run.
  destruct (result (embed_batch _ _ _ _ _ _ _ _)) as [e'|acc'] eqn:Hpass.
  - cbn [result]. intros [= <-].
    destruct (embed_batch_inl _ _ _ _ _ _ _ Hpass) as [Hdocs|Hfailed]; eauto.
  - cbn [prepend result]. rewrite (embed_batch_final model df). apply IH.
Qed.

(** The executor fails on a batch size of zero, on the selection of the
    columns, or with the exception of line 217. *)
Lemma embed_all_inl (key : column_key) (st : St) (e : exn) :
  result (embed_all model df key st) = inl e ->
  (e = ValueError "range() arg 3 must not be zero" /\ default 32 (batch_size model) = 0) \/
  (exists s, key = Label s /\
     ((e = KeyError s /\ s ∉ columns df) \/
      (e = TypeError
             "LangchainEmbeddingHandler.row_to_document() got an unexpected keyword argument 'axis'" /\
       length (filter (fun label => label = s) (columns df)) = 1%nat))) \/
  exists inner_e, e = embedding_failed inner_e.
Proof.
  destruct (Z.eq_dec (default 32 (batch_size model)) 0) as [H0|Hne].
  { destruct (embed_all_zero_batch_size model df key st H0) as [-> _].
    intros [= <-]. by left. }
  unfold embed_all. rewrite !bind_log, bind_lift. unfold py_range.
  rewrite (proj2 (Z.eqb_neq _ 0)) by done. rewrite bind_run. cbn [prepend result].
  destruct (result (for_each _ _ _ _)) as [e'|embeddings] eqn:Hloop.
  - cbn [result]. intros [= <-]. right.
    destruct (for_each_inl _ _ _ _ _ _ _ Hloop) as [[start_idx Hdocs]|Hfailed]; [|by right].
    left. by apply batch_documents_inl in Hdocs.
  - rewrite bind_log. discriminate.
Qed.

End ExecutorFailures.

Section AssignFacts.
Context {A V : Type}.

(** The dataframe that [assign] makes. *)
Lemma assign_shape (target : string) (values : list V) (df : DataFrame A)
    (out : DataFrame (cell A V)) :
  assign target values df = inr out ->
  length values = length (rows df) /\
  length (rows out) = length (rows df) /\
  columns out = (if bool_decide (target ∈ columns df) then columns df
                 else columns df ++ [target]) /\
  (target ∉ columns df ->
   original_cells <$> rows out = rows df /\
   embedding_cells <$> rows out = (fun v => [v]) <$> values).
Proof.
  unfold assign. cbv zeta. destruct (_ && _)%bool; [discriminate|].
  destruct (Nat.eqb_spec (length values) (length (rows df))) as [Hlen|];
    [|discriminate]. cbn [negb].
  destruct (bool_decide_reflect (target ∈ columns df)) as [Hin|Hout].
  - intros [= <-]. cbn [rows columns]. rewrite length_zip_with.
    split; [done|]. split; [lia|]. split; [done|]. by intros Hout.
  - intros [= <-]. cbn [rows columns]. rewrite length_zip_with.
    split; [done|]. split; [lia|]. split; [done|]. intros _.
    revert Hlen. generalize (rows df). clear. intros rs. revert rs.
    induction values as [|v values IH]; intros [|r rs] Hlen; try done.
    cbn [zip_with fmap list_fmap]. injection Hlen as Hlen.
    destruct (IH rs Hlen) as [-> ->]. split; f_equal.
    + unfold original_cells. rewrite omap_app. cbn. rewrite app_nil_r.
      induction r as [|a r IHr]; [done|]. cbn. by rewrite IHr.
    + unfold embedding_cells. rewrite omap_app. cbn.
      induction r as [|a r IHr]; [done|]. cbn. by rewrite IHr.
Qed.

End AssignFacts.

Section PredictOutcome.
Context {A V : Type} `{Str A}.
Variable EMBEDDING_MODELS : gmap string string.
Variable lib : Library V.
Variables VLLMEmbeddings FastAPIEmbeddings : ClassObj V.

Abbreviation prepare_ :=
  (prepare (A:=A) EMBEDDING_MODELS lib VLLMEmbeddings FastAPIEmbeddings).
Abbreviation predict_ :=
  (predict (A:=A) EMBEDDING_MODELS lib VLLMEmbeddings FastAPIEmbeddings).

(** X15.  Once the input columns are checked (line 177), [predict] can
    fail in these ways only: the [ValueError] of [range] for a batch size
    of zero; for input columns stored as a string, the [KeyError] of the
    string when it is no label of the dataframe, and the [TypeError] of the
    serializer called with the keyword [axis] when it labels one column;
    the exception of line 217 for a document that the backend refuses
    alone; the [TypeError] of the keyword call of [assign] when the stored
    target is no string; the [ValueError] of [assign] on a target that
    labels several columns; and the [ValueError] of [assign] when the
    number of vectors is not the number of rows.  What a batch-level call
    raises is caught, and is none of them. *)
Theorem predict_failures_after_prepare (storage : gmap string json) (df : DataFrame A)
    (model : Model V) (target : value) (input_columns : column_key) (e : exn) :
  result (prepare_ storage df) = inr (model, target, input_columns) ->
  result (predict_ storage df) = inl e ->
  (e = ValueError "range() arg 3 must not be zero" /\ default 32 (batch_size model) = 0) \/
  (exists s, input_columns = Label s /\
     ((e = KeyError s /\ s ∉ PyString.strip "`" <$> columns df) \/
      (e = TypeError
             "LangchainEmbeddingHandler.row_to_document() got an unexpected keyword argument 'axis'" /\
       length (filter (fun label => label = s) (PyString.strip "`" <$> columns df))
       = 1%nat))) \/
  (exists inner_e, e = embedding_failed inner_e) \/
  (e = TypeError "keywords must be strings" /\ forall t, target <> Scalar (PyStr t)) \/
  (exists t, target = Scalar (PyStr t) /\
             ~ at_most_one_column t (PyString.strip "`" <$> columns df) /\
             e = ValueError "Columns must be same length as key") \/
  (exists t n, target = Scalar (PyStr t) /\ n <> length (rows df) /\
               e = ValueError ("Length of values (" +:+ str (Z.of_nat n) +:+
                               ") does not match length of index (" +:+
                               str (Z.of_nat (length (rows df))) +:+ ")")).
Proof.
  intros Hok. rewrite (predict_run _ _ _ _ _ _ _ _ _ Hok). cbv zeta.
  set (df' := set_columns _ df).
  destruct (result (embed_all model df' input_columns df')) as [e'|all_embeddings] eqn:Hrun.
  - cbn [prepend result]. intros [= <-].
    destruct (embed_all_inl _ _ _ _ _ Hrun) as [Hzero|[Hkey|Hfailed]]; auto.
  - destruct target as [[| | |t]|]; cbn [prepend result];
      try (intros [= <-]; do 3 right; left; split; [done|]; by intros t').
    unfold assign. cbv zeta. cbn [set_columns columns rows df'].
    destruct (_ && _)%bool eqn:Hwide.
    + intros [= <-]. do 4 right. left. exists t. split; [done|]. split; [|done].
      apply andb_prop in Hwide as [Hwide _]. apply Nat.ltb_lt in Hwide.
      unfold at_most_one_column. lia.
    + destruct (Nat.eqb_spec (length all_embeddings) (length (rows df))) as [Hlen|Hlen];
        cbn [negb]; [by destruct (bool_decide _)|].
      intros [= <-]. do 5 right. by exists t, (length all_embeddings).
Qed.

(** X16.  A dataframe that [predict] returns has one row per row of the
    input; its labels are the unquoted labels of the input, followed by
    the stored target when that is none of them.  In that case every row
    keeps the cells of the input row, in order, and holds exactly one
    embedding. *)
Theorem predict_returns_extended_frame (storage : gmap string json) (df : DataFrame A)
    (out : DataFrame (cell A V)) :
  result (predict_ storage df) = inr out ->
  let labels := PyString.strip "`" <$> columns df in
  exists target : string,
    (exists args, json_get storage "args" = Some (JDict args) /\
                  args !! "target" = Some (Scalar (PyStr target))) /\
    length (rows out) = length (rows df) /\
    columns out = (if bool_decide (target ∈ labels) then labels else labels ++ [target]) /\
    (target ∉ labels ->
     original_cells <$> rows out = rows df /\
     Forall (fun r => length (embedding_cells r) = 1%nat) (rows out)).
Proof.
  intros Hout labels.
  destruct (result (prepare_ storage df)) as [e|[[model target] input_columns]] eqn:Hok.
  { unfold predict in Hout. rewrite bind_run, Hok in Hout. discriminate. }
  assert (Hargs : exists args, json_get storage "args" = Some (JDict args) /\
                               args !! "target" = Some target).
  { revert Hok. rewrite prepare_run. cbv zeta.
    destruct (json_get storage "args") as [[args|v]|]; try discriminate.
    destruct (result (construct_model_from_args _ _ _ _ args)) as [e|model'] eqn:Hres;
      [discriminate|].
    destruct (final _ !! "target") as [target'|] eqn:Ht; [|discriminate].
    destruct (resolve_input_columns _ _) as [e|ic]; [discriminate|].
    destruct (forallb _ (elements ic)); [|discriminate].
    cbn [prepend result]. intros [= _ <- _]. exists args. split; [done|].
    rewrite (construct_final_lookup _ _ _ _ _ _ _ Hres) in Ht.
    rewrite decide_False, decide_True in Ht by done.
    by destruct (args !! "target") as [[[| | |]|]|]. }
  rewrite (predict_run _ _ _ _ _ _ _ _ _ Hok) in Hout. cbv zeta in Hout.
  fold labels in Hout. set (df' := set_columns labels df) in Hout.
  destruct (result (embed_all model df' input_columns df')) as [e|all_embeddings];
    [discriminate|].
  destruct target as [[| | |target]|]; try discriminate.
  cbn [prepend result] in Hout. exists target. split; [done|].
  destruct (assign_shape _ _ _ _ Hout) as (Hlen & Hrows & Hcols & Hcells).
  split; [done|]. split; [done|]. intros Hnotin.
  destruct (Hcells Hnotin) as [Ho He]. split; [done|].
  apply Forall_forall. intros r Hr.
  assert (Hin : embedding_cells r ∈ embedding_cells <$> rows out) by (by apply list_elem_of_fmap_2).
  rewrite He in Hin. apply list_elem_of_fmap in Hin as (v & -> & _). done.
Qed.

(** X17.  A model whose batch size is not positive: [predict] never calls
    the backend.  With a batch size of zero it raises the [ValueError] of
    [range]; with a negative one the loop has no pass, so that a dataframe
    with rows meets the [ValueError] of [assign] for zero vectors, and a
    dataframe without rows is returned with the target column. *)
Theorem predict_nonpositive_batch_size (storage : gmap string json) (df : DataFrame A)
    (model : Model V) (target : string) (input_columns : column_key) :
  result (prepare_ storage df) = inr (model, Scalar (PyStr target), input_columns) ->
  default 32 (batch_size model) <= 0 ->
  embed_calls (journal (predict_ storage df)) = [] /\
  result (predict_ storage df)
  = if default 32 (batch_size model) =? 0
    then inl (ValueError "range() arg 3 must not be zero")
    else match rows df with
         | [] => inr (mkDataFrame
                        (let labels := PyString.strip "`" <$> columns df in
                         if bool_decide (target ∈ labels) then labels else labels ++ [target])
                        [])
         | _ :: _ =>
             inl (ValueError ("Length of values (0) does not match length of index (" +:+
                              str (Z.of_nat (length (rows df))) +:+ ")"))
         end.
Proof.
  intros Hok HB. rewrite (predict_run _ _ _ _ _ _ _ _ _ Hok). cbv zeta.
  set (df' := set_columns _ df).
  destruct (prepare_inr _ _ _ _ _ _ _ _ _ Hok) as [_ (before & Hj & Hbefore)].
  assert (Hprep : embed_calls (journal (prepare_ storage df)) = []).
  { rewrite Hj, embed_calls_app, Hbefore. done. }
  cbn [prepend journal]. rewrite !embed_calls_app, Hprep.
  destruct (Z.eqb_spec (default 32 (batch_size model)) 0) as [H0|Hne].
  - destruct (embed_all_zero_batch_size model df' input_columns df' H0) as [-> ->]. done.
  - destruct (embed_all_negative_batch_size model df' input_columns df') as [-> ->]; [lia|].
    split; [done|]. cbn [result]. unfold assign. cbv zeta. subst df'.
    cbn [set_columns rows columns length].
    rewrite (andb_comm (1 <? _)%nat).
    destruct (length (filter _ _)) as [|k]; cbn [Nat.eqb Nat.ltb Nat.leb andb].
    + destruct (rows df) as [|r rs]; [|done]. cbn [length Nat.eqb negb zip_with].
      by destruct (bool_decide _).
    + destruct (rows df) as [|r rs]; [|done]. cbn [length Nat.eqb negb zip_with].
      by destruct (bool_decide _).
Qed.

(** X18.  On a dataframe without rows, with a batch size other than zero,
    [predict] returns without calling the backend: the empty dataframe
    with the unquoted labels, and the target label added when it is none
    of them. *)
Theorem predict_empty_frame (storage : gmap string json) (df : DataFrame A)
    (model : Model V) (target : string) (input_columns : column_key) :
  result (prepare_ storage df) = inr (model, Scalar (PyStr target), input_columns) ->
  rows df = [] ->
  default 32 (batch_size model) <> 0 ->
  embed_calls (journal (predict_ storage df)) = [] /\
  result (predict_ storage df)
  = inr (mkDataFrame
           (let labels := PyString.strip "`" <$> columns df in
            if bool_decide (target ∈ labels) then labels else labels ++ [target])
           []).
Proof.
  intros Hok Hrows HB. rewrite (predict_run _ _ _ _ _ _ _ _ _ Hok). cbv zeta.
  set (df' := set_columns _ df).
  destruct (prepare_inr _ _ _ _ _ _ _ _ _ Hok) as [_ (before & Hj & Hbefore)].
  assert (Hprep : embed_calls (journal (prepare_ storage df)) = []).
  { rewrite Hj, embed_calls_app, Hbefore. done. }
  cbn [prepend journal]. rewrite !embed_calls_app, Hprep.
  assert (Hnone : range_list 0 (len df') (default 32 (batch_size model)) = []).
  { unfold range_list, range_len, len. subst df'. cbn [set_columns rows]. rewrite Hrows.
    cbn [length Z.of_nat]. by destruct (0 <? default 32 (batch_size model)). }
  assert (Hrun : embed_calls (journal (embed_all model df' input_columns df')) = []
                 /\ result (embed_all model df' input_columns df') = inr []).
  { unfold embed_all. rewrite !bind_log, bind_lift. unfold py_range.
    rewrite (proj2 (Z.eqb_neq _ 0)) by done. rewrite Hnone. cbn [for_each].
    by rewrite bind_ret, bind_log. }
  destruct Hrun as [-> ->]. split; [done|].
  cbn [result]. unfold assign. cbv zeta. subst df'. cbn [set_columns rows columns length].
  rewrite Hrows, (andb_comm (1 <? _)%nat).
  destruct (length (filter _ _)) as [|k]; cbn [length Nat.eqb Nat.ltb Nat.leb andb negb zip_with];
    by destruct (bool_decide _).
Qed.


End PredictOutcome.

Section SelectFacts.
Context {A : Type} `{Str A}.

Lemma filter_none {X} (P : X -> Prop) `{forall x, Decision (P x)} (l : list X) :
  Forall (fun x => ~ P x) l -> filter P l = [].
Proof.
  induction 1 as [|x l Hx _ IH]; [done|]. rewrite filter_cons.
  by rewrite decide_False.
Qed.

Lemma filter_eq_distinct (labels : list string) (c : string) :
  NoDup labels -> c ∈ labels -> filter (fun l => l = c) labels = [c].
Proof.
  induction 1 as [|l labels Hl Hnd IH]; [by intros ?%elem_of_nil|].
  intros Hc. rewrite filter_cons. destruct (decide (l = c)) as [->|Hne].
  - f_equal. apply filter_none. apply Forall_forall. intros x Hx ->. done.
  - apply IH. apply elem_of_cons in Hc as [->|Hc]; done.
Qed.

Lemma cells_of_head (l : string) (labels : list string) (a : A) (r : list A) :
  l ∉ labels -> cells_of (l :: labels) (a :: r) l = [a].
Proof.
  intros Hl. unfold cells_of. cbn [zip zip_with]. rewrite filter_cons. cbn [fst].
  rewrite decide_True by done. cbn [fmap list_fmap snd]. f_equal.
  rewrite filter_none; [done|]. apply Forall_forall.
  intros [l' a'] Hin Heq. cbn in Heq. subst l'.
  apply Hl. by apply elem_of_zip_l in Hin.
Qed.

Lemma cells_of_tail (l c : string) (labels : list string) (a : A) (r : list A) :
  l <> c -> cells_of (l :: labels) (a :: r) c = cells_of labels r c.
Proof.
  intros Hne. unfold cells_of. cbn [zip zip_with]. rewrite filter_cons. cbn [fst].
  by rewrite decide_False.
Qed.

Lemma cells_of_distinct (labels : list string) (r : list A) (c : string) :
  NoDup labels -> c ∈ labels -> length r = length labels ->
  length (cells_of labels r c) = 1%nat.
Proof.
  intros Hnd. revert r. induction Hnd as [|l labels Hl Hnd IH]; intros r Hc Hlen.
  { by apply elem_of_nil in Hc. }
  destruct r as [|a r]; [done|]. injection Hlen as Hlen.
  destruct (decide (l = c)) as [->|Hne].
  - by rewrite cells_of_head.
  - rewrite cells_of_tail by done. apply IH; [|done].
    apply elem_of_cons in Hc as [->|Hc]; done.
Qed.

Lemma cells_of_all (labels : list string) (r : list A) :
  NoDup labels -> length r = length labels ->
  labels ≫= cells_of labels r = r.
Proof.
  intros Hnd. revert r. induction Hnd as [|l labels Hl Hnd IH]; intros [|a r] Hlen; try done.
  injection Hlen as Hlen. cbn [mbind list_bind].
  rewrite cells_of_head by done. cbn [app]. f_equal. rewrite <- (IH r Hlen) at 2.
  apply Forall_bind_ext, Forall_forall. intros c Hc.
  apply cells_of_tail. by intros ->.
Qed.

Lemma selected_labels_distinct (labels cols : list string) :
  NoDup labels -> Forall (fun col => col ∈ labels) cols ->
  selected_labels labels cols = cols.
Proof.
  intros Hnd Hcols. unfold selected_labels. induction Hcols as [|c cols Hc _ IH]; [done|].
  cbn [mbind list_bind]. by rewrite (filter_eq_distinct _ _ Hnd Hc), IH.
Qed.

(** X20.  On a dataframe with distinct labels and rows as long as the
    labels, with input columns that are labels of it: the selection
    [df[input_columns]] has the input columns as labels, in the order
    given, and one cell per input column in every row; so every document
    joins one part [column: value] per input column; and with all labels
    as input columns the documents are the serialized rows. *)
Theorem documents_distinct_labels (input_columns : list string) (df : DataFrame A) :
  NoDup (columns df) ->
  Forall (fun col => col ∈ columns df) input_columns ->
  Forall (fun r => length r = length (columns df)) (rows df) ->
  columns (select input_columns df) = input_columns /\
  Forall (fun r => length r = length input_columns) (rows (select input_columns df)) /\
  documents input_columns df
  = (fun r => PyString.join PyString.nl
                (field_line <$> zip input_columns (selected_cells (columns df) input_columns r)))
      <$> rows df /\
  documents (columns df) df = (fun r => row_to_document (mkSeries (columns df) r)) <$> rows df.
Proof.
  intros Hnd Hcols Hrect.
  assert (Hlabels := selected_labels_distinct _ _ Hnd Hcols).
  split; [done|]. split; [|split].
  - cbn [select rows]. apply Forall_fmap. eapply Forall_impl; [exact Hrect|].
    intros r Hr. cbn. unfold selected_cells.
    clear Hlabels. induction Hcols as [|c cols Hc _ IH]; [done|].
    cbn [mbind list_bind]. rewrite length_app, IH.
    by rewrite (cells_of_distinct _ _ _ Hnd Hc Hr).
  - unfold documents, apply_rows. cbn [select rows columns]. rewrite Hlabels.
    by rewrite <- list_fmap_compose.
  - unfold documents, apply_rows. cbn [select rows columns].
    rewrite selected_labels_distinct by (done || by apply Forall_forall).
    rewrite <- list_fmap_compose. apply Forall_fmap_ext_1.
    eapply Forall_impl; [exact Hrect|]. intros r Hr. cbn.
    unfold selected_cells. by rewrite cells_of_all.
Qed.

End SelectFacts.

(** ** Runs of [predict] on the small installation *)

(** X15, on input columns stored as the string [ab], whose characters
    are labels of the dataframe: the string is no label. *)
Lemma predict_failures_after_prepare_witness :
  (KeyError "ab" = ValueError "range() arg 3 must not be zero" /\
   default 32 (batch_size (Sample.choking "text: poison" (Some 2))) = 0) \/
  (exists s, Label "ab" = Label s /\
     ((KeyError "ab" = KeyError s /\ s ∉ PyString.strip "`" <$> columns Example.unquoted) \/
      (KeyError "ab"
       = TypeError
           "LangchainEmbeddingHandler.row_to_document() got an unexpected keyword argument 'axis'" /\
       length (filter (fun label => label = s)
                 (PyString.strip "`" <$> columns Example.unquoted))
       = 1%nat))) \/
  (exists inner_e, KeyError "ab" = embedding_failed inner_e) \/
  (KeyError "ab" = TypeError "keywords must be strings" /\
   forall t, Scalar (PyStr "target") <> Scalar (PyStr t)) \/
  (exists t, Scalar (PyStr "target") = Scalar (PyStr t) /\
             ~ at_most_one_column t (PyString.strip "`" <$> columns Example.unquoted) /\
             KeyError "ab" = ValueError "Columns must be same length as key") \/
  (exists t n, Scalar (PyStr "target") = Scalar (PyStr t) /\
               n <> length (rows Example.unquoted) /\
               KeyError "ab"
               = ValueError ("Length of values (" +:+ str (Z.of_nat n) +:+
                             ") does not match length of index (" +:+
                             str (Z.of_nat (length (rows Example.unquoted))) +:+ ")")).
Proof.
  apply (predict_failures_after_prepare Sample.registry Sample.library
           Sample.vllm_class Sample.fastapi_class
           (Sample.storage_of (Example.args_with_string "ab")) Example.unquoted
           (Sample.choking "text: poison" (Some 2)) (Scalar (PyStr "target")) (Label "ab")).
  - vm_compute. reflexivity.
  - vm_compute. reflexivity.
Defined.

(** Runs of [predict] that fail after line 177.  Input columns stored as
    the string [ab] on the labels [a], [b] and [target]: the [KeyError] of
    [ab].  Stored as the string [a]: the [TypeError] of the serializer.  A
    target that labels two columns of a dataframe with two rows: the
    [ValueError] of the columns.  A negative batch size on three rows: the
    [ValueError] of the lengths. *)
Lemma predict_failure_runs :
  result (Sample.run_predict (Example.args_with_string "ab") Example.unquoted)
  = inl (KeyError "ab") /\
  result (Sample.run_predict (Example.args_with_string "a") Example.unquoted)
  = inl (TypeError
           "LangchainEmbeddingHandler.row_to_document() got an unexpected keyword argument 'axis'") /\
  PyString.strip "`" <$> columns Example.twice_targeted = ["target"; "target"; "a"] /\
  result (Sample.run_predict (Sample.stored_args ["a"]) Example.twice_targeted)
  = inl (ValueError "Columns must be same length as key") /\
  result (Sample.run_predict (Example.args_with_batch_size (-4)) Example.unquoted)
  = inl (ValueError "Length of values (0) does not match length of index (3)").
Proof. repeat split; vm_compute; reflexivity. Qed.

Lemma predict_returns_extended_frame_witness :
  let labels := PyString.strip "`" <$> columns Example.untargeted in
  exists target : string,
    (exists args, json_get (Sample.storage_of (Sample.stored_args ["a"])) "args"
                  = Some (JDict args) /\
                  args !! "target" = Some (Scalar (PyStr target))) /\
    length (rows (mkDataFrame ["a"; "b"; "target"]
                    [[Orig (PyInt 1); Orig (PyStr "x"); Embedding [4]];
                     [Orig (PyInt 2); Orig (PyStr "y"); Embedding [4]]]))
    = length (rows Example.untargeted) /\
    columns (mkDataFrame ["a"; "b"; "target"]
               [[Orig (PyInt 1); Orig (PyStr "x"); Embedding [4]];
                [Orig (PyInt 2); Orig (PyStr "y"); Embedding [4]]])
    = (if bool_decide (target ∈ labels) then labels else labels ++ [target]) /\
    (target ∉ labels ->
     original_cells <$> rows (mkDataFrame ["a"; "b"; "target"]
                                [[Orig (PyInt 1); Orig (PyStr "x"); Embedding [4]];
                                 [Orig (PyInt 2); Orig (PyStr "y"); Embedding [4]]])
     = rows Example.untargeted /\
     Forall (fun r => length (embedding_cells r) = 1%nat)
            (rows (mkDataFrame ["a"; "b"; "target"]
                     [[Orig (PyInt 1); Orig (PyStr "x"); Embedding [4]];
                      [Orig (PyInt 2); Orig (PyStr "y"); Embedding [4]]]))).
Proof.
  apply (predict_returns_extended_frame Sample.registry Sample.library
           Sample.vllm_class Sample.fastapi_class
           (Sample.storage_of (Sample.stored_args ["a"])) Example.untargeted
           (mkDataFrame ["a"; "b"; "target"]
              [[Orig (PyInt 1); Orig (PyStr "x"); Embedding [4]];
               [Orig (PyInt 2); Orig (PyStr "y"); Embedding [4]]])).
  vm_compute. reflexivity.
Defined.

Lemma predict_nonpositive_batch_size_witness :
  embed_calls (journal (predict Sample.registry Sample.library Sample.vllm_class
                          Sample.fastapi_class
                          (Sample.storage_of (Example.args_with_batch_size (-4)))
                          Sample.frame)) = [] /\
  result (predict Sample.registry Sample.library Sample.vllm_class Sample.fastapi_class
            (Sample.storage_of (Example.args_with_batch_size (-4))) Sample.frame)
  = if default 32 (batch_size (Sample.choking "text: poison" (Some (-4)))) =? 0
    then inl (ValueError "range() arg 3 must not be zero")
    else match rows Sample.frame with
         | [] => inr (mkDataFrame
                        (let labels := PyString.strip "`" <$> columns Sample.frame in
                         if bool_decide ("target" ∈ labels) then labels
                         else labels ++ ["target"])
                        [])
         | _ :: _ =>
             inl (ValueError ("Length of values (0) does not match length of index (" +:+
                              str (Z.of_nat (length (rows Sample.frame))) +:+ ")"))
         end.
Proof.
  apply (predict_nonpositive_batch_size Sample.registry Sample.library
           Sample.vllm_class Sample.fastapi_class
           (Sample.storage_of (Example.args_with_batch_size (-4))) Sample.frame
           (Sample.choking "text: poison" (Some (-4))) "target" (Labels ["a"])).
  - vm_compute. reflexivity.
  - cbn. lia.
Defined.

Lemma predict_empty_frame_witness :
  embed_calls (journal (predict Sample.registry Sample.library Sample.vllm_class
                          Sample.fastapi_class
                          (Sample.storage_of (Sample.stored_args ["a"]))
                          Example.no_rows)) = [] /\
  result (predict Sample.registry Sample.library Sample.vllm_class Sample.fastapi_class
            (Sample.storage_of (Sample.stored_args ["a"])) Example.no_rows)
  = inr (mkDataFrame
           (let labels := PyString.strip "`" <$> columns Example.no_rows in
            if bool_decide ("target" ∈ labels) then labels else labels ++ ["target"])
           []).
Proof.
  apply (predict_empty_frame Sample.registry Sample.library
           Sample.vllm_class Sample.fastapi_class
           (Sample.storage_of (Sample.stored_args ["a"])) Example.no_rows
           (Sample.choking "text: poison" (Some 2)) "target" (Labels ["a"])).
  - vm_compute. reflexivity.
  - reflexivity.
  - cbn. lia.
Defined.


Lemma documents_distinct_labels_witness :
  columns (select ["b"; "a"] Sample.plain) = ["b"; "a"] /\
  Forall (fun r => length r = length ["b"; "a"]) (rows (select ["b"; "a"] Sample.plain)) /\
  documents ["b"; "a"] Sample.plain
  = (fun r => PyString.join PyString.nl
                (field_line <$> zip ["b"; "a"]
                   (selected_cells (columns Sample.plain) ["b"; "a"] r)))
      <$> rows Sample.plain /\
  documents (columns Sample.plain) Sample.plain
  = (fun r => row_to_document (mkSeries (columns Sample.plain) r)) <$> rows Sample.plain.
Proof.
  apply (documents_distinct_labels ["b"; "a"] Sample.plain).
  - apply (bool_decide_unpack _). vm_compute. exact I.
  - repeat (constructor; [apply (bool_decide_unpack _); vm_compute; exact I|]). constructor.
  - repeat (constructor; [reflexivity|]). constructor.
Defined.

(* ===================================================================== *)
(** * The Jira handler: connecting and checking the connection *)
(* ===================================================================== *)

Section JiraFacts.
Import JiraHandler.
Context {Connection : Type}.
Variable Jira : gmap string argument -> error + Connection.
Variable myself : Connection -> error + unit.

Abbreviation connect_ := (connect Jira).
Abbreviation check_ := (check_connection Jira myself).

Lemma config_of_required (connection_data : gmap string scalar) :
  match config_of connection_data with
  | inr _ => Forall (fun key => is_Some (connection_data !! key))
                    (required_parameters connection_data)
  | inl e =>
      e_kind e = ValueError /\
      Exists (fun key => connection_data !! key = None)
             (required_parameters connection_data)
  end.
Proof.
  unfold config_of, required_parameters. destruct (is_cloud connection_data).
  - destruct (connection_data !! "username") as [username|] eqn:Hu;
      [|split; [done|]; by apply Exists_cons_hd].
    destruct (connection_data !! "api_token") as [api_token|] eqn:Ht;
      [|split; [done|]; by apply Exists_cons_tl, Exists_cons_hd].
    destruct (connection_data !! "url") as [url|] eqn:Hurl;
      [|split; [done|]; by do 2 apply Exists_cons_tl; apply Exists_cons_hd].
    repeat constructor; by rewrite ?Hu, ?Ht, ?Hurl.
  - destruct (connection_data !! "url") as [url|] eqn:Hurl;
      [|split; [done|]; by apply Exists_cons_hd].
    destruct (connection_data !! "personal_access_token");
      repeat constructor; by rewrite Hurl.
Qed.

(** X21.  [connect] calls the client constructor at most once.  It calls
    it not at all when the handler is connected, or when a required
    parameter is missing (username, api_token and url for Jira Cloud, url
    for Jira Server); in the latter case it raises a [ValueError] before
    anything is logged or changed.  It calls it once, with the
    configuration made from the connection data, exactly when the handler
    is not connected and every required parameter is given. *)
Theorem connect_calls_constructor (self : handler Connection) :
  match constructions (trace (connect_ self)) with
  | [] =>
      is_connected self = true \/
      (Exists (fun key => connection_data self !! key = None)
              (required_parameters (connection_data self)) /\
       exists msg, connect_ self = Outcome self [] (inl (mkError ValueError msg)))
  | [config] =>
      is_connected self = false /\
      Forall (fun key => is_Some (connection_data self !! key))
             (required_parameters (connection_data self)) /\
      config_of (connection_data self) = inr config
  | _ => False
  end.
Proof.
  unfold connect. destruct (is_connected self) eqn:Hc; [by left|].
  pose proof (config_of_required (connection_data self)) as Hreq.
  destruct (config_of (connection_data self)) as [[k msg]|config].
  - right. destruct Hreq as [Hk Hmissing]. cbn in Hk. subst k. cbn [trace constructions omap].
    split; [done|]. by exists msg.
  - destruct (Jira config); cbn; done.
Qed.

(** X22.  What the client constructor receives.  For Jira Cloud (the
    default, and whenever [cloud] is given a value that Python takes as
    true): the username, the API token as [password], and the URL, and
    nothing else.  For Jira Server: the URL and [cloud] set to [False],
    never a username or a password, whatever the connection data hold;
    and session headers with a bearer token exactly when a personal access
    token is given. *)
Theorem connect_config_credentials (self : handler Connection)
    (config : gmap string argument) :
  config ∈ constructions (trace (connect_ self)) ->
  let data := connection_data self in
  if is_cloud data
  then config !! "username" = Plain <$> data !! "username" /\
       config !! "password" = Plain <$> data !! "api_token" /\
       config !! "url" = Plain <$> data !! "url" /\
       dom config = ({["username"; "password"; "url"]} : gset string)
  else config !! "url" = Plain <$> data !! "url" /\
       config !! "cloud" = Some (Plain (PyBool false)) /\
       config !! "username" = None /\ config !! "password" = None /\
       config !! "session"
       = (fun token => Headers (<["Authorization" := "Bearer " +:+ str token]> ∅))
           <$> data !! "personal_access_token".
Proof.
  intros Hin. cbv zeta.
  assert (Hconfig : config_of (connection_data self) = inr config).
  { revert Hin. unfold connect. destruct (is_connected self); [by intros ?%elem_of_nil|].
    destruct (config_of (connection_data self)) as [e|config'];
      [by intros ?%elem_of_nil|].
    destruct (Jira config'); cbn; intros Hin%list_elem_of_singleton; by subst. }
  revert Hconfig. unfold config_of. destruct (is_cloud (connection_data self)).
  - destruct (connection_data self !! "username") as [username|]; [|done].
    destruct (connection_data self !! "api_token") as [api_token|]; [|done].
    destruct (connection_data self !! "url") as [url|]; [|done].
    intros [= <-]. rewrite !dom_insert_L, dom_empty_L.
    repeat split; try (by simplify_map_eq); set_solver.
  - destruct (connection_data self !! "url") as [url|]; [|done].
    destruct (connection_data self !! "personal_access_token") as [token|];
      intros [= <-]; repeat split; by simplify_map_eq.
Qed.

(** X23.  Once [connect] has returned, a second call returns the same
    connection and does nothing else: no client is made, nothing is
    logged, the handler is unchanged. *)
Theorem connect_reuses_connection (self : handler Connection)
    (c : option Connection) :
  returned (connect_ self) = inr c ->
  connect_ (handler_after (connect_ self))
  = Outcome (handler_after (connect_ self)) [] (inr c).
Proof.
  unfold connect at 1 3 4. destruct (is_connected self) eqn:Hc.
  - cbn [returned handler_after]. intros [= <-]. unfold connect. by rewrite Hc.
  - destruct (config_of (connection_data self)) as [e|config]; [done|].
    destruct (Jira config) as [e|c']; [done|]. cbn [returned handler_after].
    by intros [= <-].
Qed.

(** The run of [connect], case by case. *)
Lemma connect_run (self : handler Connection) :
  (connect_ self = Outcome self [] (inr (connection self)) /\ is_connected self = true) \/
  (exists e, connect_ self = Outcome self [] (inl e) /\ is_connected self = false /\
             config_of (connection_data self) = inl e) \/
  (exists config e,
      connect_ self
      = Outcome self [Constructed config;
                      Logged ERROR ("Unknown error connecting to Jira, " +:+ e_str e +:+ "!")]
                (inl e) /\
      is_connected self = false /\
      config_of (connection_data self) = inr config /\ Jira config = inl e) \/
  (exists config c,
      connect_ self
      = Outcome (mkHandler (connection_data self) (Some c) true) [Constructed config]
                (inr (Some c)) /\
      is_connected self = false /\
      config_of (connection_data self) = inr config /\ Jira config = inr c).
Proof.
  unfold connect. destruct (is_connected self); [by left|]. right.
  destruct (config_of (connection_data self)) as [e|config]; [left; eauto|]. right.
  destruct (Jira config) as [e|c] eqn:HJ; [left|right]; eauto 10.
Qed.

(** The run of [check_connection] on what [connect] does. *)
Lemma check_connection_run (self : handler Connection) :
  let connected := connect_ self in
  let after flag := mkHandler (connection_data (handler_after connected))
                              (connection (handler_after connected)) flag in
  let failed asked e :=
    Outcome (after false) (trace connected ++ asked ++ [failure_record e])
            (inr (mkStatusResponse false (Some (e_str e)))) in
  check_ self =
  match returned connected with
  | inl e => failed [] e
  | inr None =>
      failed [] (mkError OtherError "'NoneType' object has no attribute 'myself'")
  | inr (Some c) =>
      match myself c with
      | inl e => failed [AskedMyself c] e
      | inr _ => Outcome (after true) (trace connected ++ [AskedMyself c])
                         (inr (mkStatusResponse true None))
      end
  end.
Proof.
  cbv zeta. unfold check_connection.
  destruct (returned (connect_ self)) as [e|[c|]]; cbn [ask_myself]; try reflexivity.
  destruct (myself c) as [e|u]; reflexivity.
Qed.

(** X24.  [check_connection] raises nothing and returns a response; the
    handler's flag [is_connected] is the [success] of the response, and
    the connection data are untouched.  On success there is no error
    message and no error record, the handler holds a client, and the last
    thing done was a call of [myself] on that client, which did not raise.
    On failure the message of the response is the [str] of the exception,
    and the last thing done was to log the record for that exception. *)
Theorem check_connection_flag (self : handler Connection) :
  exists response,
    returned (check_ self) = inr response /\
    is_connected (handler_after (check_ self)) = success response /\
    connection_data (handler_after (check_ self)) = connection_data self /\
    (if success response
     then error_message response = None /\
          error_records (trace (check_ self)) = [] /\
          exists c, connection (handler_after (check_ self)) = Some c /\
                    myself c = inr tt /\
                    last (trace (check_ self)) = Some (AskedMyself c)
     else exists e, error_message response = Some (e_str e) /\
                    last (trace (check_ self)) = Some (failure_record e)).
Proof.
  rewrite check_connection_run. cbv zeta.
  assert (Hdata : connection_data (handler_after (connect_ self)) = connection_data self).
  { destruct (connect_run self) as [[-> _]|[(e & -> & _)|[(config & e & -> & _)
      |(config & c & -> & _)]]]; done. }
  assert (Hconn : forall c, returned (connect_ self) = inr (Some c) ->
            connection (handler_after (connect_ self)) = Some c /\
            error_records (trace (connect_ self)) = []).
  { intros c.
    destruct (connect_run self) as [[-> _]|[(e & -> & _)|[(config & e & -> & _)
      |(config & c' & -> & _)]]]; cbn; try done; by intros [= ->]. }
  destruct (returned (connect_ self)) as [e|[c|]] eqn:Hret.
  - eexists. split; [reflexivity|]. cbn. split; [done|]. split; [done|].
    exists e. split; [done|]. by rewrite last_snoc.
  - destruct (Hconn _ eq_refl) as [Hc Hrec].
    destruct (myself c) as [e|[]] eqn:Hme.
    + eexists. split; [reflexivity|]. cbn. split; [done|]. split; [done|].
      exists e. split; [done|].
      change [AskedMyself c; failure_record e] with ([AskedMyself c] ++ [failure_record e]).
      by rewrite !app_assoc, last_snoc.
    + eexists. split; [reflexivity|]. cbn [success handler_after connection_data
        connection error_message trace is_connected]. split; [done|]. split; [done|].
      split; [done|]. split.
      * unfold error_records in *. rewrite !omap_app, Hrec. done.
      * exists c. split; [done|]. split; [done|]. by rewrite last_snoc.
  - eexists. split; [reflexivity|]. cbn. split; [done|]. split; [done|].
    exists (mkError OtherError "'NoneType' object has no attribute 'myself'").
    split; [done|]. by rewrite last_snoc.
Qed.

(** X25.  A handler whose flag [is_connected] is set holds a client:
    [connect] and [check_connection] preserve this. *)
Theorem connected_handler_has_connection (self : handler Connection) :
  (is_connected self = true -> is_Some (connection self)) ->
  (is_connected (handler_after (connect_ self)) = true ->
   is_Some (connection (handler_after (connect_ self)))) /\
  (is_connected (handler_after (check_ self)) = true ->
   is_Some (connection (handler_after (check_ self)))).
Proof.
  intros Hinv.
  assert (Hconnect : is_connected (handler_after (connect_ self)) = true ->
                     is_Some (connection (handler_after (connect_ self)))).
  { destruct (connect_run self) as [[-> _]|[(e & -> & Hc & _)|[(config & e & -> & Hc & _)
      |(config & c & -> & _)]]]; cbn [handler_after]; try done;
      try (by rewrite Hc). }
  split; [done|].
  rewrite check_connection_run. cbv zeta.
  destruct (connect_run self) as [[Hrun Hc]|[(e & Hrun & _)|[(config & e & Hrun & _)
      |(config & c & Hrun & _)]]]; rewrite Hrun in *; cbn [returned handler_after trace].
  - destruct (connection self) as [c|]; [|done].
    destruct (myself c); cbn; [done|eauto].
  - done.
  - done.
  - destruct (myself c); cbn; [done|eauto].
Qed.

(** X26.  A failed check on a connected handler: when [myself] raises,
    [check_connection] makes no new client, reports the failure, and
    clears the flag while the handler keeps the stale client; the next
    [connect] then does not hand out that client but calls the constructor
    again. *)
Theorem check_connection_drops_stale_flag (self : handler Connection)
    (c : Connection) (e : error) (config : gmap string argument) :
  is_connected self = true ->
  connection self = Some c ->
  myself c = inl e ->
  config_of (connection_data self) = inr config ->
  let checked := check_ self in
  trace checked = [AskedMyself c; failure_record e] /\
  returned checked = inr (mkStatusResponse false (Some (e_str e))) /\
  handler_after checked = mkHandler (connection_data self) (Some c) false /\
  constructions (trace (connect_ (handler_after checked))) = [config] /\
  returned (connect_ (handler_after checked))
  = match Jira config with
    | inr fresh => inr (Some fresh)
    | inl unknown_error => inl unknown_error
    end.
Proof.
  intros Hc Hconn Hme Hconfig. cbv zeta.
  assert (Hcheck : check_ self
                   = Outcome (mkHandler (connection_data self) (Some c) false)
                             [AskedMyself c; failure_record e]
                             (inr (mkStatusResponse false (Some (e_str e))))).
  { unfold check_connection, connect. rewrite Hc. cbn [returned handler_after trace].
    rewrite Hconn. cbn [ask_myself]. rewrite Hme. reflexivity. }
  rewrite Hcheck. cbn [trace returned handler_after]. repeat split.
  - unfold connect. cbn [is_connected connection_data]. rewrite Hconfig.
    by destruct (Jira config).
  - unfold connect. cbn [is_connected connection_data]. rewrite Hconfig.
    by destruct (Jira config).
Qed.

(** X27.  The error records of a check: none exactly when the check
    succeeds, never more than two, and two exactly when the handler was
    not connected and the client constructor raised, which [connect] logs
    before [check_connection] logs it again. *)
Theorem check_connection_error_records (self : handler Connection) :
  let records := error_records (trace (check_ self)) in
  (length records <= 2)%nat /\
  (records = [] <-> exists response, returned (check_ self) = inr response /\
                                     success response = true) /\
  (length records = 2%nat <->
   is_connected self = false /\
   exists config e, config_of (connection_data self) = inr config /\
                    Jira config = inl e).
Proof.
  cbv zeta. unfold check_connection, connect.
  destruct (is_connected self) eqn:Hc.
  - cbn [returned trace handler_after]. destruct (connection self) as [c|]; cbn [ask_myself].
    + destruct (myself c) as [e|[]]; cbn.
      * unfold failure_record. destruct (e_kind e); cbn;
          (split; [lia|]); (split; [split; [done|by intros (? & [= <-] & ?)]|]);
          (split; [done|by intros [? _]]).
      * split; [lia|]. split; [split; [eauto|done]|]. split; [done|by intros [? _]].
    + cbn. split; [lia|]. split; [split; [done|by intros (? & [= <-] & ?)]|].
      split; [done|by intros [? _]].
  - destruct (config_of (connection_data self)) as [e|config] eqn:Hconfig.
    + cbn. unfold failure_record. destruct (e_kind e); cbn;
        (split; [lia|]); (split; [split; [done|by intros (? & [= <-] & ?)]|]);
        (split; [done|by intros [_ (? & ? & ? & _)]]).
    + destruct (Jira config) as [e|c] eqn:HJ.
      * cbn. unfold failure_record. destruct (e_kind e); cbn;
          (split; [lia|]); (split; [split; [done|by intros (? & [= <-] & ?)]|]);
          (split; [intros _; split; [done|]; by exists config, e|done]).
      * cbn [returned trace handler_after ask_myself].
        destruct (myself c) as [e|[]]; cbn.
        -- unfold failure_record. destruct (e_kind e); cbn;
             (split; [lia|]); (split; [split; [done|by intros (? & [= <-] & ?)]|]);
             (split; [done|]); intros [_ (config' & e' & [= <-] & HJ')]; congruence.
        -- split; [lia|]. split; [split; [eauto|done]|].
           split; [done|]. intros [_ (config' & e' & [= <-] & HJ')]; congruence.
Qed.

End JiraFacts.

Section JiraRuns.
Import JiraHandler.

Lemma connect_config_credentials_witness :
  let data := connection_data (JiraSample.fresh JiraSample.server_data) in
  if is_cloud data
  then JiraSample.server_config !! "username" = Plain <$> data !! "username" /\
       JiraSample.server_config !! "password" = Plain <$> data !! "api_token" /\
       JiraSample.server_config !! "url" = Plain <$> data !! "url" /\
       dom JiraSample.server_config = ({["username"; "password"; "url"]} : gset string)
  else JiraSample.server_config !! "url" = Plain <$> data !! "url" /\
       JiraSample.server_config !! "cloud" = Some (Plain (PyBool false)) /\
       JiraSample.server_config !! "username" = None /\
       JiraSample.server_config !! "password" = None /\
       JiraSample.server_config !! "session"
       = (fun token => Headers (<["Authorization" := "Bearer " +:+ str token]> ∅))
           <$> data !! "personal_access_token".
Proof.
  apply (connect_config_credentials JiraSample.Jira
           (JiraSample.fresh JiraSample.server_data) JiraSample.server_config).
  apply list_elem_of_singleton. reflexivity.
Defined.

Lemma connect_reuses_connection_witness :
  connect JiraSample.Jira
    (handler_after (connect JiraSample.Jira
                      (JiraSample.fresh (JiraSample.cloud_data "https://jira.example"))))
  = Outcome
      (handler_after (connect JiraSample.Jira
                        (JiraSample.fresh (JiraSample.cloud_data "https://jira.example"))))
      [] (inr (Some "https://jira.example")).
Proof.
  apply (connect_reuses_connection JiraSample.Jira
           (JiraSample.fresh (JiraSample.cloud_data "https://jira.example"))
           (Some "https://jira.example")).
  reflexivity.
Defined.

Lemma connected_handler_has_connection_witness :
  (is_connected (handler_after (connect JiraSample.Jira
                   (JiraSample.fresh (JiraSample.cloud_data "https://jira.example"))))
   = true ->
   is_Some (connection (handler_after (connect JiraSample.Jira
                          (JiraSample.fresh (JiraSample.cloud_data "https://jira.example")))))) /\
  (is_connected (handler_after (check_connection JiraSample.Jira JiraSample.myself
                   (JiraSample.fresh (JiraSample.cloud_data "https://jira.example"))))
   = true ->
   is_Some (connection (handler_after (check_connection JiraSample.Jira JiraSample.myself
                          (JiraSample.fresh (JiraSample.cloud_data "https://jira.example")))))).
Proof.
  apply (connected_handler_has_connection JiraSample.Jira JiraSample.myself
           (JiraSample.fresh (JiraSample.cloud_data "https://jira.example"))).
  cbn. discriminate.
Defined.

Lemma check_connection_drops_stale_flag_witness :
  let checked := check_connection JiraSample.Jira JiraSample.myself JiraSample.stale in
  trace checked
  = [AskedMyself "https://down.example";
     failure_record (mkError HTTPError "503 Server Error")] /\
  returned checked
  = inr (mkStatusResponse false (Some (e_str (mkError HTTPError "503 Server Error")))) /\
  handler_after checked
  = mkHandler (connection_data JiraSample.stale) (Some "https://down.example") false /\
  constructions (trace (connect JiraSample.Jira (handler_after checked)))
  = [JiraSample.cloud_config "https://down.example"] /\
  returned (connect JiraSample.Jira (handler_after checked))
  = match JiraSample.Jira (JiraSample.cloud_config "https://down.example") with
    | inr fresh => inr (Some fresh)
    | inl unknown_error => inl unknown_error
    end.
Proof.
  apply (check_connection_drops_stale_flag JiraSample.Jira JiraSample.myself
           JiraSample.stale "https://down.example" (mkError HTTPError "503 Server Error")
           (JiraSample.cloud_config "https://down.example")).
  - reflexivity.
  - reflexivity.
  - reflexivity.
  - reflexivity.
Defined.

End JiraRuns.

